(** * SOLAR: device pairing and presence coordination

    A shallow embedding of [server.js] (the backend: message handler,
    pairing, sharing, unpairing and relay control routes, presence sweep)
    and of the firmware's [reconnectMQTT], with the properties of the
    pairing and presence subsystem proved over it.  The development goes
    on to the user, listing and history routes, the clean-up timer, the
    command handler, confirmation code and WiFi wait of the firmware, and
    the earlier revision of the server.

    Conventions of the embedding.
    - Request and message payloads are JavaScript values ([jsval]).
    - A [string] holds a text in UTF-8, the encoding in which the process
      exchanges texts with the bus and the database.
    - The PostgreSQL tables of [initDatabase] are lists of rows in insertion
      order; [SERIAL] columns draw from sequences that a ROLLBACK does not
      rewind.  A query binds its parameters before it runs: the database
      refuses a parameter that is not a value of the column it stands for
      (a number outside [BIGINT] or [INTEGER], a text with a NUL character
      or, on insertion, longer than its [VARCHAR(255)] column), the call
      throws, and the [catch] of the caller takes over.  Other failures of
      the storage (a lost connection, an exhausted sequence) are not
      modelled, and handlers run one at a time.
    - A Telegram identity is a number of a request and reaches the database
      as its decimal text.  The identities meant are the safe integers, of
      magnitude below [2^53], which the text carries digit by digit, and
      the numbers that are no [BIGINT]; a number in between arrives rounded
      to 17 digits and is not an identity the model follows.
    - A handler that talks to a checked-out client is a computation in the
      state monad [Tx] over that client; [BEGIN], [ROLLBACK] and [COMMIT]
      are operations of the monad.
    - [new Date()] and [CURRENT_TIMESTAMP] are an argument [now], in
      milliseconds. *)

From stdpp Require Import base option list strings gmap pretty sorting.
From Stdlib Require Import ZArith Lia Ascii.

Local Open Scope Z_scope.
Set Warnings "-register-all".

(** ** JavaScript values *)

Module JS.

(** The values [JSON.parse] and [express.json()] produce, plus [undefined]
    for an absent property.  Numbers are the integral ones. *)
Inductive jsval : Type :=
  | JUndefined
  | JNull
  | JBool (b : bool)
  | JNum (n : Z)
  | JStr (s : string)
  | JArr (vs : list jsval)
  | JObj (ps : list (string * jsval)).

(** ToBoolean: what [if (v)], [!v] and [v || w] test. *)
Definition truthy (v : jsval) : bool :=
  match v with
  | JUndefined | JNull => false
  | JBool b => b
  | JNum n => negb (n =? 0)
  | JStr s => negb (String.eqb s "")
  | JArr _ | JObj _ => true
  end.

(** [a === b].  Arrays and objects compare by identity, and no two decoded
    payloads share an object. *)
Definition strict_eq (a b : jsval) : bool :=
  match a, b with
  | JUndefined, JUndefined => true
  | JNull, JNull => true
  | JBool x, JBool y => Bool.eqb x y
  | JNum x, JNum y => x =? y
  | JStr x, JStr y => String.eqb x y
  | _, _ => false
  end.

Fixpoint assoc (k : string) (ps : list (string * jsval)) : jsval :=
  match ps with
  | [] => JUndefined
  | (k', v) :: ps' => if String.eqb k k' then v else assoc k ps'
  end.

(** [v.k] for the property names the handlers read (none of which is
    defined on a primitive or an array).  [None] is the TypeError raised on
    [null] and [undefined]. *)
Definition get_prop (v : jsval) (k : string) : option jsval :=
  match v with
  | JUndefined | JNull => None
  | JObj ps => Some (assoc k ps)
  | _ => Some JUndefined
  end.

(** The units of a string, for a string of ASCII characters, each of
    which is one byte here. *)
Fixpoint chars (s : string) : list jsval :=
  match s with
  | EmptyString => []
  | String c s' => JStr (String c EmptyString) :: chars s'
  end.

(** The own enumerable properties [{...v}] copies. *)
Definition spread (v : jsval) : list (string * jsval) :=
  match v with
  | JObj ps => ps
  | JArr vs => imap (λ i x, (pretty i, x)) vs
  | JStr s => imap (λ i x, (pretty i, x)) (chars s)
  | _ => []
  end.

(** Properties of an object literal other than those in [ks], which the
    literal assigns after the spread. *)
Definition without (ks : list string) (ps : list (string * jsval))
  : list (string * jsval) :=
  filter (λ p, p.1 ∉ ks) ps.

End JS.
Import JS.

(** ** The types of the columns *)

Module Column.

(** [BIGINT], for a parameter that is a number: node-postgres sends the text
    of [toString()], which for the numbers of magnitude [2^63] reads
    [9223372036854776000], beyond the last BIGINT, and for every number of
    smaller magnitude a numeral within the type; for a safe integer, of
    magnitude below [2^53], the numeral of the number itself. *)
Definition bigint (n : Z) : bool := (- 2 ^ 63 <? n) && (n <? 2 ^ 63).

(** [BIGINT], for a parameter that is a decimal numeral, as in a path. *)
Definition bigint_numeral (n : Z) : bool := (- 2 ^ 63 <=? n) && (n <? 2 ^ 63).

(** [INTEGER] *)
Definition integer (n : Z) : bool := (- 2 ^ 31 <=? n) && (n <? 2 ^ 31).

(** A text the database reads: one without the character NUL. *)
Fixpoint text (s : string) : bool :=
  match s with
  | EmptyString => true
  | String c s' => negb (Ascii.eqb c "000") && text s'
  end.

(** The characters of a text: the bytes of its UTF-8 encoding other than
    those that continue a character. *)
Fixpoint characters (s : string) : nat :=
  match s with
  | EmptyString => 0
  | String c s' =>
      ((if (128 <=? nat_of_ascii c) && (nat_of_ascii c <? 192) then 0 else 1)
       + characters s')%nat
  end.

(** [VARCHAR(n)], for a text to be stored.  (PostgreSQL stores a longer
    text whose surplus is blanks, cut to [n] characters; here it is refused
    like any other of its length, and the theorems on a stored text are
    about texts that fit.) *)
Definition varchar (n : nat) (s : string) : bool :=
  text s && (characters s <=? n)%nat.

(** [isspace] and [isdigit] of the input functions. *)
Definition space (c : ascii) : bool :=
  (nat_of_ascii c =? 32)%nat
  || ((9 <=? nat_of_ascii c) && (nat_of_ascii c <=? 13))%nat.

Definition digit (c : ascii) : bool :=
  (48 <=? nat_of_ascii c)%nat && (nat_of_ascii c <=? 57)%nat.

Fixpoint spaces (s : string) : bool :=
  match s with
  | EmptyString => true
  | String c s' => space c && spaces s'
  end.

Fixpoint skip_spaces (s : string) : string :=
  match s with
  | EmptyString => EmptyString
  | String c s' => if space c then skip_spaces s' else s
  end.

(** The text without the white space at its end. *)
Fixpoint drop_spaces (s : string) : string :=
  match s with
  | EmptyString => EmptyString
  | String c s' => if spaces s then EmptyString else String c (drop_spaces s')
  end.

(** The digits of a numeral, then white space only. *)
Fixpoint numeral (s : string) (value : Z) : option Z :=
  match s with
  | EmptyString => Some value
  | String c s' =>
      if digit c then numeral s' (10 * value + (Z.of_nat (nat_of_ascii c) - 48))
      else if spaces s then Some value
      else None
  end.

(** The input function of INTEGER on a text: white space, a sign, decimal
    digits, white space.  (PostgreSQL 16 and later also read numerals of
    other bases and digits grouped by underscores; the theorems on
    telemetry are about members that are no strings.) *)
Definition integer_in (s : string) : option Z :=
  let '(negative, s1) :=
    match skip_spaces s with
    | String "-" s' => (true, s')
    | String "+" s' => (false, s')
    | s' => (false, s')
    end in
  match s1 with
  | EmptyString => None
  | String c _ =>
      if digit c then
        n ← numeral s1 0;
        let n := if negative : bool then - n else n in
        if integer n then Some n else None
      else None
  end.

Definition lower (c : ascii) : ascii :=
  if ((65 <=? nat_of_ascii c) && (nat_of_ascii c <=? 90))%nat
  then ascii_of_nat (nat_of_ascii c + 32)
  else c.

Fixpoint lowercase (s : string) : string :=
  match s with
  | EmptyString => EmptyString
  | String c s' => String (lower c) (lowercase s')
  end.

(** The input function of BOOLEAN on a text: between white space, a
    beginning of [true], [false], [yes] or [no], or [on], [of], [off], or
    one of the digits [1] and [0], in either case of the letters. *)
Definition boolean_in (s : string) : option bool :=
  let v := lowercase (drop_spaces (skip_spaces s)) in
  match v with
  | EmptyString => None
  | String c _ =>
      if Ascii.eqb c "t" then (if String.prefix v "true" then Some true else None)
      else if Ascii.eqb c "f" then (if String.prefix v "false" then Some false else None)
      else if Ascii.eqb c "y" then (if String.prefix v "yes" then Some true else None)
      else if Ascii.eqb c "n" then (if String.prefix v "no" then Some false else None)
      else if String.eqb v "on" then Some true
      else if String.eqb v "of" || String.eqb v "off" then Some false
      else if String.eqb v "1" then Some true
      else if String.eqb v "0" then Some false
      else None
  end.

(** A parameter as node-postgres prepares it ([null] for [null] and
    [undefined], the text of a number, a boolean or a string, a composite
    text for an array or an object), read as a BOOLEAN and as an INTEGER:
    [None] when the database refuses it, [Some None] for NULL. *)
Definition boolean (v : jsval) : option (option bool) :=
  match v with
  | JUndefined | JNull => Some None
  | JBool b => Some (Some b)
  | JNum n => if n =? 1 then Some (Some true)
              else if n =? 0 then Some (Some false)
              else None
  | JStr s => if text s then Some <$> boolean_in s else None
  | JArr _ | JObj _ => None
  end.

Definition integer_of (v : jsval) : option (option Z) :=
  match v with
  | JUndefined | JNull => Some None
  | JNum n => if integer n then Some (Some n) else None
  | JStr s => if text s then Some <$> integer_in s else None
  | JBool _ | JArr _ | JObj _ => None
  end.

End Column.

(** ** The database *)

(** [CREATE TABLE users]. *)
Record user_row := {
  u_id : Z;
  u_telegram_id : Z;
  u_username : option string;
  u_created_at : Z }.

(** [CREATE TABLE devices]. *)
Record device_row := {
  d_id : Z;
  d_device_id : string;
  d_name : string;
  d_created_at : Z }.

(** [CREATE TABLE user_devices]: the ownership edges. *)
Record user_device_row := {
  ud_id : Z;
  ud_user_id : Z;
  ud_device_id : Z;
  ud_is_owner : bool;
  ud_added_at : Z }.

(** [CREATE TABLE device_history]; the four telemetry columns may hold
    NULL. *)
Record history_row := {
  h_id : Z;
  h_device_id : string;
  h_relay_state : option bool;
  h_wifi_rssi : option Z;
  h_uptime : option Z;
  h_free_heap : option Z;
  h_timestamp : Z }.

Record Db := {
  users : list user_row;
  devices : list device_row;
  user_devices : list user_device_row;
  device_history : list history_row;
  users_id_seq : Z;
  devices_id_seq : Z;
  user_devices_id_seq : Z;
  device_history_id_seq : Z }.

Definition with_users (us : list user_row) (seq : Z) (db : Db) : Db :=
  {| users := us; devices := devices db; user_devices := user_devices db;
     device_history := device_history db;
     users_id_seq := seq; devices_id_seq := devices_id_seq db;
     user_devices_id_seq := user_devices_id_seq db;
     device_history_id_seq := device_history_id_seq db |}.

Definition with_devices (ds : list device_row) (seq : Z) (db : Db) : Db :=
  {| users := users db; devices := ds; user_devices := user_devices db;
     device_history := device_history db;
     users_id_seq := users_id_seq db; devices_id_seq := seq;
     user_devices_id_seq := user_devices_id_seq db;
     device_history_id_seq := device_history_id_seq db |}.

Definition with_user_devices (es : list user_device_row) (seq : Z) (db : Db) : Db :=
  {| users := users db; devices := devices db; user_devices := es;
     device_history := device_history db;
     users_id_seq := users_id_seq db; devices_id_seq := devices_id_seq db;
     user_devices_id_seq := seq;
     device_history_id_seq := device_history_id_seq db |}.

Definition with_device_history (hs : list history_row) (seq : Z) (db : Db) : Db :=
  {| users := users db; devices := devices db; user_devices := user_devices db;
     device_history := hs;
     users_id_seq := users_id_seq db; devices_id_seq := devices_id_seq db;
     user_devices_id_seq := user_devices_id_seq db;
     device_history_id_seq := seq |}.

(** The rows of [snap] with the sequences of [cur]: what a ROLLBACK to
    [snap] leaves. *)
Definition rolled_back (snap cur : Db) : Db :=
  {| users := users snap; devices := devices snap;
     user_devices := user_devices snap;
     device_history := device_history snap;
     users_id_seq := users_id_seq cur; devices_id_seq := devices_id_seq cur;
     user_devices_id_seq := user_devices_id_seq cur;
     device_history_id_seq := device_history_id_seq cur |}.

(** *** The SQL statements of the handlers, as functions on [Db] *)

Module Sql.

(** [SELECT id FROM users WHERE telegram_id = $1] *)
Definition select_user_id (telegram_id : Z) (db : Db) : list Z :=
  u_id <$> filter (λ u, u_telegram_id u = telegram_id) (users db).

(** [SELECT * FROM users WHERE telegram_id = $1] *)
Definition select_user (telegram_id : Z) (db : Db) : list user_row :=
  filter (λ u, u_telegram_id u = telegram_id) (users db).

(** [INSERT INTO users (telegram_id, username) VALUES ($1, $2) RETURNING *] *)
Definition insert_user (telegram_id : Z) (username : option string) (now : Z)
    (db : Db) : user_row * Db :=
  let row := {| u_id := users_id_seq db; u_telegram_id := telegram_id;
                u_username := username; u_created_at := now |} in
  (row, with_users (users db ++ [row]) (users_id_seq db + 1) db).

(** [SELECT id FROM devices WHERE device_id = $1] *)
Definition select_device_id (device_id : string) (db : Db) : list Z :=
  d_id <$> filter (λ d, d_device_id d = device_id) (devices db).

(** [INSERT INTO devices (device_id, name) VALUES ($1, $2) RETURNING id] *)
Definition insert_device (device_id name : string) (now : Z) (db : Db)
    : Z * Db :=
  let row := {| d_id := devices_id_seq db; d_device_id := device_id;
                d_name := name; d_created_at := now |} in
  (d_id row, with_devices (devices db ++ [row]) (devices_id_seq db + 1) db).

(** [SELECT * FROM user_devices WHERE user_id = $1 AND device_id = $2] *)
Definition select_user_device (user_id device_id : Z) (db : Db)
    : list user_device_row :=
  filter (λ e, ud_user_id e = user_id ∧ ud_device_id e = device_id)
         (user_devices db).

(** [INSERT INTO user_devices (user_id, device_id, is_owner) VALUES ($1, $2, $3)] *)
Definition insert_user_device (user_id device_id : Z) (is_owner : bool)
    (now : Z) (db : Db) : Db :=
  let row := {| ud_id := user_devices_id_seq db; ud_user_id := user_id;
                ud_device_id := device_id; ud_is_owner := is_owner;
                ud_added_at := now |} in
  with_user_devices (user_devices db ++ [row]) (user_devices_id_seq db + 1) db.

(** [DELETE FROM user_devices WHERE user_id = $1 AND device_id = $2] *)
Definition delete_user_device (user_id device_id : Z) (db : Db) : Db :=
  with_user_devices
    (filter (λ e, ¬ (ud_user_id e = user_id ∧ ud_device_id e = device_id))
            (user_devices db))
    (user_devices_id_seq db) db.

(** [SELECT COUNT( * ) FROM user_devices WHERE device_id = $1] *)
Definition count_user_devices (device_id : Z) (db : Db) : Z :=
  Z.of_nat (length (filter (λ e, ud_device_id e = device_id) (user_devices db))).

(** [DELETE FROM devices WHERE id = $1]; [user_devices.device_id] references
    [devices(id) ON DELETE CASCADE]. *)
Definition delete_device (id : Z) (db : Db) : Db :=
  with_user_devices
    (filter (λ e, ud_device_id e ≠ id) (user_devices db))
    (user_devices_id_seq db)
    (with_devices (filter (λ d, d_id d ≠ id) (devices db))
                  (devices_id_seq db) db).

(** [SELECT d.*, ud.is_owner, ud.added_at FROM devices d
     JOIN user_devices ud ON d.id = ud.device_id
     WHERE d.id = $1 AND ud.user_id = $2] *)
Definition select_device_with_access (id user_id : Z) (db : Db)
    : list (device_row * bool * Z) :=
  d ← filter (λ d, d_id d = id) (devices db);
  e ← filter (λ e, ud_device_id e = d_id d ∧ ud_user_id e = user_id)
             (user_devices db);
  [(d, ud_is_owner e, ud_added_at e)].

(** [SELECT ud.is_owner FROM user_devices ud
     JOIN users u ON u.id = ud.user_id
     JOIN devices d ON d.id = ud.device_id
     WHERE u.telegram_id = $1 AND d.device_id = $2] *)
Definition select_is_owner (telegram_id : Z) (device_id : string) (db : Db)
    : list bool :=
  e ← user_devices db;
  u ← filter (λ u, u_id u = ud_user_id e ∧ u_telegram_id u = telegram_id)
             (users db);
  d ← filter (λ d, d_id d = ud_device_id e ∧ d_device_id d = device_id)
             (devices db);
  [ud_is_owner e].

(** [INSERT INTO device_history (device_id, relay_state, wifi_rssi, uptime,
     free_heap) VALUES ($1, $2, $3, $4, $5)] *)
Definition insert_device_history (device_id : string)
    (relay_state : option bool) (wifi_rssi uptime free_heap : option Z)
    (now : Z) (db : Db) : Db :=
  let row := {| h_id := device_history_id_seq db; h_device_id := device_id;
                h_relay_state := relay_state; h_wifi_rssi := wifi_rssi;
                h_uptime := uptime; h_free_heap := free_heap;
                h_timestamp := now |} in
  with_device_history (device_history db ++ [row])
                      (device_history_id_seq db + 1) db.

End Sql.

(** ** HTTP responses *)

Inductive body :=
  | Error (msg : string)
  | Success
  | DeviceJson (row : option (device_row * bool * Z)).

Record response := {
  status : Z;
  json : body }.

Definition res_status (code : Z) (b : body) : response :=
  {| status := code; json := b |}.
Definition res_json (b : body) : response :=
  {| status := 200; json := b |}.

(** The failures of the pairing API, by the answers of the routes. *)
Definition InvalidCode : response :=
  res_status 400 (Error "Невірний код підтвердження або пристрій не знайдено").
Definition UserNotFound : response :=
  res_status 404 (Error "User not found").
Definition AlreadyLinked : response :=
  res_status 400 (Error "Ви вже маєте доступ до цього пристрою").
Definition UserIdRequired : response :=
  res_status 400 (Error "userId is required").
Definition NotFound : response :=
  res_status 404 (Error "User or device not found").
Definition Forbidden : response :=
  res_status 403 (Error "Тільки власник може ділитися пристроєм").
Definition DeviceNotFound : response :=
  res_status 404 (Error "Device not found").
Definition TargetAlreadyLinked : response :=
  res_status 400 (Error "Користувач вже має доступ до цього пристрою").
(** The answer of every [catch]. *)
Definition InternalServerError : response :=
  res_status 500 (Error "Internal server error").

(** ** Transactions on a pooled client *)

(** A client checked out with [pool.connect()]: the connection's current
    view of the database and the rows as they were at the last [BEGIN]. *)
Record client := {
  snapshot : Db;
  conn : Db }.

(** What the [try] block of a route does on its client; [None] is an
    exception on its way to the [catch]. *)
Definition Tx (A : Type) : Type := client → option A * client.

#[global] Instance Tx_ret : MRet Tx := λ A x c, (Some x, c).
#[global] Instance Tx_bind : MBind Tx :=
  λ A B f m c,
    match m c with
    | (Some x, c') => f x c'
    | (None, c') => (None, c')
    end.

Definition throw {A} : Tx A := λ c, (None, c).

(** [await client.query(sql)] for a statement that returns rows and may
    write, for a read, and for a write without result. *)
Definition query {A} (q : Db → A * Db) : Tx A :=
  λ c, let '(x, db') := q (conn c) in
       (Some x, {| snapshot := snapshot c; conn := db' |}).
Definition select {A} (q : Db → A) : Tx A :=
  λ c, (Some (q (conn c)), c).
Definition exec (q : Db → Db) : Tx unit :=
  λ c, (Some tt, {| snapshot := snapshot c; conn := q (conn c) |}).

(** [await client.query(sql, params)] with parameters from the request:
    they are bound before the statement runs, and the call throws when the
    database does not accept them. *)
Definition taking (accepted : bool) {A} (statement : Tx A) : Tx A :=
  if accepted then statement else throw.

Definition BEGIN : Tx unit :=
  λ c, (Some tt, {| snapshot := conn c; conn := conn c |}).
Definition ROLLBACK : Tx unit :=
  λ c, (Some tt, {| snapshot := snapshot c;
                    conn := rolled_back (snapshot c) (conn c) |}).
Definition COMMIT : Tx unit :=
  λ c, (Some tt, {| snapshot := conn c; conn := conn c |}).

(** [const client = await pool.connect(); try { ... } catch (error)
    { await client.query('ROLLBACK'); ...
    res.status(500).json({ error: 'Internal server error' }) } finally
    { client.release() }]: the answer of the route and the database it
    leaves. *)
Definition with_client (route : Tx response) (db : Db) : response * Db :=
  match route {| snapshot := db; conn := db |} with
  | (Some res, c) => (res, conn c)
  | (None, c) => (InternalServerError, conn (ROLLBACK c).2)
  end.

(** ** The ownership routes *)

(** A text of ASCII characters, each of which is one unit of the JavaScript
    string and one byte here. *)
Fixpoint ascii_text (s : string) : bool :=
  match s with
  | EmptyString => true
  | String c s => (N_of_ascii c <? 128)%N && ascii_text s
  end.

(** [deviceId.slice(-4)], for a [deviceId] of ASCII characters. *)
Definition slice_last (n : nat) (s : string) : string :=
  String.substring (String.length s - n) n s.

(** [name || `Solar Controller ${deviceId.slice(-4)}`] *)
Definition device_name (name : option string) (deviceId : string) : string :=
  match name with
  | Some n => if String.eqb n "" then "Solar Controller " +:+ slice_last 4 deviceId else n
  | None => "Solar Controller " +:+ slice_last 4 deviceId
  end.

(** [deviceConfirmationCodes.get(deviceId)] *)
Definition stored_code (codes : gmap string jsval) (deviceId : string) : jsval :=
  default JUndefined (codes !! deviceId).

(** [app.post('/api/devices', ...)] *)
Definition post_devices (codes : gmap string jsval) (now : Z)
    (userId : Z) (deviceId : string) (confirmationCode : jsval)
    (name : option string) : Tx response :=
  BEGIN;;
  let storedCode := stored_code codes deviceId in
  if negb (truthy storedCode) || negb (strict_eq storedCode confirmationCode)
  then
    ROLLBACK;;
    mret InvalidCode
  else
    userResult ← taking (Column.bigint userId)
                   (select (Sql.select_user_id userId));
    match userResult with
    | [] =>
        ROLLBACK;;
        mret UserNotFound
    | userDbId :: _ =>
        deviceResult ← taking (Column.text deviceId)
                         (select (Sql.select_device_id deviceId));
        '(deviceDbId, isNewDevice) ←
          match deviceResult with
          | [] =>
              id ← taking (Column.varchar 255 deviceId
                           && Column.varchar 255 (device_name name deviceId))
                     (query (Sql.insert_device deviceId
                               (device_name name deviceId) now));
              mret (id, true)
          | id :: _ => mret (id, false)
          end;
        accessCheck ← select (Sql.select_user_device userDbId deviceDbId);
        if (0 <? Z.of_nat (length accessCheck)) then
          ROLLBACK;;
          mret AlreadyLinked
        else
          exec (Sql.insert_user_device userDbId deviceDbId isNewDevice now);;
          COMMIT;;
          fullDevice ← select (Sql.select_device_with_access deviceDbId userDbId);
          mret (res_json (DeviceJson (head fullDevice)))
    end.

(** [app.delete('/api/devices/:deviceId', ...)]; [userId] is [None] when the
    body has none, and [!userId] also rejects [0]. *)
Definition delete_devices (deviceId : string) (userId : option Z) : Tx response :=
  BEGIN;;
  match userId with
  | None | Some 0 =>
      ROLLBACK;;
      mret UserIdRequired
  | Some userId =>
      userResult ← taking (Column.bigint userId)
                     (select (Sql.select_user_id userId));
      deviceResult ← taking (Column.text deviceId)
                       (select (Sql.select_device_id deviceId));
      match userResult, deviceResult with
      | userDbId :: _, deviceDbId :: _ =>
          exec (Sql.delete_user_device userDbId deviceDbId);;
          remainingUsers ← select (Sql.count_user_devices deviceDbId);
          (if remainingUsers =? 0
           then exec (Sql.delete_device deviceDbId)
           else mret tt);;
          COMMIT;;
          mret (res_json Success)
      | _, _ =>
          ROLLBACK;;
          mret NotFound
      end
  end.

(** [app.post('/api/devices/:deviceId/share', ...)] *)
Definition post_share (now : Z) (deviceId : string)
    (ownerId targetTelegramId : Z) : Tx response :=
  BEGIN;;
  ownerResult ← taking (Column.bigint ownerId && Column.text deviceId)
                  (select (Sql.select_is_owner ownerId deviceId));
  match ownerResult with
  | [] | false :: _ =>
      ROLLBACK;;
      mret Forbidden
  | true :: _ =>
      targetUser ← taking (Column.bigint targetTelegramId)
                     (select (Sql.select_user_id targetTelegramId));
      targetUserId ←
        match targetUser with
        | [] =>
            u ← taking (Column.bigint targetTelegramId)
                  (query (Sql.insert_user targetTelegramId None now));
            mret (u_id u)
        | id :: _ => mret id
        end;
      deviceResult ← taking (Column.text deviceId)
                       (select (Sql.select_device_id deviceId));
      match deviceResult with
      | [] =>
          ROLLBACK;;
          mret DeviceNotFound
      | deviceDbId :: _ =>
          existingAccess ← select (Sql.select_user_device targetUserId deviceDbId);
          if (0 <? Z.of_nat (length existingAccess)) then
            ROLLBACK;;
            mret TargetAlreadyLinked
          else
            exec (Sql.insert_user_device targetUserId deviceDbId false now);;
            COMMIT;;
            mret (res_json Success)
      end
  end.

(** The operations of the Ownership Store, each on a client of its own. *)
Definition Pair (codes : gmap string jsval) (now : Z) (userId : Z)
    (deviceId : string) (candidateCode : jsval) (desiredName : option string)
    (db : Db) : response * Db :=
  with_client (post_devices codes now userId deviceId candidateCode desiredName) db.

Definition Unpair (userId : option Z) (deviceId : string) (db : Db)
    : response * Db :=
  with_client (delete_devices deviceId userId) db.

Definition Share (now : Z) (ownerId : Z) (deviceId : string) (targetId : Z)
    (db : Db) : response * Db :=
  with_client (post_share now deviceId ownerId targetId) db.

(** [app.post('/api/users', ...)], on the pool: the row it answers, or
    [None] for the answer 500 of its [catch], which a query reaches by
    throwing. *)
Definition post_users (now : Z) (telegramId : Z) (username : option string)
    (db : Db) : option user_row * Db :=
  if negb (Column.bigint telegramId) then (None, db)
  else
    match Sql.select_user telegramId db with
    | [] =>
        if negb (from_option (Column.varchar 255) true username) then (None, db)
        else
          let '(u, db') := Sql.insert_user telegramId username now db in
          (Some u, db')
    | u :: _ => (Some u, db)
    end.

(** ** The message router and the presence map *)

(** An object stored in [deviceStatuses].  Both object literals that build
    one assign [lastSeen] a [Date] and [online] a boolean after the spread,
    so these two are typed fields; [telemetry] is every other property. *)
Record presence := {
  telemetry : list (string * jsval);
  lastSeen : Z;
  online : bool }.

Definition set_online (b : bool) (p : presence) : presence :=
  {| telemetry := telemetry p; lastSeen := lastSeen p; online := b |}.

(** The process: the database behind [pool], the two in-memory maps and the
    messages handed to [mqttClient.publish], oldest first. *)
Record Server := {
  db : Db;
  deviceStatuses : gmap string presence;
  deviceConfirmationCodes : gmap string jsval;
  published : list (string * string) }.

Definition with_db (d : Db) (s : Server) : Server :=
  {| db := d; deviceStatuses := deviceStatuses s;
     deviceConfirmationCodes := deviceConfirmationCodes s;
     published := published s |}.

Definition with_deviceStatuses (m : gmap string presence) (s : Server) : Server :=
  {| db := db s; deviceStatuses := m;
     deviceConfirmationCodes := deviceConfirmationCodes s;
     published := published s |}.

Definition with_deviceConfirmationCodes (m : gmap string jsval) (s : Server)
    : Server :=
  {| db := db s; deviceStatuses := deviceStatuses s;
     deviceConfirmationCodes := m;
     published := published s |}.

Definition publish (topic payload : string) (s : Server) : Server :=
  {| db := db s; deviceStatuses := deviceStatuses s;
     deviceConfirmationCodes := deviceConfirmationCodes s;
     published := published s ++ [(topic, payload)] |}.

(** [topic.split('/')] *)
Fixpoint split (sep : Ascii.ascii) (s : string) : list string :=
  match s with
  | EmptyString => [EmptyString]
  | String c s' =>
      if Ascii.eqb c sep then EmptyString :: split sep s'
      else match split sep s' with
           | [] => [String c EmptyString]
           | w :: ws => String c w :: ws
           end
  end.

(** The parameters of the INSERT of [saveDeviceStatus] as the database
    reads them for the columns of [device_history]; [None] when a property
    read or the binding of a parameter throws. *)
Definition history_parameters (deviceId : string) (status : jsval)
    : option (option bool * option Z * option Z * option Z) :=
  relayState ← get_prop status "relayState";
  wifiRSSI ← get_prop status "wifiRSSI";
  uptime ← get_prop status "uptime";
  freeHeap ← get_prop status "freeHeap";
  if Column.varchar 255 deviceId then
    relay_state ← Column.boolean relayState;
    wifi_rssi ← Column.integer_of wifiRSSI;
    uptime ← Column.integer_of uptime;
    free_heap ← Column.integer_of freeHeap;
    Some (relay_state, wifi_rssi, uptime, free_heap)
  else None.

(** [saveDeviceStatus(deviceId, status)]; a throw inside is caught inside,
    and nothing is stored. *)
Definition saveDeviceStatus (now : Z) (deviceId : string) (status : jsval)
    (d : Db) : Db :=
  match history_parameters deviceId status with
  | Some (relay_state, wifi_rssi, uptime, free_heap) =>
      Sql.insert_device_history deviceId relay_state wifi_rssi uptime free_heap
                                now d
  | None => d
  end.

Section Router.

(** [JSON.parse]; [None] when it throws a SyntaxError. *)
Variable JSON_parse : string → option jsval.
(** [JSON.stringify] *)
Variable JSON_stringify : jsval → string.

(** The [status] branch of the handler, after [JSON.parse]; [None] when the
    first statement throws, which the handler's [catch] logs.  When the
    query for the Device row throws, the two maps are already written. *)
Definition on_status (now : Z) (deviceId : string) (status : jsval)
    (s : Server) : option Server :=
  code ← get_prop status "confirmationCode";
  let s1 :=
    if truthy code
    then with_deviceConfirmationCodes
           (<[deviceId := code]> (deviceConfirmationCodes s)) s
    else s in
  let s2 :=
    with_deviceStatuses
      (<[deviceId := {| telemetry := without ["lastSeen"; "online"] (spread status);
                        lastSeen := now;
                        online := true |}]> (deviceStatuses s1)) s1 in
  if negb (Column.text deviceId) then Some s2
  else
    let deviceExists := Sql.select_device_id deviceId (db s2) in
    Some (if 0 <? Z.of_nat (length deviceExists)
          then with_db (saveDeviceStatus now deviceId status (db s2)) s2
          else s2).

(** The [online] branch. *)
Definition on_online (now : Z) (deviceId : string) (message : string)
    (s : Server) : Server :=
  let isOnline := String.eqb message "true" in
  let currentStatus :=
    match deviceStatuses s !! deviceId with
    | Some p => telemetry p
    | None => []
    end in
  with_deviceStatuses
    (<[deviceId := {| telemetry := currentStatus;
                      lastSeen := now;
                      online := isOnline |}]> (deviceStatuses s)) s.

(** [mqttClient.on('message', async (topic, message) => ...)] *)
Definition on_message (now : Z) (topic message : string) (s : Server) : Server :=
  match split "/"%char topic with
  | _ :: deviceId :: messageType :: _ =>
      if String.eqb messageType "status" then
        default s (status ← JSON_parse message; on_status now deviceId status s)
      else if String.eqb messageType "online" then
        on_online now deviceId message s
      else s
  | _ => s
  end.

(** The callback of [setInterval(..., 5000)] that marks stale devices. *)
Definition sweep (now : Z) (s : Server) : Server :=
  with_deviceStatuses
    ((λ status, if 30000 <? now - lastSeen status
                then set_online false status
                else status) <$> deviceStatuses s) s.

(** [app.post('/api/devices/:deviceId/control', ...)] *)
Definition post_control (deviceId : string) (command state : jsval)
    (s : Server) : response * Server :=
  let topic := "solar/" +:+ deviceId +:+ "/command" in
  let payload := JSON_stringify (JObj [("command", command); ("state", state)]) in
  (res_json Success, publish topic payload s).

End Router.

(** ** The firmware's reconnect routine *)

Module Firmware.

(** [unsigned long] on the ESP32. *)
Definition wrap (n : Z) : Z := n mod 2 ^ 32.

(** [millis()] at [t] milliseconds after boot. *)
Definition millis (t : Z) : Z := wrap t.

Record state := {
  deviceId : string;
  wifiConnected : bool;
  mqttConnected : bool;
  relayState : bool;
  lastAttempt : Z }.

Inductive event :=
  | Connect (clientId : string)
  | Subscribe (topic : string)
  | Publish (topic : string) (payload : jsval) (retained : bool).

(** What one call of [reconnectMQTT] reads from its surroundings: the clock
    at the cooldown test and at the assignment to [lastAttempt], the outcome
    of [client.connect], and for [sendStatus] whether the session is still
    up, the clock, the signal strength and the free heap. *)
Record readings := {
  t_check : Z;
  t_stamp : Z;
  connect_ok : bool;
  connected : bool;
  t_status : Z;
  wifiRSSI : Z;
  freeHeap : Z }.

(** [sendStatus()] *)
Definition sendStatus (r : readings) (st : state) : list event :=
  if negb (connected r) then []
  else [Publish ("solar/" +:+ deviceId st +:+ "/status")
          (JObj [("deviceId", JStr (deviceId st));
                 ("relayState", JBool (relayState st));
                 ("wifiRSSI", JNum (wifiRSSI r));
                 ("uptime", JNum (millis (t_status r) / 1000));
                 ("freeHeap", JNum (freeHeap r))])
          false].

(** [reconnectMQTT()] *)
Definition reconnectMQTT (r : readings) (st : state) : state * list event :=
  if negb (wifiConnected st) then (st, [])
  else if wrap (millis (t_check r) - lastAttempt st) <? 5000 then (st, [])
  else
    let lastAttempt' := millis (t_stamp r) in
    if connect_ok r then
      let st' := {| deviceId := deviceId st; wifiConnected := wifiConnected st;
                    mqttConnected := true; relayState := relayState st;
                    lastAttempt := lastAttempt' |} in
      (st', [Connect (deviceId st);
             Subscribe ("solar/" +:+ deviceId st +:+ "/command");
             Publish ("solar/" +:+ deviceId st +:+ "/online") (JStr "true") true]
            ++ sendStatus r st')
    else
      ({| deviceId := deviceId st; wifiConnected := wifiConnected st;
          mqttConnected := false; relayState := relayState st;
          lastAttempt := lastAttempt' |},
       [Connect (deviceId st)]).

Definition attempted (evs : list event) : bool :=
  existsb (λ e, match e with Connect _ => true | _ => false end) evs.

(** Successive calls of [reconnectMQTT] from the main loop.  Between two
    calls the rest of the firmware may change the connection flags but not
    [lastAttempt], a static local of the routine.  The result lists the
    times at which a broker connection was attempted. *)
Fixpoint attempts (calls : list (bool * readings)) (st : state) : list Z :=
  match calls with
  | [] => []
  | (wifi, r) :: calls' =>
      let st0 := {| deviceId := deviceId st; wifiConnected := wifi;
                    mqttConnected := mqttConnected st;
                    relayState := relayState st;
                    lastAttempt := lastAttempt st |} in
      let '(st', evs) := reconnectMQTT r st0 in
      if attempted evs then t_stamp r :: attempts calls' st'
      else attempts calls' st'
  end.

(** The calls happen in order of time, none before [t0]. *)
Fixpoint chronological (t0 : Z) (calls : list (bool * readings)) : Prop :=
  match calls with
  | [] => True
  | (_, r) :: calls' =>
      t0 ≤ t_check r ∧ t_check r ≤ t_stamp r ∧ chronological (t_stamp r) calls'
  end.

(** Each time is at least [gap] after the one before it, the first one
    after [t0]. *)
Fixpoint spaced (gap t0 : Z) (ts : list Z) : Prop :=
  match ts with
  | [] => True
  | t :: ts' => t0 + gap ≤ t ∧ spaced gap t ts'
  end.

(** A device booted with WiFi up and the broker down, whose loop calls the
    routine every 2 seconds. *)
Definition booted : state :=
  {| deviceId := "D1"; wifiConnected := true; mqttConnected := false;
     relayState := false; lastAttempt := 0 |}.

Definition call_at (t : Z) : bool * readings :=
  (true, {| t_check := t; t_stamp := t; connect_ok := false;
            connected := false; t_status := t; wifiRSSI := -61;
            freeHeap := 214000 |}).

End Firmware.

(** * Notions used by the properties *)

(** [matches(deviceId, candidateCode)] of the Confirmation Registry: the
    code on record is usable and strictly equal to the candidate. *)
Definition matches (codes : gmap string jsval) (deviceId : string)
    (candidateCode : jsval) : bool :=
  truthy (stored_code codes deviceId)
  && strict_eq (stored_code codes deviceId) candidateCode.

(** Whether a query of the pairing route throws for want of an acceptable
    parameter, once the code has matched: the identity of the user, the
    device id looked up for a user who has a row, the device id and the
    name stored for a device that has none. *)
Definition Pair_throws (userId : Z) (deviceId : string)
    (desiredName : option string) (d : Db) : bool :=
  negb (Column.bigint userId)
  || match Sql.select_user_id userId d with
     | [] => false
     | _ :: _ =>
         negb (Column.text deviceId)
         || match Sql.select_device_id deviceId d with
            | [] => negb (Column.varchar 255 deviceId
                          && Column.varchar 255 (device_name desiredName deviceId))
            | _ :: _ => false
            end
     end.

(** The same for the sharing route: the parameters of the query for the
    owner's edge, and the identity of the target once the caller has shown
    to be the owner. *)
Definition Share_throws (ownerId : Z) (deviceId : string) (targetId : Z)
    (d : Db) : bool :=
  negb (Column.bigint ownerId && Column.text deviceId)
  || match Sql.select_is_owner ownerId deviceId d with
     | true :: _ => negb (Column.bigint targetId)
     | _ => false
     end.


(** A Device row exists for [device_id]. *)
Definition device_exists (device_id : string) (d : Db) : Prop :=
  Exists (λ dev, d_device_id dev = device_id) (devices d).

(** The caller [telegram_id] holds an [is_owner = true] edge to the device
    [device_id]. *)
Definition holds_owner_edge (telegram_id : Z) (device_id : string) (d : Db)
    : Prop :=
  Exists (λ e,
      ud_is_owner e = true
      ∧ Exists (λ u, u_id u = ud_user_id e ∧ u_telegram_id u = telegram_id)
               (users d)
      ∧ Exists (λ dev, d_id dev = ud_device_id e ∧ d_device_id dev = device_id)
               (devices d))
    (user_devices d).

Definition ok (r : response) : Prop := status r = 200.

#[global] Instance ok_dec r : Decision (ok r).
Proof. unfold ok. apply _. Defined.



(** The invariant of the Ownership Store: each Device row is the target of
    at least one Ownership Edge. *)
Definition every_device_owned (d : Db) : Prop :=
  Forall (λ dev, Exists (λ e, ud_device_id e = d_id dev) (user_devices d))
         (devices d).

(** A topic level: a string without the separator. *)
Fixpoint no_slash (s : string) : bool :=
  match s with
  | EmptyString => true
  | String c s' => negb (Ascii.eqb c "/") && no_slash s'
  end.

(** [null] and [undefined], on which a property read throws. *)
Definition nullish (v : jsval) : bool :=
  match v with
  | JUndefined | JNull => true
  | _ => false
  end.

(** The record the [status] branch stores. *)
Definition status_record (now : Z) (status : jsval) : presence :=
  {| telemetry := without ["lastSeen"; "online"] (spread status);
     lastSeen := now;
     online := true |}.

(** What the sweep does to one record. *)
Definition swept (now : Z) (p : presence) : presence :=
  if 30000 <? now - lastSeen p then set_online false p else p.



(** * The running example *)

(** ** Device [D1] advertising code [482913] *)

Module Scenario.

Definition empty_db : Db :=
  {| users := []; devices := []; user_devices := []; device_history := [];
     users_id_seq := 1; devices_id_seq := 1; user_devices_id_seq := 1;
     device_history_id_seq := 1 |}.

Definition codes : gmap string jsval := {[ "D1" := JStr "482913" ]}.

Definition U1 : Z := 1001.
Definition U2 : Z := 1002.
Definition U3 : Z := 1003.

(** [U1] and [U2] have opened the application. *)
Definition db_users : Db :=
  (post_users 20 U2 None (post_users 10 U1 (Some "first") empty_db).2).2.

(** [U1] has claimed [D1]. *)
Definition db_claimed : Db :=
  (Pair codes 30 U1 "D1" (JStr "482913") None db_users).2.

(** [U2] has joined with the same code. *)
Definition db_joined : Db :=
  (Pair codes 40 U2 "D1" (JStr "482913") (Some "roof") db_claimed).2.

End Scenario.

(** ** The example on the bus *)

Module Bus.

Definition q (s : string) : string :=
  String "034"%char s +:+ String "034"%char EmptyString.

(** The heartbeat of [D1], as JSON text and as the value it denotes. *)
Definition heartbeat : string :=
  "{" +:+ q "relayState" +:+ ":true," +:+ q "wifiRSSI" +:+ ":-61,"
      +:+ q "uptime" +:+ ":120," +:+ q "freeHeap" +:+ ":214000,"
      +:+ q "confirmationCode" +:+ ":" +:+ q "482913" +:+ "}".

Definition heartbeat_value : jsval :=
  JObj [("relayState", JBool true); ("wifiRSSI", JNum (-61));
        ("uptime", JNum 120); ("freeHeap", JNum 214000);
        ("confirmationCode", JStr "482913")].

(** A heartbeat of [D1] whose [uptime] is 3000000000. *)
Definition late_heartbeat : string :=
  "{" +:+ q "relayState" +:+ ":true," +:+ q "wifiRSSI" +:+ ":-61,"
      +:+ q "uptime" +:+ ":3000000000," +:+ q "freeHeap" +:+ ":214000}".

Definition late_heartbeat_value : jsval :=
  JObj [("relayState", JBool true); ("wifiRSSI", JNum (-61));
        ("uptime", JNum 3000000000); ("freeHeap", JNum 214000)].

(** [JSON.parse] on the payloads of the example; any other text is taken
    to be malformed. *)
Definition JSON_parse (text : string) : option jsval :=
  if String.eqb text heartbeat then Some heartbeat_value
  else if String.eqb text late_heartbeat then Some late_heartbeat_value
  else if String.eqb text "null" then Some JNull
  else if String.eqb text "{}" then Some (JObj [])
  else None.

Definition boot : Server :=
  {| db := Scenario.empty_db; deviceStatuses := ∅;
     deviceConfirmationCodes := ∅; published := [] |}.

(** [D1] has reported once, at time 5, before anybody claimed it. *)
Definition heard : Server :=
  on_message JSON_parse 5 "solar/D1/status" heartbeat boot.

(** [D1] is claimed by [U1] and joined by [U2]. *)
Definition paired : Server := with_db Scenario.db_joined heard.

(** [D1] has then reported at the times 60000, 120000 and 180000. *)
Definition sampled : Server :=
  on_message JSON_parse 180000 "solar/D1/status" heartbeat
    (on_message JSON_parse 120000 "solar/D1/status" heartbeat
       (on_message JSON_parse 60000 "solar/D1/status" heartbeat paired)).

End Bus.

(** * The other routes and timers of the server *)

#[global] Instance device_row_eq_dec : EqDecision device_row.
Proof. solve_decision. Defined.

(** [initDatabase()]: drops the four tables, whatever they hold, and creates
    them anew; the sequences of the new [SERIAL] columns start at 1. *)
Definition initDatabase (_ : Db) : Db :=
  {| users := []; devices := []; user_devices := []; device_history := [];
     users_id_seq := 1; devices_id_seq := 1; user_devices_id_seq := 1;
     device_history_id_seq := 1 |}.

(** The process as [app.listen] leaves it: two empty maps, nothing
    published, the database initialised. *)
Definition start (d : Db) : Server :=
  {| db := initDatabase d; deviceStatuses := ∅;
     deviceConfirmationCodes := ∅; published := [] |}.

Module Interval.
Definition hour : Z := 3600000.
Definition day : Z := 24 * hour.
End Interval.

(** [ORDER BY ud.added_at DESC] and [ORDER BY timestamp DESC]: the row on
    the left may come first. *)
Definition added_not_before (x y : device_row * bool * Z) : Prop := y.2 ≤ x.2.
Definition sampled_not_before (x y : history_row) : Prop :=
  h_timestamp y ≤ h_timestamp x.

#[global] Instance added_not_before_dec x y : Decision (added_not_before x y).
Proof. unfold added_not_before. apply _. Defined.
#[global] Instance sampled_not_before_dec x y : Decision (sampled_not_before x y).
Proof. unfold sampled_not_before. apply _. Defined.

Module SqlRead.

(** [SELECT DISTINCT d.*, ud.is_owner, ud.added_at
     FROM devices d JOIN user_devices ud ON d.id = ud.device_id
     WHERE ud.user_id = $1 ORDER BY ud.added_at DESC]; rows of equal
    [added_at] come in the order the merge leaves them. *)
Definition select_devices_of_user (user_id : Z) (d : Db)
    : list (device_row * bool * Z) :=
  merge_sort added_not_before
    (remove_dups
       (dev ← devices d;
        e ← filter (λ e, ud_device_id e = d_id dev ∧ ud_user_id e = user_id)
                   (user_devices d);
        [(dev, ud_is_owner e, ud_added_at e)])).

(** [SELECT * FROM device_history
     WHERE device_id = $1 AND timestamp > NOW() - INTERVAL '...'
     ORDER BY timestamp DESC LIMIT 100] *)
Definition select_history (device_id : string) (now interval : Z) (d : Db)
    : list history_row :=
  take 100
    (merge_sort sampled_not_before
       (filter (λ h, h_device_id h = device_id ∧ now - interval < h_timestamp h)
               (device_history d))).

(** [DELETE FROM device_history WHERE timestamp < NOW() - INTERVAL '30 days'] *)
Definition delete_old_history (now : Z) (d : Db) : Db :=
  with_device_history
    (filter (λ h, ¬ h_timestamp h < now - 30 * Interval.day) (device_history d))
    (device_history_id_seq d) d.

End SqlRead.

(** The [status] member of a device in the answer of [GET /api/devices]:
    the record of the presence map, or the literal [{ online: false }]. *)
Inductive status_json :=
  | Recorded (p : presence)
  | NeverSeen.

(** [deviceStatuses.get(device.device_id) || { online: false }] *)
Definition status_of (m : gmap string presence) (device_id : string)
    : status_json :=
  match m !! device_id with
  | Some p => Recorded p
  | None => NeverSeen
  end.

Definition reported_online (st : status_json) : bool :=
  match st with
  | Recorded p => online p
  | NeverSeen => false
  end.

(** [app.get('/api/devices/:userId', ...)]: the array it answers, when the
    database reads the [userId] of the path as a BIGINT. *)
Definition get_devices (userId : Z) (s : Server)
    : list (device_row * bool * Z * status_json) :=
  match Sql.select_user_id userId (db s) with
  | [] => []
  | userDbId :: _ =>
      (λ device, (device, status_of (deviceStatuses s) (d_device_id device.1.1)))
        <$> SqlRead.select_devices_of_user userDbId (db s)
  end.

(** The same route with its [catch]: [None] is the answer 500, given when
    the first query throws. *)
Definition get_devices_or_500 (userId : Z) (s : Server)
    : option (list (device_row * bool * Z * status_json)) :=
  if Column.bigint_numeral userId then Some (get_devices userId s) else None.

(** The [switch (period)] of the history route; [None] is a request without
    the query parameter, which the destructuring default turns into
    ['24h']. *)
Definition interval_of (period : option string) : Z :=
  let period := default "24h" period in
  if String.eqb period "1h" then Interval.hour
  else if String.eqb period "24h" then 24 * Interval.hour
  else if String.eqb period "7d" then 7 * Interval.day
  else if String.eqb period "30d" then 30 * Interval.day
  else 24 * Interval.hour.

(** [app.get('/api/devices/:deviceId/history', ...)]: the array it answers,
    or [None] for the answer 500 of its [catch]. *)
Definition get_history (now : Z) (deviceId : string) (period : option string)
    (s : Server) : option (list history_row) :=
  if Column.text deviceId
  then Some (SqlRead.select_history deviceId now (interval_of period) (db s))
  else None.

(** The callback of [setInterval(..., 24 * 60 * 60 * 1000)]. *)
Definition cleanup (now : Z) (s : Server) : Server :=
  with_db (SqlRead.delete_old_history now (db s)) s.

(** *** The routes on the process *)

(** The ownership routes read [deviceConfirmationCodes] and [pool] of the
    process they run in. *)
Definition users_route (now telegramId : Z) (username : option string)
    (s : Server) : option user_row * Server :=
  let '(r, d) := post_users now telegramId username (db s) in (r, with_db d s).

Definition devices_route (now userId : Z) (deviceId : string)
    (confirmationCode : jsval) (name : option string) (s : Server)
    : response * Server :=
  let '(r, d) := Pair (deviceConfirmationCodes s) now userId deviceId
                      confirmationCode name (db s) in
  (r, with_db d s).

Definition unpair_route (deviceId : string) (userId : option Z) (s : Server)
    : response * Server :=
  let '(r, d) := Unpair userId deviceId (db s) in (r, with_db d s).

Definition share_route (now : Z) (deviceId : string) (ownerId targetId : Z)
    (s : Server) : response * Server :=
  let '(r, d) := Share now ownerId deviceId targetId (db s) in (r, with_db d s).

(** What reaches the process: a bus message, a timer, or a request. *)
Inductive input :=
  | Message (now : Z) (topic message : string)
  | SweepTimer (now : Z)
  | CleanupTimer (now : Z)
  | PostUsers (now telegramId : Z) (username : option string)
  | PostDevices (now userId : Z) (deviceId : string) (confirmationCode : jsval)
                (name : option string)
  | DeleteDevices (deviceId : string) (userId : option Z)
  | PostShare (now : Z) (deviceId : string) (ownerId targetId : Z)
  | PostControl (deviceId : string) (command state : jsval).

Section Process.

Variable JSON_parse : string → option jsval.
Variable JSON_stringify : jsval → string.

(** The process after one input, handlers running one at a time. *)
Definition handle (i : input) (s : Server) : Server :=
  match i with
  | Message now topic message => on_message JSON_parse now topic message s
  | SweepTimer now => sweep now s
  | CleanupTimer now => cleanup now s
  | PostUsers now telegramId username => (users_route now telegramId username s).2
  | PostDevices now userId deviceId code name =>
      (devices_route now userId deviceId code name s).2
  | DeleteDevices deviceId userId => (unpair_route deviceId userId s).2
  | PostShare now deviceId ownerId targetId =>
      (share_route now deviceId ownerId targetId s).2
  | PostControl deviceId command state =>
      (post_control JSON_stringify deviceId command state s).2
  end.

(** The process after a series of inputs, oldest first. *)
Definition run (inputs : list input) (s : Server) : Server :=
  foldl (λ s i, handle i s) s inputs.

End Process.

(** * The constraints of the schema *)

(** [PRIMARY KEY] of the four tables, with every key drawn from its
    sequence. *)
Definition primary_keys (d : Db) : Prop :=
  (NoDup (u_id <$> users d) ∧ Forall (λ u, u_id u < users_id_seq d) (users d))
  ∧ (NoDup (d_id <$> devices d)
     ∧ Forall (λ dev, d_id dev < devices_id_seq d) (devices d))
  ∧ (NoDup (ud_id <$> user_devices d)
     ∧ Forall (λ e, ud_id e < user_devices_id_seq d) (user_devices d))
  ∧ (NoDup (h_id <$> device_history d)
     ∧ Forall (λ h, h_id h < device_history_id_seq d) (device_history d)).

(** [telegram_id BIGINT UNIQUE], [device_id VARCHAR(255) UNIQUE] and
    [UNIQUE(user_id, device_id)]. *)
Definition unique_keys (d : Db) : Prop :=
  NoDup (u_telegram_id <$> users d)
  ∧ NoDup (d_device_id <$> devices d)
  ∧ NoDup ((λ e, (ud_user_id e, ud_device_id e)) <$> user_devices d).

(** [user_id INTEGER REFERENCES users(id)] and
    [device_id INTEGER REFERENCES devices(id)]. *)
Definition foreign_keys (d : Db) : Prop :=
  Forall (λ e, ud_user_id e ∈ u_id <$> users d) (user_devices d)
  ∧ Forall (λ e, ud_device_id e ∈ d_id <$> devices d) (user_devices d).

(** The types of the columns that take their values from requests and
    messages: [telegram_id BIGINT] and [username VARCHAR(255)];
    [device_id] and [name VARCHAR(255)]; in [device_history],
    [device_id VARCHAR(255)] and the three [INTEGER]s. *)
Definition column_types (d : Db) : Prop :=
  Forall (λ u, Column.bigint (u_telegram_id u) = true
               ∧ from_option (Column.varchar 255) true (u_username u) = true)
         (users d)
  ∧ Forall (λ dev, Column.varchar 255 (d_device_id dev) = true
                   ∧ Column.varchar 255 (d_name dev) = true)
           (devices d)
  ∧ Forall (λ h, Column.varchar 255 (h_device_id h) = true
                 ∧ from_option Column.integer true (h_wifi_rssi h) = true
                 ∧ from_option Column.integer true (h_uptime h) = true
                 ∧ from_option Column.integer true (h_free_heap h) = true)
           (device_history d).

Definition constraints (d : Db) : Prop :=
  primary_keys d ∧ unique_keys d ∧ foreign_keys d ∧ column_types d.

#[global] Instance constraints_dec d : Decision (constraints d).
Proof.
  unfold constraints, primary_keys, unique_keys, foreign_keys, column_types.
  apply _.
Defined.

(** The user [telegram_id] has an edge to the device [device_id]. *)
Definition linked (telegram_id : Z) (device_id : string) (d : Db) : Prop :=
  Exists (λ e,
      Exists (λ u, u_id u = ud_user_id e ∧ u_telegram_id u = telegram_id)
             (users d)
      ∧ Exists (λ dev, d_id dev = ud_device_id e ∧ d_device_id dev = device_id)
               (devices d))
    (user_devices d).

(** Every code on record is one the handler would store: a truthy value. *)
Definition codes_truthy (s : Server) : Prop :=
  map_Forall (λ _ c, truthy c = true) (deviceConfirmationCodes s).

(** What every state of the process satisfies: the constraints of the
    schema, an edge for every device, and only truthy codes on record. *)
Definition sound (s : Server) : Prop :=
  constraints (db s) ∧ every_device_owned (db s) ∧ codes_truthy s.

(** A User row carries the external identity [telegram_id]. *)
Definition seen_user (telegram_id : Z) (d : Db) : Prop :=
  Exists (λ u, u_telegram_id u = telegram_id) (users d).

(** Every edge to the device [device_id] belongs to the user
    [telegram_id]. *)
Definition sole_link (telegram_id : Z) (device_id : string) (d : Db) : Prop :=
  Forall (λ e,
      Exists (λ dev, d_id dev = ud_device_id e ∧ d_device_id dev = device_id)
             (devices d) →
      Exists (λ u, u_id u = ud_user_id e ∧ u_telegram_id u = telegram_id)
             (users d))
    (user_devices d).

(** An input from the bus or from the presence timer, as opposed to a
    request. *)
Definition from_bus (i : input) : Prop :=
  match i with
  | Message _ _ _ | SweepTimer _ => True
  | _ => False
  end.

#[global] Instance from_bus_dec i : Decision (from_bus i).
Proof. destruct i; cbn; apply _. Defined.

(** The device, owner flag and time of access of a row of the listing,
    without the status read from the presence map. *)
Definition listed (row : device_row * bool * Z * status_json)
    : device_row * bool * Z := row.1.

(** * More of the firmware *)

Module Agent.
Import Firmware.

Definition RELAY_PIN : Z := 32.
Definition CONFIRMATION_CODE_LENGTH : nat := 6.

(** What a handler of the firmware does to the outside: a call on the bus
    client, a pin written, or the reboot of [ESP.restart()]. *)
Inductive action :=
  | OnBus (e : event)
  | DigitalWrite (pin : Z) (high : bool)
  | Restart.

(** [doc[key]]: the member of an object, the null variant otherwise. *)
Definition member (doc : jsval) (key : string) : jsval :=
  match doc with
  | JObj ps => assoc key ps
  | _ => JUndefined
  end.

Definition with_relayState (b : bool) (st : state) : state :=
  {| deviceId := deviceId st; wifiConnected := wifiConnected st;
     mqttConnected := mqttConnected st; relayState := b;
     lastAttempt := lastAttempt st |}.

Definition with_wifiConnected (b : bool) (st : state) : state :=
  {| deviceId := deviceId st; wifiConnected := b;
     mqttConnected := mqttConnected st; relayState := relayState st;
     lastAttempt := lastAttempt st |}.

Section ArduinoJson.

(** [deserializeJson(doc, message)], [None] when it reports an error; the
    conversions of a variant to [String] and to [bool]. *)
Variable deserializeJson : string → option jsval.
Variable as_String : jsval → string.
Variable as_bool : jsval → bool.

(** [mqttCallback(topic, payload, length)], with the readings [sendStatus]
    takes. *)
Definition mqttCallback (r : readings) (topic message : string) (st : state)
    : state * list action :=
  let deviceTopic := "solar/" +:+ deviceId st +:+ "/command" in
  if String.eqb topic deviceTopic then
    match deserializeJson message with
    | Some doc =>
        let command := as_String (member doc "command") in
        if String.eqb command "relay" then
          let state := as_bool (member doc "state") in
          let st' := with_relayState state st in
          (st', DigitalWrite RELAY_PIN state :: (OnBus <$> sendStatus r st'))
        else if String.eqb command "getStatus" then
          (st, OnBus <$> sendStatus r st)
        else if String.eqb command "restart" then
          (st, [Restart])
        else (st, [])
    | None => (st, [])
    end
  else (st, []).

End ArduinoJson.

(** [generateConfirmationCode()]; [random i] is the value the [i]-th call
    of [random(0, 10)] returns. *)
Definition generateConfirmationCode (random : nat → Z) : string :=
  foldl (λ confirmationCode i, confirmationCode +:+ pretty (random i))
        "" (seq 0%nat CONFIRMATION_CODE_LENGTH).

(** The [while] loop of [connectToWiFi()]: [connected_at k] tells whether
    the [k]-th call of [WiFi.status()] returns [WL_CONNECTED]; the result is
    [attempts] when the loop ends, one [delay(500)] each. *)
Fixpoint wait_for_wifi (connected_at : nat → bool) (attempts budget : nat)
    : nat :=
  match budget with
  | O => attempts
  | S budget' =>
      if connected_at attempts then attempts
      else wait_for_wifi connected_at (S attempts) budget'
  end.

(** [connectToWiFi()]: the state it leaves and the number of delays. *)
Definition connectToWiFi (connected_at : nat → bool) (st : state)
    : state * nat :=
  let attempts := wait_for_wifi connected_at 0 20 in
  (with_wifiConnected (connected_at (S attempts)) st, attempts).

End Agent.

(** The document [sendStatus()] serializes. *)
Definition status_doc (r : Firmware.readings) (st : Firmware.state) : jsval :=
  JObj [("deviceId", JStr (Firmware.deviceId st));
        ("relayState", JBool (Firmware.relayState st));
        ("wifiRSSI", JNum (Firmware.wifiRSSI r));
        ("uptime", JNum (Firmware.millis (Firmware.t_status r) / 1000));
        ("freeHeap", JNum (Firmware.freeHeap r))].

(** ** The example on the device *)

Module Wire.

(** The command [{command: relay, state: true}] as the server sends it, and
    codecs that know this one text. *)
Definition relay_on : jsval :=
  JObj [("command", JStr "relay"); ("state", JBool true)].

Definition JSON_stringify (v : jsval) : string := "relay on".

Definition deserializeJson (message : string) : option jsval :=
  if String.eqb message "relay on" then Some relay_on else None.

Definition as_String (v : jsval) : string :=
  match v with
  | JStr s => s
  | _ => "null"
  end.

Definition as_bool (v : jsval) : bool :=
  match v with
  | JBool b => b
  | _ => false
  end.

(** The device of the example, connected, and what it reads when the
    command arrives. *)
Definition device : Firmware.state :=
  {| Firmware.deviceId := "D1"; Firmware.wifiConnected := true;
     Firmware.mqttConnected := true; Firmware.relayState := false;
     Firmware.lastAttempt := 6000 |}.

Definition reading : Firmware.readings :=
  {| Firmware.t_check := 70000; Firmware.t_stamp := 70000;
     Firmware.connect_ok := true; Firmware.connected := true;
     Firmware.t_status := 70000; Firmware.wifiRSSI := -61;
     Firmware.freeHeap := 214000 |}.

(** The status the device answers with, as text and decoded. *)
Definition serializeJson (doc : jsval) : string := "relay is on".

Definition JSON_parse (text : string) : option jsval :=
  if String.eqb text "relay is on"
  then Some (status_doc reading (Agent.with_relayState true device))
  else None.

End Wire.

(** A decimal digit, and a string of decimal digits. *)
Definition digit (c : ascii) : bool :=
  (48 <=? nat_of_ascii c)%nat && (nat_of_ascii c <=? 57)%nat.

Fixpoint digits (s : string) : bool :=
  match s with
  | EmptyString => true
  | String c s' => digit c && digits s'
  end.

(** * The earlier server *)

(** The revision of [server.js] from before ownership edges and
    confirmation codes: a device belongs to the one user who added it, and
    the history table references the device. *)
Module Legacy.

(** [CREATE TABLE devices], with [user_id INTEGER REFERENCES users(id)]. *)
Record device_row := {
  d_id : Z;
  d_user_id : Z;
  d_device_id : string;
  d_name : string;
  d_created_at : Z }.

(** [users], [devices] and [device_history], whose [device_id] is declared
    [REFERENCES devices(device_id) ON DELETE CASCADE]. *)
Record Db := {
  users : list user_row;
  devices : list device_row;
  device_history : list history_row;
  users_id_seq : Z;
  devices_id_seq : Z;
  device_history_id_seq : Z }.

Record Server := {
  db : Db;
  deviceStatuses : gmap string presence }.

Inductive answer :=
  | Failed (status : Z) (error : string)
  | Created (row : device_row)
  | Succeeded.

(** The answer of every [catch], reached when a query throws. *)
Definition InternalServerError : answer := Failed 500 "Internal server error".

(** [app.post('/api/devices', ...)]; the confirmation code of the request
    is read and not used. *)
Definition post_devices (now userId : Z) (deviceId : string)
    (confirmationCode : jsval) (name : option string) (d : Db) : answer * Db :=
  if negb (Column.text deviceId) then (InternalServerError, d)
  else
    match filter (λ dev, d_device_id dev = deviceId) (devices d) with
    | _ :: _ => (Failed 400 "Device already exists", d)
    | [] =>
        if negb (Column.bigint userId) then (InternalServerError, d)
        else
          match u_id <$> filter (λ u, u_telegram_id u = userId) (users d) with
          | [] => (Failed 404 "User not found", d)
          | userDbId :: _ =>
              if negb (Column.varchar 255 deviceId
                       && Column.varchar 255 (device_name name deviceId))
              then (InternalServerError, d)
              else
                let row := {| d_id := devices_id_seq d; d_user_id := userDbId;
                              d_device_id := deviceId;
                              d_name := device_name name deviceId;
                              d_created_at := now |} in
                (Created row,
                 {| users := users d; devices := devices d ++ [row];
                    device_history := device_history d;
                    users_id_seq := users_id_seq d;
                    devices_id_seq := devices_id_seq d + 1;
                    device_history_id_seq := device_history_id_seq d |})
          end
    end.

(** [app.delete('/api/devices/:deviceId', ...)]: [DELETE FROM devices WHERE
    device_id = $1], which takes the samples that reference a deleted row
    with it. *)
Definition delete_devices (deviceId : string) (d : Db) : answer * Db :=
  if negb (Column.text deviceId) then (InternalServerError, d)
  else
    (Succeeded,
     {| users := users d;
        devices := filter (λ dev, d_device_id dev ≠ deviceId) (devices d);
        device_history :=
          if decide (Exists (λ dev, d_device_id dev = deviceId) (devices d))
          then filter (λ h, h_device_id h ≠ deviceId) (device_history d)
          else device_history d;
        users_id_seq := users_id_seq d;
        devices_id_seq := devices_id_seq d;
        device_history_id_seq := device_history_id_seq d |}).

(** [saveDeviceStatus(deviceId, status)]: skips a device without a row; a
    throw inside is caught inside, and nothing is stored. *)
Definition saveDeviceStatus (now : Z) (deviceId : string) (status : jsval)
    (d : Db) : Db :=
  if negb (Column.text deviceId) then d
  else
    match filter (λ dev, d_device_id dev = deviceId) (devices d) with
    | [] => d
    | _ :: _ =>
        match history_parameters deviceId status with
        | Some (relay_state, wifi_rssi, uptime, free_heap) =>
            {| users := users d; devices := devices d;
               device_history :=
                 device_history d
                 ++ [{| h_id := device_history_id_seq d;
                        h_device_id := deviceId;
                        h_relay_state := relay_state;
                        h_wifi_rssi := wifi_rssi;
                        h_uptime := uptime;
                        h_free_heap := free_heap;
                        h_timestamp := now |}];
               users_id_seq := users_id_seq d;
               devices_id_seq := devices_id_seq d;
               device_history_id_seq := device_history_id_seq d + 1 |}
        | None => d
        end
    end.

Section Router.

Variable JSON_parse : string → option jsval.

(** [mqttClient.on('message', ...)] *)
Definition on_message (now : Z) (topic message : string) (s : Server) : Server :=
  match split "/" topic with
  | _ :: deviceId :: messageType :: _ =>
      if String.eqb messageType "status" then
        match JSON_parse message with
        | None => s
        | Some status =>
            {| db := saveDeviceStatus now deviceId status (db s);
               deviceStatuses :=
                 <[deviceId := {| telemetry := without ["lastSeen"; "online"]
                                                       (spread status);
                                  lastSeen := now;
                                  online := true |}]> (deviceStatuses s) |}
        end
      else if String.eqb messageType "online" then
        {| db := db s;
           deviceStatuses :=
             <[deviceId := {| telemetry :=
                                match deviceStatuses s !! deviceId with
                                | Some p => telemetry p
                                | None => []
                                end;
                              lastSeen := now;
                              online := String.eqb message "true" |}]>
               (deviceStatuses s) |}
      else s
  | _ => s
  end.

End Router.

(** The references and the unique key the schema declares. *)
Definition references (d : Db) : Prop :=
  Forall (λ h, h_device_id h ∈ d_device_id <$> devices d) (device_history d)
  ∧ NoDup (d_device_id <$> devices d).

#[global] Instance references_dec d : Decision (references d).
Proof. unfold references. apply _. Defined.

(** A database with the user [U1], the device [D1] and one sample. *)
Definition sample : Db :=
  {| users := [{| u_id := 1; u_telegram_id := 1001; u_username := None;
                  u_created_at := 10 |}];
     devices := [{| d_id := 1; d_user_id := 1; d_device_id := "D1";
                    d_name := "roof"; d_created_at := 20 |}];
     device_history := [{| h_id := 1; h_device_id := "D1";
                           h_relay_state := Some true;
                           h_wifi_rssi := Some (-61); h_uptime := Some 120;
                           h_free_heap := Some 214000; h_timestamp := 30 |}];
     users_id_seq := 2; devices_id_seq := 2; device_history_id_seq := 2 |}.

End Legacy.

(** * Properties *)

(** ** JavaScript values *)

Lemma strict_eq_true a b : strict_eq a b = true → a = b.
Proof.
  destruct a, b; simpl; try discriminate; try reflexivity; intros H.
  - apply Bool.eqb_prop in H. by subst.
  - apply Z.eqb_eq in H. by subst.
  - apply String.eqb_eq in H. by subst.
Qed.

Lemma strict_eq_ne a b : a ≠ b → strict_eq a b = false.
Proof.
  intros Hne. destruct (strict_eq a b) eqn:E; [|done].
  by apply strict_eq_true in E.
Qed.

Example heard_code : deviceConfirmationCodes Bus.heard = Scenario.codes.
Proof. reflexivity. Qed.

(** A safe integer, which a number parameter carries digit by digit, is a
    number the [BIGINT] column takes. *)
Lemma safe_integer_bigint n : Z.abs n < 2 ^ 53 → Column.bigint n = true.
Proof.
  intros Hn. unfold Column.bigint. apply andb_true_iff.
  split; apply Z.ltb_lt; lia.
Qed.

(** Unfolds the plumbing of [Tx] so that a handler reads as a function of
    the database. *)
Ltac tx_unfold :=
  unfold with_client, taking, throw, mbind, mret, Tx_bind, Tx_ret,
         BEGIN, ROLLBACK, COMMIT, select, exec, query; cbn [conn snapshot].

(** ** Auxiliary facts about rows and transactions *)

Lemma rolled_back_same (d : Db) : rolled_back d d = d.
Proof. by destruct d. Qed.


Lemma select_device_id_nil device_id d :
  Sql.select_device_id device_id d = [] ↔ ¬ device_exists device_id d.
Proof.
  unfold Sql.select_device_id, device_exists.
  induction (devices d) as [|dev ds IH].
  - split; [|done]. intros _ H. by apply Exists_nil in H.
  - rewrite Exists_cons. rewrite filter_cons. case_decide as Hd; simpl.
    + split; [done|]. intros H. destruct H. by left.
    + rewrite IH. tauto.
Qed.

Lemma elem_of_select_is_owner b telegram_id device_id d :
  b ∈ Sql.select_is_owner telegram_id device_id d ↔
  ∃ e, e ∈ user_devices d ∧ ud_is_owner e = b
       ∧ (∃ u, u ∈ users d ∧ u_id u = ud_user_id e ∧ u_telegram_id u = telegram_id)
       ∧ (∃ dev, dev ∈ devices d ∧ d_id dev = ud_device_id e
                 ∧ d_device_id dev = device_id).
Proof.
  unfold Sql.select_is_owner. rewrite list_elem_of_bind. split.
  - intros (e & Hb & He). exists e. split; [done|].
    apply list_elem_of_bind in Hb as (u & Hb & Hu).
    apply list_elem_of_bind in Hb as (dev & Hb & Hdev).
    apply list_elem_of_singleton in Hb.
    apply list_elem_of_filter in Hu as [[? ?] ?].
    apply list_elem_of_filter in Hdev as [[? ?] ?].
    split; [done|]. split; [by exists u | by exists dev].
  - intros (e & He & Hb & (u & Hu & ? & ?) & (dev & Hdev & ? & ?)).
    exists e. split; [|done].
    apply list_elem_of_bind. exists u. split; [|by apply list_elem_of_filter].
    apply list_elem_of_bind. exists dev. split; [|by apply list_elem_of_filter].
    subst b. apply list_elem_of_singleton. done.
Qed.


(** ** The handlers of the Ownership Store as functions of the database *)

Lemma Pair_unfold codes now userId deviceId candidateCode desiredName d :
  Pair codes now userId deviceId candidateCode desiredName d =
  if negb (matches codes deviceId candidateCode) then (InvalidCode, d)
  else if Pair_throws userId deviceId desiredName d
  then (InternalServerError, d)
  else match Sql.select_user_id userId d with
       | [] => (UserNotFound, d)
       | userDbId :: _ =>
           let '(deviceDbId, isNewDevice, d1) :=
             match Sql.select_device_id deviceId d with
             | [] =>
                 (devices_id_seq d, true,
                  (Sql.insert_device deviceId (device_name desiredName deviceId) now d).2)
             | id :: _ => (id, false, d)
             end in
           if 0 <? Z.of_nat (length (Sql.select_user_device userDbId deviceDbId d1))
           then (AlreadyLinked, rolled_back d d1)
           else
             let d2 := Sql.insert_user_device userDbId deviceDbId isNewDevice now d1 in
             (res_json (DeviceJson (head (Sql.select_device_with_access deviceDbId userDbId d2))),
              d2)
       end.
Proof.
  unfold Pair, post_devices, matches, Pair_throws. tx_unfold.
  rewrite negb_andb.
  destruct (negb _ || negb _); cbn; [by rewrite rolled_back_same|].
  destruct (Column.bigint userId); cbn; [|by rewrite rolled_back_same].
  destruct (Sql.select_user_id userId d) as [|uid ?]; cbn;
    [by rewrite rolled_back_same|].
  destruct (Column.text deviceId); cbn; [|by rewrite rolled_back_same].
  destruct (Sql.select_device_id deviceId d) as [|did ?]; cbn.
  - destruct (Column.varchar 255 deviceId && Column.varchar 255 _); cbn;
      [|by rewrite rolled_back_same].
    match goal with |- context [if ?c then _ else _] => destruct c end; done.
  - match goal with |- context [if ?c then _ else _] => destruct c end; done.
Qed.

Lemma Share_unfold now ownerId deviceId targetId d :
  Share now ownerId deviceId targetId d =
  if Share_throws ownerId deviceId targetId d then (InternalServerError, d)
  else
  match Sql.select_is_owner ownerId deviceId d with
  | [] | false :: _ => (Forbidden, d)
  | true :: _ =>
      let '(targetUserId, d1) :=
        match Sql.select_user_id targetId d with
        | [] => (users_id_seq d, (Sql.insert_user targetId None now d).2)
        | id :: _ => (id, d)
        end in
      match Sql.select_device_id deviceId d1 with
      | [] => (DeviceNotFound, rolled_back d d1)
      | deviceDbId :: _ =>
          if 0 <? Z.of_nat (length (Sql.select_user_device targetUserId deviceDbId d1))
          then (TargetAlreadyLinked, rolled_back d d1)
          else (res_json Success,
                Sql.insert_user_device targetUserId deviceDbId false now d1)
      end
  end.
Proof.
  unfold Share, post_share, Share_throws. tx_unfold.
  destruct (Column.bigint ownerId); cbn; [|by rewrite rolled_back_same].
  destruct (Column.text deviceId); cbn; [|by rewrite rolled_back_same].
  destruct (Sql.select_is_owner ownerId deviceId d) as [|[] ?]; cbn;
    try by rewrite rolled_back_same.
  destruct (Column.bigint targetId); cbn; [|by rewrite rolled_back_same].
  destruct (Sql.select_user_id targetId d) as [|tid ?]; cbn.
  - unfold Sql.select_device_id. cbn [devices with_users].
    destruct (d_id <$> filter _ (devices d)) as [|did ?]; cbn; [done|].
    match goal with |- context [if ?c then _ else _] => destruct c end; done.
  - destruct (Sql.select_device_id deviceId d) as [|did ?]; cbn; [done|].
    match goal with |- context [if ?c then _ else _] => destruct c end; done.
Qed.

Lemma Unpair_unfold userId deviceId d :
  Unpair userId deviceId d =
  match userId with
  | None | Some 0 => (UserIdRequired, d)
  | Some uid =>
      if negb (Column.bigint uid && Column.text deviceId)
      then (InternalServerError, d)
      else
      match Sql.select_user_id uid d, Sql.select_device_id deviceId d with
      | userDbId :: _, deviceDbId :: _ =>
          let d1 := Sql.delete_user_device userDbId deviceDbId d in
          (res_json Success,
           if Sql.count_user_devices deviceDbId d1 =? 0
           then Sql.delete_device deviceDbId d1
           else d1)
      | _, _ => (NotFound, d)
      end
  end.
Proof.
  unfold Unpair, delete_devices. tx_unfold.
  destruct userId as [[|uid|uid]|]; cbn; try by rewrite rolled_back_same.
  all: destruct (Column.bigint _); cbn; [|by rewrite rolled_back_same].
  all: destruct (Column.text deviceId); cbn; [|by rewrite rolled_back_same].
  all: destruct (Sql.select_user_id _ d) as [|u ?]; cbn;
    [by rewrite rolled_back_same|].
  all: destruct (Sql.select_device_id deviceId d) as [|did ?]; cbn;
    [by rewrite rolled_back_same|].
  all: match goal with |- context [if ?c then _ else _] => destruct c end; done.
Qed.

Lemma Unpair_unfold_caller uid deviceId d :
  uid ≠ 0 →
  Unpair (Some uid) deviceId d =
  if negb (Column.bigint uid && Column.text deviceId)
  then (InternalServerError, d)
  else
    match Sql.select_user_id uid d, Sql.select_device_id deviceId d with
    | userDbId :: _, deviceDbId :: _ =>
        let d1 := Sql.delete_user_device userDbId deviceDbId d in
        (res_json Success,
         if Sql.count_user_devices deviceDbId d1 =? 0
         then Sql.delete_device deviceDbId d1
         else d1)
    | _, _ => (NotFound, d)
    end.
Proof. intros Hnz. rewrite Unpair_unfold. by destruct uid. Qed.

(** ** Pairing: the confirmation code *)

Lemma matches_false_absent codes deviceId candidateCode :
  codes !! deviceId = None → matches codes deviceId candidateCode = false.
Proof. unfold matches, stored_code. by intros ->. Qed.

Lemma matches_false_mismatch codes deviceId candidateCode c :
  codes !! deviceId = Some c → c ≠ candidateCode →
  matches codes deviceId candidateCode = false.
Proof.
  unfold matches, stored_code. intros -> Hne. simpl.
  rewrite (strict_eq_ne _ _ Hne). apply andb_false_r.
Qed.

Lemma Pair_no_match codes now userId deviceId candidateCode desiredName d :
  matches codes deviceId candidateCode = false →
  Pair codes now userId deviceId candidateCode desiredName d = (InvalidCode, d).
Proof. intros Hm. rewrite Pair_unfold. by rewrite Hm. Qed.

(** C1: a Pair call for a device with no advertised code, or with an
    advertised code different from the candidate, answers [InvalidCode] and
    leaves the database exactly as it was: no User, Device, Ownership Edge
    or History row is created or modified. *)
Theorem Pair_invalid_code codes now userId deviceId candidateCode desiredName d :
  codes !! deviceId = None
  ∨ (∃ c, codes !! deviceId = Some c ∧ c ≠ candidateCode) →
  Pair codes now userId deviceId candidateCode desiredName d = (InvalidCode, d).
Proof.
  intros [Habsent | (c & Hc & Hne)]; apply Pair_no_match.
  - by apply matches_false_absent.
  - by apply (matches_false_mismatch _ _ _ c).
Qed.

(** The example of the specification: [482910] against [482913]. *)
Lemma Pair_invalid_code_witness :
  Pair Scenario.codes 30 Scenario.U1 "D1" (JStr "482910") None Scenario.db_users
  = (InvalidCode, Scenario.db_users).
Proof.
  apply Pair_invalid_code. right. exists (JStr "482913").
  split; [reflexivity | discriminate].
Defined.

(** ** Pairing: the user row *)




(** Pair never adds to [users], whatever it answers. *)
Lemma Pair_users codes now userId deviceId candidateCode desiredName d :
  users (Pair codes now userId deviceId candidateCode desiredName d).2 = users d.
Proof.
  rewrite Pair_unfold.
  destruct (negb _); [done|]. destruct (Pair_throws _ _ _ _); [done|].
  destruct (Sql.select_user_id userId d) as [|uid ?]; cbn; [done|].
  destruct (Sql.select_device_id deviceId d) as [|did ?]; cbn;
    match goal with |- context [if ?c then _ else _] => destruct c end; done.
Qed.

(** ** Sharing: only the owner *)




(** ** The owner flag of an inserted edge *)

Lemma select_device_id_cons device_id d id ids :
  Sql.select_device_id device_id d = id :: ids → device_exists device_id d.
Proof.
  intros E. destruct (decide (device_exists device_id d)) as [|Hno]; [done|].
  apply select_device_id_nil in Hno. congruence.
Qed.

(** Closes a goal whose hypothesis says that an error answer is [ok]. *)
Ltac not_ok :=
  match goal with
  | H : ok _ |- _ => exfalso; revert H; cbn; discriminate
  end.

Lemma Pair_ok_new codes now userId deviceId candidateCode desiredName d :
  ok (Pair codes now userId deviceId candidateCode desiredName d).1 →
  ¬ device_exists deviceId d →
  ∃ dev e,
    devices (Pair codes now userId deviceId candidateCode desiredName d).2
      = devices d ++ [dev]
    ∧ user_devices (Pair codes now userId deviceId candidateCode desiredName d).2
      = user_devices d ++ [e]
    ∧ d_device_id dev = deviceId
    ∧ ud_device_id e = d_id dev
    ∧ ud_is_owner e = true.
Proof.
  rewrite Pair_unfold. intros Hok Hnew.
  apply select_device_id_nil in Hnew. rewrite Hnew in *.
  destruct (negb _); [not_ok|].
  destruct (Pair_throws _ _ _ _); [not_ok|].
  destruct (Sql.select_user_id userId d) as [|uid ?]; [not_ok|].
  cbn in *. destruct (0 <? _); [not_ok|].
  cbn. by eexists _, _.
Qed.





(** ** Every device has an edge *)

Lemma every_device_owned_alt d :
  every_device_owned d ↔
  ∀ dev, dev ∈ devices d → ∃ e, e ∈ user_devices d ∧ ud_device_id e = d_id dev.
Proof.
  unfold every_device_owned. rewrite Forall_forall.
  by setoid_rewrite Exists_exists.
Qed.

Lemma every_device_owned_rows d d' :
  devices d' = devices d → user_devices d' = user_devices d →
  every_device_owned d → every_device_owned d'.
Proof. unfold every_device_owned. by intros -> ->. Qed.

Lemma every_device_owned_more_edges d d' es :
  devices d' = devices d → user_devices d' = user_devices d ++ es →
  every_device_owned d → every_device_owned d'.
Proof.
  rewrite !every_device_owned_alt. intros Hd He H dev Hdev.
  rewrite Hd in Hdev. destruct (H dev Hdev) as (e & Hin & Hid).
  exists e. split; [|done]. rewrite He. apply elem_of_app. by left.
Qed.

Lemma Pair_keeps_owned codes now userId deviceId candidateCode desiredName d :
  every_device_owned d →
  every_device_owned (Pair codes now userId deviceId candidateCode desiredName d).2.
Proof.
  intros Hinv. rewrite Pair_unfold.
  destruct (negb _); [done|].
  destruct (Pair_throws _ _ _ _); [done|].
  destruct (Sql.select_user_id userId d) as [|uid ?]; [done|].
  destruct (Sql.select_device_id deviceId d) as [|did ?]; cbn.
  - destruct (0 <? _); cbn.
    + by apply (every_device_owned_rows d).
    + apply every_device_owned_alt. cbn. intros dev Hdev.
      apply elem_of_app in Hdev as [Hdev | Hdev].
      * destruct (proj1 (every_device_owned_alt d) Hinv dev Hdev)
          as (e & Hin & Hid).
        exists e. split; [|done]. apply elem_of_app. by left.
      * apply list_elem_of_singleton in Hdev. subst dev.
        eexists. split; [apply elem_of_app; right; by apply list_elem_of_singleton|].
        done.
  - destruct (0 <? _); cbn.
    + by apply (every_device_owned_rows d).
    + by eapply (every_device_owned_more_edges d).
Qed.

Lemma Share_keeps_owned now ownerId deviceId targetId d :
  every_device_owned d →
  every_device_owned (Share now ownerId deviceId targetId d).2.
Proof.
  intros Hinv. rewrite Share_unfold.
  destruct (Share_throws _ _ _ _); [done|].
  destruct (Sql.select_is_owner ownerId deviceId d) as [|[] ?]; try done.
  destruct (Sql.select_user_id targetId d) as [|tid ?]; cbn.
  - unfold Sql.select_device_id. cbn [devices with_users].
    destruct (d_id <$> filter _ (devices d)) as [|did ?]; cbn;
      [by apply (every_device_owned_rows d)|].
    destruct (0 <? _); cbn; [by apply (every_device_owned_rows d)|].
    by eapply (every_device_owned_more_edges d).
  - destruct (Sql.select_device_id deviceId d) as [|did ?]; cbn;
      [by apply (every_device_owned_rows d)|].
    destruct (0 <? _); cbn; [by apply (every_device_owned_rows d)|].
    by eapply (every_device_owned_more_edges d).
Qed.

Lemma count_user_devices_zero id d :
  (Sql.count_user_devices id d =? 0) = true ↔
  ¬ Exists (λ e, ud_device_id e = id) (user_devices d).
Proof.
  unfold Sql.count_user_devices. rewrite Z.eqb_eq, Exists_exists.
  split.
  - intros Hlen (e & Hin & Hid).
    assert (Hf : e ∈ filter (λ e, ud_device_id e = id) (user_devices d))
      by by apply list_elem_of_filter.
    destruct (filter _ (user_devices d)); [by apply not_elem_of_nil in Hf|].
    simpl in Hlen. lia.
  - intros Hno.
    destruct (filter (λ e, ud_device_id e = id) (user_devices d)) as [|e es] eqn:E;
      [done|].
    exfalso. apply Hno. exists e.
    assert (Hf : e ∈ filter (λ e, ud_device_id e = id) (user_devices d))
      by (rewrite E; by left).
    apply list_elem_of_filter in Hf as [? ?]. done.
Qed.

Lemma filter_all {A} (P : A → Prop) `{!∀ x, Decision (P x)} (l : list A) :
  Forall P l → filter P l = l.
Proof.
  induction 1 as [|x l Hx _ IH]; [done|].
  rewrite filter_cons_True by done. by rewrite IH.
Qed.

(** The answer of a successful Unpair and the rows it leaves: the caller's
    edge is gone and nothing else of [user_devices]; the Device row is gone
    exactly when no edge to it is left. *)
Lemma Unpair_ok userId deviceId d :
  ok (Unpair userId deviceId d).1 →
  ∃ uid userDbId deviceDbId,
    userId = Some uid
    ∧ head (Sql.select_user_id uid d) = Some userDbId
    ∧ head (Sql.select_device_id deviceId d) = Some deviceDbId
    ∧ user_devices (Unpair userId deviceId d).2
      = filter (λ e, ¬ (ud_user_id e = userDbId ∧ ud_device_id e = deviceDbId))
               (user_devices d)
    ∧ devices (Unpair userId deviceId d).2
      = if decide (Exists (λ e, ud_device_id e = deviceDbId)
                          (user_devices (Unpair userId deviceId d).2))
        then devices d
        else filter (λ dev, d_id dev ≠ deviceDbId) (devices d).
Proof.
  intros Hok.
  destruct userId as [uid|]; [|by rewrite Unpair_unfold in Hok].
  assert (Huid : uid ≠ 0) by (intros ->; by rewrite Unpair_unfold in Hok).
  revert Hok. rewrite (Unpair_unfold_caller _ _ _ Huid). intros Hok.
  destruct (negb _); [not_ok|].
  destruct (Sql.select_user_id uid d) as [|userDbId ?] eqn:Eu; [not_ok|].
  destruct (Sql.select_device_id deviceId d) as [|deviceDbId ?] eqn:Ed;
    [not_ok|].
  exists uid, userDbId, deviceDbId.
  split; [done|]. split; [by rewrite Eu|]. split; [done|].
  cbn zeta.
  cbn [snd].
  destruct (Sql.count_user_devices _ _ =? 0) eqn:Ec.
  - apply count_user_devices_zero in Ec.
    assert (Hall : filter (λ e, ud_device_id e ≠ deviceDbId)
                     (user_devices (Sql.delete_user_device userDbId deviceDbId d))
                   = user_devices (Sql.delete_user_device userDbId deviceDbId d)).
    { apply filter_all, Forall_forall. intros e He Hid. apply Ec.
      apply Exists_exists. by exists e. }
    cbn in Hall |- *. rewrite Hall. split; [done|].
    rewrite decide_False; [done|]. exact Ec.
  - split; [done|]. rewrite decide_True; [done|].
    destruct (decide (Exists (λ e, ud_device_id e = deviceDbId)
                (user_devices (Sql.delete_user_device userDbId deviceDbId d))))
      as [|Hno]; [done|].
    apply count_user_devices_zero in Hno. congruence.
Qed.

Lemma Unpair_keeps_owned userId deviceId d :
  every_device_owned d →
  every_device_owned (Unpair userId deviceId d).2.
Proof.
  intros Hinv.
  destruct (decide (ok (Unpair userId deviceId d).1)) as [Hok | Hfail].
  - destruct (Unpair_ok _ _ _ Hok)
      as (uid & userDbId & deviceDbId & _ & _ & _ & He & Hd).
    apply every_device_owned_alt. intros dev Hdev.
    destruct (decide (d_id dev = deviceDbId)) as [Hid | Hid].
    + rewrite Hd in Hdev. case_decide as Hleft.
      * apply Exists_exists in Hleft as (e & Hin & Hdid).
        exists e. split; [done | congruence].
      * apply list_elem_of_filter in Hdev as [? _]. done.
    + assert (Hdev' : dev ∈ devices d).
      { rewrite Hd in Hdev. case_decide; [done|].
        by apply list_elem_of_filter in Hdev as [_ ?]. }
      destruct (proj1 (every_device_owned_alt d) Hinv dev Hdev')
        as (e & Hin & Hdid).
      exists e. split; [|done]. rewrite He. apply list_elem_of_filter.
      split; [|done]. intros [_ ?]. congruence.
  - revert Hfail. rewrite Unpair_unfold.
    destruct userId as [[|uid|uid]|]; try done.
    all: destruct (negb _); try done.
    all: destruct (Sql.select_user_id _ d); try done.
    all: destruct (Sql.select_device_id deviceId d); try done.
    all: intros Hfail; exfalso; by apply Hfail.
Qed.




Example last_edge_takes_device :
  devices (Unpair (Some Scenario.U1) "D1"
             (Unpair (Some Scenario.U2) "D1" Scenario.db_joined).2).2 = []
  ∧ devices (Unpair (Some Scenario.U2) "D1" Scenario.db_joined).2
    = devices Scenario.db_joined.
Proof. split; reflexivity. Qed.

(** ** Telemetry, presence and history *)

Lemma split_level s : no_slash s = true → split "/" s = [s].
Proof.
  induction s as [|c s IH]; cbn -[Ascii.eqb]; [done|].
  intros [Hc Hs]%andb_true_iff. apply negb_true_iff in Hc.
  rewrite Hc. by rewrite (IH Hs).
Qed.

Lemma split_level_slash s t :
  no_slash s = true → split "/" (s +:+ String "/" t) = s :: split "/" t.
Proof.
  induction s as [|c s IH]; [done|].
  change (String c s +:+ String "/" t) with (String c (s +:+ String "/" t)).
  cbn -[Ascii.eqb].
  intros [Hc Hs]%andb_true_iff. apply negb_true_iff in Hc.
  rewrite Hc. by rewrite (IH Hs).
Qed.

(** The topics the handler is subscribed to split into their three
    levels. *)
Lemma split_device_topic deviceId kind :
  no_slash deviceId = true → no_slash kind = true →
  split "/" ("solar/" +:+ deviceId +:+ String "/" kind)
    = ["solar"; deviceId; kind].
Proof.
  intros Hd Hk.
  change ("solar/" +:+ deviceId +:+ String "/" kind)
    with ("solar" +:+ String "/" (deviceId +:+ String "/" kind)).
  rewrite split_level_slash by done.
  rewrite split_level_slash by done.
  by rewrite split_level.
Qed.

Lemma get_prop_is_Some v k : nullish v = false → is_Some (get_prop v k).
Proof. destruct v; simpl; try discriminate; eauto. Qed.

(** The row [saveDeviceStatus] inserts for the parameters [ps]. *)
Lemma saveDeviceStatus_rows now deviceId status d :
  saveDeviceStatus now deviceId status d =
  match history_parameters deviceId status with
  | Some (relay_state, wifi_rssi, uptime, free_heap) =>
      with_device_history
        (device_history d
         ++ [{| h_id := device_history_id_seq d; h_device_id := deviceId;
                h_relay_state := relay_state; h_wifi_rssi := wifi_rssi;
                h_uptime := uptime; h_free_heap := free_heap;
                h_timestamp := now |}])
        (device_history_id_seq d + 1) d
  | None => d
  end.
Proof.
  unfold saveDeviceStatus.
  by destruct (history_parameters deviceId status) as [[[[? ?] ?] ?]|].
Qed.

(** The database refuses the device id of a text with NUL, and with it the
    sample. *)
Lemma history_parameters_text deviceId status :
  Column.text deviceId = false → history_parameters deviceId status = None.
Proof.
  intros Hno. unfold history_parameters, Column.varchar. rewrite Hno.
  destruct (get_prop status "relayState"); [|done].
  destruct (get_prop status "wifiRSSI"); [|done].
  destruct (get_prop status "uptime"); [|done].
  by destruct (get_prop status "freeHeap").
Qed.


Lemma on_status_presence now deviceId status s s' :
  on_status now deviceId status s = Some s' →
  deviceStatuses s' !! deviceId = Some (status_record now status).
Proof.
  unfold on_status. destruct (get_prop status "confirmationCode") as [code|];
    [|discriminate].
  cbn. destruct (Column.text deviceId); cbn; intros [= <-].
  - destruct (0 <? _); cbn; destruct (truthy code); cbn; apply lookup_insert_eq.
  - destruct (truthy code); cbn; apply lookup_insert_eq.
Qed.

Lemma on_status_db now deviceId status s :
  nullish status = false →
  ∃ s', on_status now deviceId status s = Some s'
    ∧ db s' = if decide (device_exists deviceId (db s))
              then saveDeviceStatus now deviceId status (db s)
              else db s.
Proof.
  intros Hv. unfold on_status.
  destruct (get_prop_is_Some status "confirmationCode" Hv) as [code ->].
  cbn.
  set (s1 := if truthy code then _ else s).
  assert (Hs1 : db s1 = db s) by (subst s1; by destruct (truthy code)).
  destruct (Column.text deviceId) eqn:Etext; cbn.
  - eexists. split; [reflexivity|]. rewrite Hs1.
    destruct (Sql.select_device_id deviceId (db s)) as [|id ids] eqn:E.
    + apply select_device_id_nil in E. rewrite decide_False by done. cbn. done.
    + apply select_device_id_cons in E. rewrite decide_True by done. cbn. done.
  - eexists. split; [reflexivity|]. cbn. rewrite Hs1.
    rewrite saveDeviceStatus_rows, history_parameters_text by done.
    by case_decide.
Qed.

Lemma on_message_status JSON_parse now topic ns deviceId rest message status s :
  split "/"%char topic = ns :: deviceId :: "status" :: rest →
  JSON_parse message = Some status →
  nullish status = false →
  on_status now deviceId status s
    = Some (on_message JSON_parse now topic message s).
Proof.
  intros Htopic Hparse Hv. unfold on_message. rewrite Htopic, Hparse. cbn.
  destruct (on_status_db now deviceId status s Hv) as (s' & -> & _). done.
Qed.



(** A status message whose payload does not parse, or parses to [null], is
    dropped: the handler's [catch] leaves the process as it was. *)
Lemma status_message_discarded JSON_parse now topic ns deviceId rest message s :
  split "/"%char topic = ns :: deviceId :: "status" :: rest →
  JSON_parse message = None ∨ JSON_parse message = Some JNull →
  on_message JSON_parse now topic message s = s.
Proof.
  intros Htopic Hparse. unfold on_message. rewrite Htopic. cbn.
  by destruct Hparse as [-> | ->].
Qed.


(** ** The presence sweep *)

Lemma sweep_lookup now s deviceId :
  deviceStatuses (sweep now s) !! deviceId
    = swept now <$> (deviceStatuses s !! deviceId).
Proof. unfold sweep. cbn. by rewrite lookup_fmap. Qed.





(** ** The [online] topic *)

(** C10: a message on a device's [online] topic stores a record whose
    [online] flag is [true] exactly when the payload is the text [true];
    any other payload stores [false], none is dropped.  The record keeps
    the telemetry recorded before (none for a device not heard of), and
    nothing else of the process changes. *)
Theorem online_message_sets_flag JSON_parse now topic ns deviceId rest message s :
  split "/"%char topic = ns :: deviceId :: "online" :: rest →
  ∃ p,
    deviceStatuses (on_message JSON_parse now topic message s) !! deviceId
      = Some p
    ∧ (online p = true ↔ message = "true")
    ∧ lastSeen p = now
    ∧ telemetry p = match deviceStatuses s !! deviceId with
                    | Some before => telemetry before
                    | None => []
                    end
    ∧ (∀ other, other ≠ deviceId →
         deviceStatuses (on_message JSON_parse now topic message s) !! other
           = deviceStatuses s !! other)
    ∧ deviceConfirmationCodes (on_message JSON_parse now topic message s)
      = deviceConfirmationCodes s
    ∧ db (on_message JSON_parse now topic message s) = db s.
Proof.
  intros Htopic. unfold on_message, on_online. rewrite Htopic. cbn.
  eexists. split; [apply lookup_insert_eq|]. cbn.
  split; [apply String.eqb_eq|]. split; [done|]. split; [done|].
  split; [|done]. intros other Hne. by apply lookup_insert_ne.
Qed.

Lemma online_message_sets_flag_witness :
  (∃ p, deviceStatuses
          (on_message Bus.JSON_parse 70 "solar/D1/online" "false" Bus.heard)
          !! "D1" = Some p
        ∧ online p = false
        ∧ telemetry p = telemetry (status_record 5 Bus.heartbeat_value))
  ∧ (∃ p, deviceStatuses
            (on_message Bus.JSON_parse 70 "solar/D1/online" "yes" Bus.heard)
            !! "D1" = Some p
          ∧ online p = false)
  ∧ (∃ p, deviceStatuses
            (on_message Bus.JSON_parse 70 "solar/D1/online" "true" Bus.boot)
            !! "D1" = Some p
          ∧ online p = true ∧ telemetry p = []).
Proof.
  split; [|split].
  - destruct (online_message_sets_flag Bus.JSON_parse 70 "solar/D1/online"
                "solar" "D1" [] "false" Bus.heard)
      as (p & Hp & Hon & _ & Ht & _); [reflexivity|].
    exists p. split; [done|]. split; [|by rewrite Ht].
    destruct (online p) eqn:E; [|done]. discriminate (proj1 Hon eq_refl).
  - destruct (online_message_sets_flag Bus.JSON_parse 70 "solar/D1/online"
                "solar" "D1" [] "yes" Bus.heard)
      as (p & Hp & Hon & _); [reflexivity|].
    exists p. split; [done|].
    destruct (online p) eqn:E; [|done]. discriminate (proj1 Hon eq_refl).
  - destruct (online_message_sets_flag Bus.JSON_parse 70 "solar/D1/online"
                "solar" "D1" [] "true" Bus.boot)
      as (p & Hp & Hon & _ & Ht & _); [reflexivity|].
    exists p. split; [done|]. split; [by apply Hon | by rewrite Ht].
Defined.

(** ** Relay control *)

(** C8: for every device id, command and state, and in every state of the
    process (whatever rows the database holds), the control route publishes
    the command payload on the device's command topic and answers success.
    It reads neither the caller nor the database, so it never answers
    [Forbidden], [NotFound] or [DeviceNotFound]. *)
Theorem control_publishes_unchecked JSON_stringify deviceId command state s :
  (post_control JSON_stringify deviceId command state s).1 = res_json Success
  ∧ published (post_control JSON_stringify deviceId command state s).2
    = published s
      ++ [("solar/" +:+ deviceId +:+ "/command",
           JSON_stringify (JObj [("command", command); ("state", state)]))]
  ∧ db (post_control JSON_stringify deviceId command state s).2 = db s
  ∧ (∀ d, post_control JSON_stringify deviceId command state (with_db d s)
          = ((post_control JSON_stringify deviceId command state s).1,
             with_db d (post_control JSON_stringify deviceId command state s).2))
  ∧ (post_control JSON_stringify deviceId command state s).1 ≠ Forbidden
  ∧ (post_control JSON_stringify deviceId command state s).1 ≠ NotFound
  ∧ (post_control JSON_stringify deviceId command state s).1 ≠ DeviceNotFound.
Proof. repeat split; discriminate. Qed.

(** ** The reconnect cooldown of the firmware *)

Module FirmwareProperties.
Import Firmware.

Lemma wrap_sub_millis t t0 : wrap (millis t - millis t0) = wrap (t - t0).
Proof. unfold millis, wrap. by rewrite <- Zminus_mod. Qed.

Lemma wrap_small n : 0 ≤ n < 2 ^ 32 → wrap n = n.
Proof. apply Z.mod_small. Qed.

(** Within 5000 ms of the attempt recorded in [lastAttempt] the routine
    does nothing. *)
Lemma reconnectMQTT_cooling r st t0 :
  lastAttempt st = millis t0 →
  0 ≤ t_check r - t0 < 5000 →
  reconnectMQTT r st = (st, []).
Proof.
  intros Hlast Hnear. unfold reconnectMQTT.
  destruct (wifiConnected st); [|done]. cbn.
  rewrite Hlast, wrap_sub_millis, wrap_small by lia.
  by rewrite (proj2 (Z.ltb_lt _ _)) by lia.
Qed.

(** An attempt is made only 5000 ms or more after the recorded one, and
    records its own time. *)
Lemma reconnectMQTT_attempt r st t0 :
  lastAttempt st = millis t0 →
  t0 ≤ t_check r →
  attempted (reconnectMQTT r st).2 = true →
  t0 + 5000 ≤ t_check r
  ∧ lastAttempt (reconnectMQTT r st).1 = millis (t_stamp r).
Proof.
  intros Hlast Hle. unfold reconnectMQTT.
  destruct (wifiConnected st); [|discriminate]. cbn.
  destruct (wrap (millis (t_check r) - lastAttempt st) <? 5000) eqn:E;
    [discriminate|].
  intros _. split.
  - apply Z.ltb_ge in E. rewrite Hlast, wrap_sub_millis in E.
    destruct (decide (t_check r - t0 < 5000)) as [Hnear|]; [|lia].
    rewrite wrap_small in E by lia. lia.
  - by destruct (connect_ok r).
Qed.

Lemma reconnectMQTT_idle r st :
  attempted (reconnectMQTT r st).2 = false →
  lastAttempt (reconnectMQTT r st).1 = lastAttempt st.
Proof.
  unfold reconnectMQTT.
  destruct (wifiConnected st); [|done]. cbn.
  destruct (_ <? 5000); [done|].
  destruct (connect_ok r); discriminate.
Qed.

Lemma chronological_earlier t t' calls :
  t ≤ t' → chronological t' calls → chronological t calls.
Proof.
  destruct calls as [|[wifi r] calls]; cbn; [done|].
  intros Hle (Hcheck & Hstamp & Hrest). split; [lia | done].
Qed.

Lemma attempts_spaced calls : ∀ st t0,
  lastAttempt st = millis t0 →
  chronological t0 calls →
  spaced 5000 t0 (attempts calls st).
Proof.
  induction calls as [|[wifi r] calls IH]; intros st t0 Hlast Hchron; [done|].
  cbn [attempts].
  set (st0 := {| deviceId := deviceId st; wifiConnected := wifi;
                 mqttConnected := mqttConnected st;
                 relayState := relayState st;
                 lastAttempt := lastAttempt st |}).
  destruct Hchron as (Hcheck & Hstamp & Hrest).
  pose proof (reconnectMQTT_attempt r st0 t0 Hlast Hcheck) as Hatt.
  pose proof (reconnectMQTT_idle r st0) as Hidle.
  destruct (reconnectMQTT r st0) as [st' evs]. cbn [fst snd] in *.
  destruct (attempted evs).
  - destruct (Hatt eq_refl) as [Hgap Hlast']. cbn [spaced]. split; [lia|].
    by apply IH.
  - apply IH.
    + by rewrite Hidle.
    + apply (chronological_earlier _ (t_stamp r)); [lia | done].
Qed.

(** C9: a call of the reconnect routine less than 5000 ms after the attempt
    recorded in [lastAttempt] returns without touching the broker or the
    state, also across the wrap of the 32-bit clock; hence in any run of
    calls, however frequent, the connection attempts lie at least 5000 ms
    apart. *)
Theorem reconnect_rate_limited st t0 :
  lastAttempt st = millis t0 →
  (∀ r, 0 ≤ t_check r - t0 < 5000 → reconnectMQTT r st = (st, []))
  ∧ (∀ calls, chronological t0 calls → spaced 5000 t0 (attempts calls st)).
Proof.
  intros Hlast. split.
  - intros r Hnear. by apply (reconnectMQTT_cooling r st t0).
  - intros calls Hchron. by apply attempts_spaced.
Qed.

Lemma reconnect_rate_limited_witness :
  reconnectMQTT (call_at 2000).2 booted = (booted, [])
  ∧ spaced 5000 0
      (attempts (call_at <$> [2000; 4000; 6000; 8000; 10000; 12000; 14000])
                booted).
Proof.
  destruct (reconnect_rate_limited booted 0 eq_refl) as [Hcool Hspaced].
  split.
  - apply Hcool. cbn. lia.
  - apply Hspaced. cbn. lia.
Defined.

(** The run of the witness: of seven calls two reach the broker. *)
Example every_third_call_attempts :
  attempts (call_at <$> [2000; 4000; 6000; 8000; 10000; 12000; 14000]) booted
  = [6000; 12000].
Proof. reflexivity. Qed.

(** An attempt 1000 ms before the clock wraps still holds back a call
    2000 ms after the wrap, where [millis()] reads 2000. *)
Example cooldown_across_wrap :
  let st := {| deviceId := "D1"; wifiConnected := true; mqttConnected := false;
               relayState := false; lastAttempt := millis (2 ^ 32 - 1000) |} in
  millis (2 ^ 32 + 2000) = 2000
  ∧ reconnectMQTT (call_at (2 ^ 32 + 2000)).2 st = (st, []).
Proof. split; reflexivity. Qed.

End FirmwareProperties.

(** * More properties of the server *)

(** ** Lists of rows *)

Lemma NoDup_fmap_snoc {A B} (f : A → B) (l : list A) (x : A) :
  NoDup (f <$> l) → f x ∉ f <$> l → NoDup (f <$> (l ++ [x])).
Proof.
  intros Hl Hx. rewrite fmap_app. apply NoDup_app.
  split; [done|]. split; [|apply NoDup_singleton].
  intros y Hy Hin. apply list_elem_of_singleton in Hin. by subst.
Qed.

Lemma NoDup_fmap_filter {A B} (f : A → B) (P : A → Prop)
    `{!∀ x, Decision (P x)} (l : list A) :
  NoDup (f <$> l) → NoDup (f <$> filter P l).
Proof.
  induction l as [|x l IH]; [done|].
  rewrite fmap_cons, NoDup_cons. intros [Hx Hl].
  rewrite filter_cons. case_decide; [|by apply IH].
  rewrite fmap_cons. apply NoDup_cons. split; [|by apply IH].
  intros Hin. apply Hx.
  apply list_elem_of_fmap in Hin as (y & Hy & Hin).
  apply list_elem_of_filter in Hin as [_ Hin].
  apply list_elem_of_fmap. by exists y.
Qed.

Lemma fresh_key {A} (f : A → Z) (n : Z) (l : list A) :
  Forall (λ x, f x < n) l → n ∉ f <$> l.
Proof.
  intros Hall Hin. apply list_elem_of_fmap in Hin as (x & Hx & Hin).
  rewrite Forall_forall in Hall. specialize (Hall x Hin). lia.
Qed.

Lemma Forall_below_more {A} (f : A → Z) (n m : Z) (l : list A) :
  n ≤ m → Forall (λ x, f x < n) l → Forall (λ x, f x < m) l.
Proof.
  intros Hle Hall. eapply Forall_impl; [exact Hall|]. intros x Hx. cbn in Hx. lia.
Qed.

Lemma Forall_snoc {A} (P : A → Prop) (l : list A) (x : A) :
  Forall P l → P x → Forall P (l ++ [x]).
Proof. intros Hl Hx. apply Forall_app. split; [done|]. by constructor. Qed.

Lemma Forall_filter_keep {A} (P Q : A → Prop) `{!∀ x, Decision (Q x)}
    (l : list A) :
  Forall P l → Forall P (filter Q l).
Proof.
  rewrite !Forall_forall. intros Hall x Hx.
  apply list_elem_of_filter in Hx as [_ Hx]. by apply Hall.
Qed.

Lemma no_rows {A} (l : list A) :
  (0 <? Z.of_nat (length l)) = false ↔ l = [].
Proof.
  rewrite Z.ltb_ge. destruct l; cbn; [done|]. split; [lia | done].
Qed.

Lemma filter_nil_not_any {A} (P : A → Prop) `{!∀ x, Decision (P x)}
    (l : list A) :
  filter P l = [] ↔ Forall (λ x, ¬ P x) l.
Proof.
  induction l as [|x l IH]; [done|].
  rewrite filter_cons, Forall_cons. case_decide; [|rewrite IH; tauto].
  split; [done|]. by intros [? _].
Qed.

Lemma fmap_is_nil {A B} (f : A → B) (l : list A) : f <$> l = [] ↔ l = [].
Proof. split; [apply fmap_nil_inv | by intros ->]. Qed.

(** ** What the selects of the handlers find *)

Lemma select_user_id_elem uid telegram_id d :
  uid ∈ Sql.select_user_id telegram_id d ↔
  ∃ u, u ∈ users d ∧ u_id u = uid ∧ u_telegram_id u = telegram_id.
Proof.
  unfold Sql.select_user_id. rewrite list_elem_of_fmap. split.
  - intros (u & -> & Hu). apply list_elem_of_filter in Hu as [? ?]. by exists u.
  - intros (u & Hu & <- & Ht). exists u. split; [done|].
    by apply list_elem_of_filter.
Qed.

Lemma select_user_id_nil telegram_id d :
  Sql.select_user_id telegram_id d = [] ↔
  telegram_id ∉ u_telegram_id <$> users d.
Proof.
  unfold Sql.select_user_id. rewrite fmap_is_nil, filter_nil_not_any.
  rewrite Forall_forall, list_elem_of_fmap. split.
  - intros H (u & -> & Hu). by apply (H u).
  - intros H u Hu Ht. apply H. by exists u.
Qed.

Lemma select_device_id_elem did device_id d :
  did ∈ Sql.select_device_id device_id d ↔
  ∃ dev, dev ∈ devices d ∧ d_id dev = did ∧ d_device_id dev = device_id.
Proof.
  unfold Sql.select_device_id. rewrite list_elem_of_fmap. split.
  - intros (x & -> & Hx). apply list_elem_of_filter in Hx as [? ?]. by exists x.
  - intros (x & Hx & <- & Ht). exists x. split; [done|].
    by apply list_elem_of_filter.
Qed.

Lemma select_device_id_none device_id d :
  Sql.select_device_id device_id d = [] ↔
  device_id ∉ d_device_id <$> devices d.
Proof.
  unfold Sql.select_device_id. rewrite fmap_is_nil, filter_nil_not_any.
  rewrite Forall_forall, list_elem_of_fmap. split.
  - intros H (x & -> & Hx). by apply (H x).
  - intros H x Hx Ht. apply H. by exists x.
Qed.

Lemma select_user_device_nil uid did d :
  Sql.select_user_device uid did d = [] ↔
  (uid, did) ∉ (λ e, (ud_user_id e, ud_device_id e)) <$> user_devices d.
Proof.
  unfold Sql.select_user_device. rewrite filter_nil_not_any.
  rewrite Forall_forall, list_elem_of_fmap. split.
  - intros H (e & [= -> ->] & He). by apply (H e).
  - intros H e He [Hu Hd]. apply H. exists e. by rewrite Hu, Hd.
Qed.

(** ** What the database accepts *)

Lemma characters_length s : (Column.characters s ≤ String.length s)%nat.
Proof.
  induction s as [|c s IH]; cbn; [done|].
  destruct (_ && _); lia.
Qed.

(** A text of at most [n] bytes without NUL fits [VARCHAR(n)]. *)
Lemma varchar_fits n s :
  Column.text s = true → (String.length s ≤ n)%nat → Column.varchar n s = true.
Proof.
  intros Ht Hlen. unfold Column.varchar. rewrite Ht. cbn.
  apply Nat.leb_le. pose proof (characters_length s). lia.
Qed.

Lemma varchar_text n s : Column.varchar n s = true → Column.text s = true.
Proof. unfold Column.varchar. by intros [? _]%andb_true_iff. Qed.

Lemma text_app s t :
  Column.text (s +:+ t) = Column.text s && Column.text t.
Proof.
  induction s as [|c s IH]; [done|].
  change (String c s +:+ t) with (String c (s +:+ t)). cbn.
  rewrite IH. by rewrite andb_assoc.
Qed.

Lemma characters_app s t :
  Column.characters (s +:+ t)
  = (Column.characters s + Column.characters t)%nat.
Proof.
  induction s as [|c s IH]; [done|].
  change (String c s +:+ t) with (String c (s +:+ t)). cbn.
  rewrite IH. lia.
Qed.

Lemma integer_in_range s n :
  Column.integer_in s = Some n → Column.integer n = true.
Proof.
  unfold Column.integer_in.
  destruct (match Column.skip_spaces s with
            | String "-" s' => (true, s')
            | String "+" s' => (false, s')
            | s' => (false, s')
            end) as [negative s1].
  destruct s1 as [|c s1]; [done|].
  destruct (Column.digit c); [|done].
  destruct (Column.numeral (String c s1) 0) as [m|]; [|done]. cbn.
  destruct (Column.integer _) eqn:E; [|done]. by intros [= <-].
Qed.

Lemma integer_of_range v x :
  Column.integer_of v = Some x → from_option Column.integer true x = true.
Proof.
  destruct v as [| | |n|s| |]; cbn; try done.
  - by intros [= <-].
  - by intros [= <-].
  - destruct (Column.integer n) eqn:E; [|done]. by intros [= <-].
  - destruct (Column.text s); [|done].
    destruct (Column.integer_in s) as [n|] eqn:E; [|done].
    cbn. intros [= <-]. cbn. by apply (integer_in_range s).
Qed.

(** The parameters of a sample, once accepted, are values of the columns. *)
Lemma history_parameters_types deviceId status r w u f :
  history_parameters deviceId status = Some (r, w, u, f) →
  Column.varchar 255 deviceId = true
  ∧ from_option Column.integer true w = true
  ∧ from_option Column.integer true u = true
  ∧ from_option Column.integer true f = true.
Proof.
  unfold history_parameters.
  destruct (get_prop status "relayState") as [vr|]; [|done].
  destruct (get_prop status "wifiRSSI") as [vw|]; [|done].
  destruct (get_prop status "uptime") as [vu|]; [|done].
  destruct (get_prop status "freeHeap") as [vf|]; [|done]. cbn.
  destruct (Column.varchar 255 deviceId); [|done].
  destruct (Column.boolean vr) as [r'|]; [|done]. cbn.
  destruct (Column.integer_of vw) as [w'|] eqn:Ew; [|done]. cbn.
  destruct (Column.integer_of vu) as [u'|] eqn:Eu; [|done]. cbn.
  destruct (Column.integer_of vf) as [f'|] eqn:Ef; [|done]. cbn.
  intros [= <- <- <- <-]. split; [done|].
  split; [by apply (integer_of_range vw)|].
  split; [by apply (integer_of_range vu) | by apply (integer_of_range vf)].
Qed.

(** ** The statements of the handlers keep the constraints *)

(** Splits [constraints] into its sixteen parts, in the order of the
    definitions. *)
Ltac split_constraints :=
  unfold constraints, primary_keys, unique_keys, foreign_keys, column_types;
  (split;
   [ (split; [split | split; [split | split; [split | split]]])
   | split; [ (split; [| split])
            | split; [ split | (split; [| split]) ] ] ]).

Ltac use_constraints H :=
  destruct H as (([?Hupk ?Huseq] & [?Hdpk ?Hdseq] & [?Hepk ?Heseq]
                  & [?Hhpk ?Hhseq])
                 & (?Hutg & ?Hddev & ?Hepair) & (?Hfku & ?Hfkd)
                 & (?Htu & ?Htd & ?Hth)).

Lemma insert_user_constraints telegram_id username now d :
  constraints d →
  telegram_id ∉ u_telegram_id <$> users d →
  Column.bigint telegram_id = true →
  from_option (Column.varchar 255) true username = true →
  constraints (Sql.insert_user telegram_id username now d).2.
Proof.
  intros Hc Hnew Hid Hname. use_constraints Hc. unfold Sql.insert_user. cbn.
  split_constraints; cbn; try done.
  - apply NoDup_fmap_snoc; [done|]. cbn. by apply fresh_key.
  - apply Forall_snoc; [|cbn; lia].
    by apply (Forall_below_more _ (users_id_seq d)); [lia|].
  - by apply NoDup_fmap_snoc.
  - eapply Forall_impl; [exact Hfku|]. intros e He. cbn in *.
    rewrite fmap_app. apply elem_of_app. by left.
  - by apply Forall_snoc.
Qed.

Lemma insert_device_constraints device_id name now d :
  constraints d →
  device_id ∉ d_device_id <$> devices d →
  Column.varchar 255 device_id = true →
  Column.varchar 255 name = true →
  constraints (Sql.insert_device device_id name now d).2.
Proof.
  intros Hc Hnew Hid Hname. use_constraints Hc. unfold Sql.insert_device. cbn.
  split_constraints; cbn; try done.
  - apply NoDup_fmap_snoc; [done|]. cbn. by apply fresh_key.
  - apply Forall_snoc; [|cbn; lia].
    by apply (Forall_below_more _ (devices_id_seq d)); [lia|].
  - by apply NoDup_fmap_snoc.
  - eapply Forall_impl; [exact Hfkd|]. intros e He. cbn in *.
    rewrite fmap_app. apply elem_of_app. by left.
  - by apply Forall_snoc.
Qed.

Lemma insert_user_device_constraints uid did is_owner now d :
  constraints d →
  uid ∈ u_id <$> users d →
  did ∈ d_id <$> devices d →
  (uid, did) ∉ (λ e, (ud_user_id e, ud_device_id e)) <$> user_devices d →
  constraints (Sql.insert_user_device uid did is_owner now d).
Proof.
  intros Hc Hu Hd Hnew. use_constraints Hc. unfold Sql.insert_user_device. cbn.
  split_constraints; cbn; try done.
  - apply NoDup_fmap_snoc; [done|]. cbn. by apply fresh_key.
  - apply Forall_snoc; [|cbn; lia].
    by apply (Forall_below_more _ (user_devices_id_seq d)); [lia|].
  - by apply NoDup_fmap_snoc.
  - by apply Forall_snoc.
  - by apply Forall_snoc.
Qed.

Lemma delete_user_device_constraints uid did d :
  constraints d → constraints (Sql.delete_user_device uid did d).
Proof.
  intros Hc. use_constraints Hc. unfold Sql.delete_user_device. cbn.
  split_constraints; cbn; try done.
  - by apply NoDup_fmap_filter.
  - by apply Forall_filter_keep.
  - by apply NoDup_fmap_filter.
  - by apply Forall_filter_keep.
  - by apply Forall_filter_keep.
Qed.

Lemma delete_device_constraints id d :
  constraints d → constraints (Sql.delete_device id d).
Proof.
  intros Hc. use_constraints Hc. unfold Sql.delete_device. cbn.
  split_constraints; cbn; try done.
  - by apply NoDup_fmap_filter.
  - by apply Forall_filter_keep.
  - by apply NoDup_fmap_filter.
  - by apply Forall_filter_keep.
  - by apply NoDup_fmap_filter.
  - by apply NoDup_fmap_filter.
  - by apply Forall_filter_keep.
  - apply Forall_forall. intros e He.
    apply list_elem_of_filter in He as [Hne He].
    rewrite Forall_forall in Hfkd. specialize (Hfkd e He).
    apply list_elem_of_fmap in Hfkd as (dev & Hid & Hdev).
    apply list_elem_of_fmap. exists dev. split; [done|].
    apply list_elem_of_filter. split; [congruence | done].
  - by apply Forall_filter_keep.
Qed.

Lemma insert_device_history_constraints device_id r w u f now d :
  constraints d →
  Column.varchar 255 device_id = true
  ∧ from_option Column.integer true w = true
  ∧ from_option Column.integer true u = true
  ∧ from_option Column.integer true f = true →
  constraints (Sql.insert_device_history device_id r w u f now d).
Proof.
  intros Hc Htypes. use_constraints Hc. unfold Sql.insert_device_history. cbn.
  split_constraints; cbn; try done.
  - apply NoDup_fmap_snoc; [done|]. cbn. by apply fresh_key.
  - apply Forall_snoc; [|cbn; lia].
    by apply (Forall_below_more _ (device_history_id_seq d)); [lia|].
  - by apply Forall_snoc.
Qed.

Lemma delete_old_history_constraints now d :
  constraints d → constraints (SqlRead.delete_old_history now d).
Proof.
  intros Hc. use_constraints Hc. unfold SqlRead.delete_old_history. cbn.
  split_constraints; cbn; try done.
  - by apply NoDup_fmap_filter.
  - by apply Forall_filter_keep.
  - by apply Forall_filter_keep.
Qed.

(** A ROLLBACK restores rows that satisfied the constraints; the sequences
    it leaves advanced are still above every key. *)
Lemma rolled_back_constraints snap cur :
  constraints snap →
  users_id_seq snap ≤ users_id_seq cur →
  devices_id_seq snap ≤ devices_id_seq cur →
  user_devices_id_seq snap ≤ user_devices_id_seq cur →
  device_history_id_seq snap ≤ device_history_id_seq cur →
  constraints (rolled_back snap cur).
Proof.
  intros Hc Hu Hd He Hh. use_constraints Hc.
  split_constraints; cbn; try done.
  - by apply (Forall_below_more _ (users_id_seq snap)).
  - by apply (Forall_below_more _ (devices_id_seq snap)).
  - by apply (Forall_below_more _ (user_devices_id_seq snap)).
  - by apply (Forall_below_more _ (device_history_id_seq snap)).
Qed.

(** ** The handlers keep the constraints *)

Lemma head_elem {A} (x : A) (l l' : list A) : l = x :: l' → x ∈ l.
Proof. intros ->. by left. Qed.

Lemma select_user_id_head uid rest telegram_id d :
  Sql.select_user_id telegram_id d = uid :: rest → uid ∈ u_id <$> users d.
Proof.
  intros E. apply head_elem in E. apply select_user_id_elem in E as (u & ? & <- & _).
  by apply list_elem_of_fmap_2.
Qed.

Lemma select_device_id_head did rest device_id d :
  Sql.select_device_id device_id d = did :: rest → did ∈ d_id <$> devices d.
Proof.
  intros E. apply head_elem in E.
  apply select_device_id_elem in E as (dev & ? & <- & _).
  by apply list_elem_of_fmap_2.
Qed.

Lemma post_users_constraints now telegramId username d :
  constraints d → constraints (post_users now telegramId username d).2.
Proof.
  intros Hc. unfold post_users.
  destruct (Column.bigint telegramId) eqn:Hid; [|done]. cbn.
  destruct (Sql.select_user telegramId d) as [|u us] eqn:E; [|done].
  destruct (from_option (Column.varchar 255) true username) eqn:Hname; [|done].
  apply (insert_user_constraints telegramId username now d Hc); [|done..].
  apply select_user_id_nil. unfold Sql.select_user_id.
  unfold Sql.select_user in E. by rewrite E.
Qed.

(** What a pairing route that does not throw has bound. *)
Lemma Pair_throws_false userId deviceId desiredName d :
  Pair_throws userId deviceId desiredName d = false →
  Column.bigint userId = true
  ∧ (Sql.select_user_id userId d ≠ [] →
     Column.text deviceId = true
     ∧ (Sql.select_device_id deviceId d = [] →
        Column.varchar 255 deviceId = true
        ∧ Column.varchar 255 (device_name desiredName deviceId) = true)).
Proof.
  unfold Pair_throws. intros [Hid Hrest]%orb_false_iff.
  apply negb_false_iff in Hid. split; [done|]. intros Hseen.
  destruct (Sql.select_user_id userId d); [done|].
  apply orb_false_iff in Hrest as [Htext Hnew].
  apply negb_false_iff in Htext. split; [done|]. intros Hnone.
  rewrite Hnone in Hnew. apply negb_false_iff in Hnew.
  by apply andb_true_iff in Hnew.
Qed.

Lemma Pair_constraints codes now userId deviceId candidateCode desiredName d :
  constraints d →
  constraints (Pair codes now userId deviceId candidateCode desiredName d).2.
Proof.
  intros Hc. rewrite Pair_unfold.
  destruct (negb _); [done|].
  destruct (Pair_throws _ _ _ _) eqn:Et; [done|].
  apply Pair_throws_false in Et as [_ Et].
  destruct (Sql.select_user_id userId d) as [|uid ?] eqn:Eu; [done|].
  destruct Et as [_ Et]; [done|].
  apply select_user_id_head in Eu.
  destruct (Sql.select_device_id deviceId d) as [|did ?] eqn:Ed.
  - destruct (Et eq_refl) as [Hid Hname].
    apply select_device_id_none in Ed.
    pose proof (insert_device_constraints deviceId
                  (device_name desiredName deviceId) now d Hc Ed Hid Hname)
      as Hc1.
    cbn zeta beta iota.
    destruct (0 <? _) eqn:Ea; cbn [snd].
    + apply rolled_back_constraints; cbn; try done; lia.
    + apply no_rows, select_user_device_nil in Ea.
      apply insert_user_device_constraints; try done.
      cbn. rewrite fmap_app. apply elem_of_app. right. cbn. by left.
  - apply select_device_id_head in Ed. cbn zeta beta iota.
    destruct (0 <? _) eqn:Ea; cbn [snd].
    + by rewrite rolled_back_same.
    + apply no_rows, select_user_device_nil in Ea.
      by apply insert_user_device_constraints.
Qed.

(** What a sharing route that does not throw has bound. *)
Lemma Share_throws_false ownerId deviceId targetId d :
  Share_throws ownerId deviceId targetId d = false →
  Column.bigint ownerId = true
  ∧ Column.text deviceId = true
  ∧ (head (Sql.select_is_owner ownerId deviceId d) = Some true →
     Column.bigint targetId = true).
Proof.
  unfold Share_throws. intros [Hid Hrest]%orb_false_iff.
  apply negb_false_iff, andb_true_iff in Hid as [? ?].
  split; [done|]. split; [done|].
  destruct (Sql.select_is_owner ownerId deviceId d) as [|[] ?]; try done.
  intros _. by apply negb_false_iff in Hrest.
Qed.

Lemma Share_constraints now ownerId deviceId targetId d :
  constraints d → constraints (Share now ownerId deviceId targetId d).2.
Proof.
  intros Hc. rewrite Share_unfold.
  destruct (Share_throws _ _ _ _) eqn:Et; [done|].
  apply Share_throws_false in Et as (_ & _ & Et).
  destruct (Sql.select_is_owner ownerId deviceId d) as [|[] ?]; try done.
  specialize (Et eq_refl).
  destruct (Sql.select_user_id targetId d) as [|tid ?] eqn:Eu.
  - apply select_user_id_nil in Eu.
    pose proof (insert_user_constraints targetId None now d Hc Eu Et eq_refl)
      as Hc1.
    cbn zeta beta iota.
    destruct (Sql.select_device_id deviceId _) as [|did ?] eqn:Ed; cbn [snd].
    { apply rolled_back_constraints; cbn; try done; lia. }
    apply select_device_id_head in Ed.
    destruct (0 <? _) eqn:Ea; cbn [snd].
    + apply rolled_back_constraints; cbn; try done; lia.
    + apply no_rows, select_user_device_nil in Ea.
      apply insert_user_device_constraints; try done.
      cbn. rewrite fmap_app. apply elem_of_app. right. cbn. by left.
  - apply select_user_id_head in Eu. cbn zeta beta iota.
    destruct (Sql.select_device_id deviceId d) as [|did ?] eqn:Ed; cbn [snd].
    { by rewrite rolled_back_same. }
    apply select_device_id_head in Ed.
    destruct (0 <? _) eqn:Ea; cbn [snd].
    + by rewrite rolled_back_same.
    + apply no_rows, select_user_device_nil in Ea.
      by apply insert_user_device_constraints.
Qed.

Lemma Unpair_constraints userId deviceId d :
  constraints d → constraints (Unpair userId deviceId d).2.
Proof.
  intros Hc. rewrite Unpair_unfold.
  destruct userId as [[|uid|uid]|]; try done.
  all: destruct (negb _); try done.
  all: destruct (Sql.select_user_id _ d) as [|userDbId ?]; try done.
  all: destruct (Sql.select_device_id deviceId d) as [|deviceDbId ?]; try done.
  all: cbn zeta beta iota; cbn [snd].
  all: destruct (_ =? 0);
    [apply delete_device_constraints|]; by apply delete_user_device_constraints.
Qed.

(** A message changes the database by at most one History row, and only for
    a device id that has a Device row and with parameters the database
    accepts. *)
Lemma on_message_db JSON_parse now topic message s :
  db (on_message JSON_parse now topic message s) = db s
  ∨ ∃ deviceId status r w u f,
      device_exists deviceId (db s)
      ∧ history_parameters deviceId status = Some (r, w, u, f)
      ∧ db (on_message JSON_parse now topic message s)
        = Sql.insert_device_history deviceId r w u f now (db s).
Proof.
  unfold on_message.
  destruct (split "/" topic) as [|ns [|deviceId [|messageType rest]]];
    try by left.
  destruct (String.eqb messageType "status").
  - destruct (JSON_parse message) as [status|]; [|by left]. cbn.
    destruct (nullish status) eqn:Hv.
    { left. by destruct status. }
    destruct (on_status_db now deviceId status s Hv) as (s' & -> & Hdb). cbn.
    rewrite Hdb. case_decide as Hex; [|by left].
    rewrite saveDeviceStatus_rows.
    destruct (history_parameters deviceId status) as [[[[r w] u] f]|] eqn:E;
      [|by left].
    right. by exists deviceId, status, r, w, u, f.
  - destruct (String.eqb messageType "online"); by left.
Qed.

(** ** The confirmation registry *)

Lemma on_status_codes now deviceId status s s' :
  on_status now deviceId status s = Some s' →
  ∃ code,
    get_prop status "confirmationCode" = Some code
    ∧ deviceConfirmationCodes s'
      = if truthy code
        then <[deviceId := code]> (deviceConfirmationCodes s)
        else deviceConfirmationCodes s.
Proof.
  unfold on_status.
  destruct (get_prop status "confirmationCode") as [code|]; [|discriminate].
  cbn. destruct (Column.text deviceId); cbn; intros [= <-];
    exists code; (split; [done|]).
  - destruct (0 <? _); cbn; by destruct (truthy code).
  - by destruct (truthy code).
Qed.

Lemma on_message_codes JSON_parse now topic message s :
  deviceConfirmationCodes (on_message JSON_parse now topic message s)
    = deviceConfirmationCodes s
  ∨ ∃ deviceId code,
      truthy code = true
      ∧ deviceConfirmationCodes (on_message JSON_parse now topic message s)
        = <[deviceId := code]> (deviceConfirmationCodes s).
Proof.
  unfold on_message.
  destruct (split "/" topic) as [|ns [|deviceId [|messageType rest]]];
    try by left.
  destruct (String.eqb messageType "status").
  - destruct (JSON_parse message) as [status|]; [|by left]. cbn.
    destruct (on_status now deviceId status s) as [s'|] eqn:E; [|by left].
    cbn. destruct (on_status_codes _ _ _ _ _ E) as (code & _ & ->).
    destruct (truthy code) eqn:Ht; [|by left]. right. by exists deviceId, code.
  - destruct (String.eqb messageType "online"); by left.
Qed.

(** ** Every state of the process is sound *)

Lemma start_sound d : sound (start d).
Proof.
  split; [|split].
  - split_constraints; cbn; by constructor.
  - by constructor.
  - apply map_Forall_empty.
Qed.

Lemma handle_sound JSON_parse JSON_stringify i s :
  sound s → sound (handle JSON_parse JSON_stringify i s).
Proof.
  intros (Hc & Ho & Ht). destruct i; cbn [handle].
  - (* a bus message *)
    split; [|split].
    + destruct (on_message_db JSON_parse now topic message s)
        as [-> | (deviceId & status & r & w & u & f & _ & Hps & ->)]; [done|].
      apply insert_device_history_constraints; [done|].
      by apply (history_parameters_types deviceId status r).
    + destruct (on_message_db JSON_parse now topic message s)
        as [-> | (deviceId & status & r & w & u & f & _ & _ & ->)]; [done|].
      by apply (every_device_owned_rows (db s)).
    + unfold codes_truthy.
      destruct (on_message_codes JSON_parse now topic message s)
        as [-> | (deviceId & code & Hcode & ->)]; [done|].
      by apply map_Forall_insert_2.
  - done.
  - split; [|split]; [|by apply (every_device_owned_rows (db s))|done].
    by apply delete_old_history_constraints.
  - unfold users_route.
    destruct (post_users now telegramId username (db s)) as [r d] eqn:E.
    pose proof (post_users_constraints now telegramId username (db s) Hc) as Hc'.
    rewrite E in Hc'. cbn. split; [done|]. split; [|done].
    apply (every_device_owned_rows (db s)); [| |done].
    all: revert E; unfold post_users;
      destruct (negb _); [by intros [= <- <-]|];
      destruct (Sql.select_user telegramId (db s)); [|by intros [= <- <-]];
      destruct (negb _); by intros [= <- <-].
  - unfold devices_route.
    pose proof (Pair_constraints (deviceConfirmationCodes s) now userId deviceId
                  confirmationCode name (db s) Hc) as Hc'.
    pose proof (Pair_keeps_owned (deviceConfirmationCodes s) now userId deviceId
                  confirmationCode name (db s) Ho) as Ho'.
    by destruct (Pair _ _ _ _ _ _ _).
  - unfold unpair_route.
    pose proof (Unpair_constraints userId deviceId (db s) Hc) as Hc'.
    pose proof (Unpair_keeps_owned userId deviceId (db s) Ho) as Ho'.
    by destruct (Unpair _ _ _).
  - unfold share_route.
    pose proof (Share_constraints now ownerId deviceId targetId (db s) Hc) as Hc'.
    pose proof (Share_keeps_owned now ownerId deviceId targetId (db s) Ho) as Ho'.
    by destruct (Share _ _ _ _ _).
  - done.
Qed.

Lemma run_sound JSON_parse JSON_stringify inputs : ∀ s,
  sound s → sound (run JSON_parse JSON_stringify inputs s).
Proof.
  induction inputs as [|i inputs IH]; intros s Hs; [done|].
  cbn. apply IH. by apply handle_sound.
Qed.

(** X1: whatever bus messages, timers and requests the process has handled
    since it started, its database satisfies every constraint of the schema
    (primary keys below their sequences, unique [telegram_id], [device_id]
    and [(user_id, device_id)], both references of an edge), every Device
    row has an edge, and the registry holds only truthy codes. *)
Theorem process_stays_sound JSON_parse JSON_stringify inputs d :
  sound (run JSON_parse JSON_stringify inputs (start d)).
Proof. apply run_sound, start_sound. Qed.

(** ** Rows found through a unique key *)

Lemma filter_unique_key {A B} `{!EqDecision B} (f : A → B) (l : list A) (x : A) :
  NoDup (f <$> l) → x ∈ l → filter (λ y, f y = f x) l = [x].
Proof.
  induction l as [|y l IH]; [by intros _ ?%not_elem_of_nil|].
  rewrite fmap_cons, NoDup_cons. intros [Hy Hl] Hin.
  rewrite filter_cons. apply elem_of_cons in Hin as [-> | Hin].
  - rewrite decide_True by done. f_equal.
    apply filter_nil_not_any, Forall_forall. intros z Hz Heq.
    apply Hy. rewrite <- Heq. by apply list_elem_of_fmap_2.
  - rewrite decide_False; [by apply IH|].
    intros Heq. apply Hy. rewrite Heq. by apply list_elem_of_fmap_2.
Qed.

Lemma select_user_id_unique u d :
  NoDup (u_telegram_id <$> users d) → u ∈ users d →
  Sql.select_user_id (u_telegram_id u) d = [u_id u].
Proof.
  intros Hnd Hu. unfold Sql.select_user_id.
  by rewrite (filter_unique_key u_telegram_id).
Qed.

Lemma select_device_id_unique dev d :
  NoDup (d_device_id <$> devices d) → dev ∈ devices d →
  Sql.select_device_id (d_device_id dev) d = [d_id dev].
Proof.
  intros Hnd Hdev. unfold Sql.select_device_id.
  by rewrite (filter_unique_key d_device_id).
Qed.

Lemma linked_rows telegram_id device_id d :
  linked telegram_id device_id d ↔
  ∃ u dev e,
    u ∈ users d ∧ dev ∈ devices d ∧ e ∈ user_devices d
    ∧ u_telegram_id u = telegram_id ∧ d_device_id dev = device_id
    ∧ ud_user_id e = u_id u ∧ ud_device_id e = d_id dev.
Proof.
  unfold linked. rewrite Exists_exists. split.
  - intros (e & He & Hu & Hdev).
    apply Exists_exists in Hu as (u & Hu & Hid & Ht).
    apply Exists_exists in Hdev as (dev & Hdev & Hdid & Hd).
    by exists u, dev, e.
  - intros (u & dev & e & Hu & Hdev & He & Ht & Hd & Hid & Hdid).
    exists e. split; [done|]. split; apply Exists_exists; eauto.
Qed.

Lemma seen_user_rows telegram_id d :
  seen_user telegram_id d ↔ ∃ u, u ∈ users d ∧ u_telegram_id u = telegram_id.
Proof. unfold seen_user. by rewrite Exists_exists. Qed.

Lemma device_exists_rows device_id d :
  device_exists device_id d ↔
  ∃ dev, dev ∈ devices d ∧ d_device_id dev = device_id.
Proof. unfold device_exists. by rewrite Exists_exists. Qed.

Lemma select_user_device_elem e uid did d :
  e ∈ Sql.select_user_device uid did d ↔
  e ∈ user_devices d ∧ ud_user_id e = uid ∧ ud_device_id e = did.
Proof. unfold Sql.select_user_device. rewrite list_elem_of_filter. tauto. Qed.

Lemma some_rows {A} (l : list A) (x : A) :
  x ∈ l → (0 <? Z.of_nat (length l)) = true.
Proof. destruct l; [by intros ?%not_elem_of_nil|]. intros _. by apply Z.ltb_lt; cbn; lia. Qed.

(** ** Parameters the database accepts *)

(** The identity of a User row and the device id of a Device row are values
    of their columns. *)
Lemma seen_user_bigint telegram_id d :
  constraints d → seen_user telegram_id d → Column.bigint telegram_id = true.
Proof.
  intros Hc Hs. use_constraints Hc.
  apply seen_user_rows in Hs as (u & Hu & <-).
  rewrite Forall_forall in Htu. by destruct (Htu u Hu).
Qed.

Lemma device_exists_varchar device_id d :
  constraints d → device_exists device_id d →
  Column.varchar 255 device_id = true.
Proof.
  intros Hc Hs. use_constraints Hc.
  apply device_exists_rows in Hs as (dev & Hdev & <-).
  rewrite Forall_forall in Htd. by destruct (Htd dev Hdev).
Qed.

Lemma length_substring n m s : (String.length (String.substring n m s) ≤ m)%nat.
Proof.
  revert n m. induction s as [|c s IH]; intros [|n] [|m]; cbn; try lia.
  - specialize (IH 0%nat m). lia.
  - apply IH.
  - apply IH.
Qed.

Lemma text_substring n m s :
  Column.text s = true → Column.text (String.substring n m s) = true.
Proof.
  revert n m. induction s as [|c s IH]; intros [|n] [|m]; cbn; try done.
  - intros [-> Hs]%andb_true_iff. cbn. by apply IH.
  - intros [_ Hs]%andb_true_iff. by apply IH.
  - intros [_ Hs]%andb_true_iff. by apply IH.
Qed.

(** The name a new Device row gets fits its column when the name of the
    request does: the default name has 21 characters at most. *)
Lemma device_name_fits name deviceId :
  Column.text deviceId = true →
  (∀ n, name = Some n → Column.varchar 255 n = true) →
  Column.varchar 255 (device_name name deviceId) = true.
Proof.
  intros Hid Hname.
  assert (Hdefault :
    Column.varchar 255 ("Solar Controller " +:+ slice_last 4 deviceId) = true).
  { unfold Column.varchar. rewrite text_app, characters_app.
    apply andb_true_iff. split.
    - cbn. by apply text_substring.
    - pose proof (length_substring (String.length deviceId - 4) 4 deviceId).
      pose proof (characters_length (slice_last 4 deviceId)).
      unfold slice_last in *. apply Nat.leb_le.
      change (Column.characters "Solar Controller ") with 17%nat. lia. }
  unfold device_name. destruct name as [n|]; [|done].
  destruct (String.eqb n ""); [done|]. by apply Hname.
Qed.

Lemma Pair_binds userId deviceId desiredName d :
  Column.bigint userId = true →
  Column.text deviceId = true →
  (Sql.select_device_id deviceId d = [] →
   Column.varchar 255 deviceId = true
   ∧ Column.varchar 255 (device_name desiredName deviceId) = true) →
  Pair_throws userId deviceId desiredName d = false.
Proof.
  intros Hid Htext Hnew. unfold Pair_throws. rewrite Hid, Htext. cbn.
  destruct (Sql.select_user_id userId d); [done|].
  destruct (Sql.select_device_id deviceId d); [|done].
  destruct (Hnew eq_refl) as [-> ->]. done.
Qed.

(** ** Pairing twice, and pairing for the first time *)

Lemma Pair_already_linked codes now userId deviceId candidateCode desiredName d :
  constraints d →
  matches codes deviceId candidateCode = true →
  linked userId deviceId d →
  Pair codes now userId deviceId candidateCode desiredName d = (AlreadyLinked, d).
Proof.
  intros Hc Hm Hl.
  assert (Hbinds : Pair_throws userId deviceId desiredName d = false).
  { apply linked_rows in Hl as (u & dev & e & Hu & Hdev & He & <- & <- & _).
    apply Pair_binds.
    - apply (seen_user_bigint _ d Hc), seen_user_rows. by exists u.
    - apply (varchar_text 255), (device_exists_varchar _ d Hc).
      apply device_exists_rows. by exists dev.
    - use_constraints Hc. by rewrite (select_device_id_unique dev d). }
  use_constraints Hc.
  apply linked_rows in Hl
    as (u & dev & e & Hu & Hdev & He & <- & <- & Hid & Hdid).
  rewrite Pair_unfold, Hm, Hbinds. cbn [negb].
  rewrite (select_user_id_unique u d) by done.
  rewrite (select_device_id_unique dev d) by done.
  rewrite (some_rows _ e) by by apply select_user_device_elem.
  by rewrite rolled_back_same.
Qed.

Lemma Pair_not_linked codes now userId deviceId candidateCode desiredName d :
  constraints d →
  matches codes deviceId candidateCode = true →
  seen_user userId d →
  Column.varchar 255 deviceId = true →
  (∀ n, desiredName = Some n → Column.varchar 255 n = true) →
  ¬ linked userId deviceId d →
  ok (Pair codes now userId deviceId candidateCode desiredName d).1.
Proof.
  intros Hc Hm Hs Hfits Hname Hl.
  assert (Hbinds : Pair_throws userId deviceId desiredName d = false).
  { apply Pair_binds.
    - by apply (seen_user_bigint _ d).
    - by apply (varchar_text 255).
    - intros _. split; [done|].
      apply device_name_fits; [by apply (varchar_text 255) | done]. }
  use_constraints Hc.
  apply seen_user_rows in Hs as (u & Hu & <-).
  rewrite Pair_unfold, Hm, Hbinds. cbn [negb].
  rewrite (select_user_id_unique u d) by done.
  destruct (Sql.select_device_id deviceId d) as [|did ?] eqn:Ed.
  - cbn zeta beta iota.
    assert (Hnone : Sql.select_user_device (u_id u) (devices_id_seq d)
                      (Sql.insert_device deviceId
                         (device_name desiredName deviceId) now d).2 = []).
    { apply filter_nil_not_any, Forall_forall. cbn. intros e He [_ Hdid].
      rewrite Forall_forall in Hfkd. specialize (Hfkd e He).
      by apply (fresh_key d_id (devices_id_seq d) (devices d)); [|rewrite <- Hdid]. }
    rewrite Hnone. done.
  - cbn zeta beta iota.
    assert (Hnone : Sql.select_user_device (u_id u) did d = []).
    { apply filter_nil_not_any, Forall_forall. intros e He [Hid Hdid].
      apply head_elem in Ed.
      apply select_device_id_elem in Ed as (dev & Hdev & <- & Hd).
      apply Hl, linked_rows. by exists u, dev, e. }
    rewrite Hnone. done.
Qed.

Lemma unique_key_inj {A B} `{!EqDecision B} (f : A → B) (l : list A) (x y : A) :
  NoDup (f <$> l) → x ∈ l → y ∈ l → f x = f y → x = y.
Proof.
  intros Hnd Hx Hy Heq.
  assert (Hin : y ∈ filter (λ z, f z = f x) l) by by apply list_elem_of_filter.
  rewrite (filter_unique_key f l x Hnd Hx) in Hin.
  by apply list_elem_of_singleton in Hin.
Qed.

(** The rows a successful Pair leaves. *)
Lemma Pair_ok_rows codes now userId deviceId candidateCode desiredName d :
  ok (Pair codes now userId deviceId candidateCode desiredName d).1 →
  matches codes deviceId candidateCode = true
  ∧ ∃ uid did e,
      head (Sql.select_user_id userId d) = Some uid
      ∧ users (Pair codes now userId deviceId candidateCode desiredName d).2
        = users d
      ∧ device_history
          (Pair codes now userId deviceId candidateCode desiredName d).2
        = device_history d
      ∧ user_devices (Pair codes now userId deviceId candidateCode desiredName d).2
        = user_devices d ++ [e]
      ∧ ud_user_id e = uid ∧ ud_device_id e = did ∧ ud_added_at e = now
      ∧ ((Sql.select_device_id deviceId d = []
          ∧ ud_is_owner e = true
          ∧ devices (Pair codes now userId deviceId candidateCode desiredName d).2
            = devices d
              ++ [{| d_id := did; d_device_id := deviceId;
                     d_name := device_name desiredName deviceId;
                     d_created_at := now |}])
         ∨ (head (Sql.select_device_id deviceId d) = Some did
            ∧ ud_is_owner e = false
            ∧ devices (Pair codes now userId deviceId candidateCode desiredName d).2
              = devices d)).
Proof.
  rewrite Pair_unfold. intros Hok.
  destruct (matches codes deviceId candidateCode); [|not_ok].
  split; [done|]. cbn [negb] in *.
  destruct (Pair_throws _ _ _ _); [not_ok|].
  destruct (Sql.select_user_id userId d) as [|uid ?]; [not_ok|].
  destruct (Sql.select_device_id deviceId d) as [|did ?] eqn:Ed;
    cbn zeta beta iota in *.
  - destruct (0 <? _); [not_ok|]. cbn.
    eexists uid, (devices_id_seq d), _.
    repeat (split; [reflexivity|]). by left.
  - destruct (0 <? _); [not_ok|]. cbn.
    eexists uid, did, _.
    repeat (split; [reflexivity|]). by right.
Qed.

Lemma Pair_ok_linked codes now userId deviceId candidateCode desiredName d :
  ok (Pair codes now userId deviceId candidateCode desiredName d).1 →
  linked userId deviceId
    (Pair codes now userId deviceId candidateCode desiredName d).2.
Proof.
  intros Hok.
  destruct (Pair_ok_rows _ _ _ _ _ _ _ Hok)
    as (_ & uid & did & e & Hu & Hus & _ & He & Heu & Hed & _ & Hdev).
  assert (Huid : uid ∈ Sql.select_user_id userId d).
  { destruct (Sql.select_user_id userId d); [done|].
    injection Hu as ->. by left. }
  apply select_user_id_elem in Huid as (u & Hin & Hid & Ht).
  apply linked_rows.
  destruct Hdev as [(Ed & _ & Hds) | (Ed & _ & Hds)].
  - eexists u, _, e. rewrite Hus, Hds, He.
    split; [done|]. split; [apply elem_of_app; right; by left|].
    split; [apply elem_of_app; right; by left|]. cbn. by rewrite Heu, Hed.
  - assert (Hdid : did ∈ Sql.select_device_id deviceId d).
    { destruct (Sql.select_device_id deviceId d); [done|].
      injection Ed as ->. by left. }
    apply select_device_id_elem in Hdid as (dev & Hdin & Hdid & Hd).
    exists u, dev, e. rewrite Hus, Hds, He.
    split; [done|]. split; [done|].
    split; [apply elem_of_app; right; by left|]. by rewrite Heu, Hed.
Qed.

(** X2: in a database that satisfies the constraints, a Pair call with the
    right code by a known user whose identity is a safe integer, for a
    device id and under a name that fit their [VARCHAR(255)] columns, is
    decided by the link alone: if the user already has an edge to the
    device the answer is [AlreadyLinked] and the database is as it was,
    otherwise the call succeeds and leaves the user linked. *)
Theorem Pair_decided_by_link codes now userId deviceId candidateCode desiredName d :
  constraints d →
  matches codes deviceId candidateCode = true →
  Z.abs userId < 2 ^ 53 →
  seen_user userId d →
  Column.varchar 255 deviceId = true →
  (∀ n, desiredName = Some n → Column.varchar 255 n = true) →
  (linked userId deviceId d →
   Pair codes now userId deviceId candidateCode desiredName d
     = (AlreadyLinked, d))
  ∧ (¬ linked userId deviceId d →
     ok (Pair codes now userId deviceId candidateCode desiredName d).1
     ∧ linked userId deviceId
         (Pair codes now userId deviceId candidateCode desiredName d).2).
Proof.
  intros Hc Hm _ Hs Hid Hname. split.
  - intros Hl. by apply Pair_already_linked.
  - intros Hl.
    pose proof (Pair_not_linked codes now userId deviceId candidateCode
                  desiredName d Hc Hm Hs Hid Hname Hl) as Hok.
    split; [done | by apply Pair_ok_linked].
Qed.


(** ** Unpairing *)

Lemma Unpair_not_ok userId deviceId d :
  ¬ ok (Unpair userId deviceId d).1 → (Unpair userId deviceId d).2 = d.
Proof.
  rewrite Unpair_unfold.
  destruct userId as [[|uid|uid]|]; try done.
  all: destruct (negb _); try done.
  all: destruct (Sql.select_user_id _ d); try done.
  all: destruct (Sql.select_device_id deviceId d); try done.
  all: intros Hfail; exfalso; by apply Hfail.
Qed.

Lemma Unpair_users_history userId deviceId d :
  users (Unpair userId deviceId d).2 = users d
  ∧ device_history (Unpair userId deviceId d).2 = device_history d.
Proof.
  rewrite Unpair_unfold.
  destruct userId as [[|uid|uid]|]; try done.
  all: destruct (negb _); try done.
  all: destruct (Sql.select_user_id _ d); try done.
  all: destruct (Sql.select_device_id deviceId d); try done.
  all: cbn zeta beta iota; cbn [snd]; by destruct (_ =? 0).
Qed.

(** X4: Unpair asks for a caller and for rows to work on: without a
    [userId], or with the falsy [userId] 0, it answers [UserIdRequired];
    for a user or a device that has no row it answers [NotFound] when the
    caller's identity is a safe integer and the device id a text without
    NUL; when the identity is no [BIGINT], or the device id has a NUL, one
    of the two queries throws and it answers the 500 of its [catch]; in all
    these cases the database stays as it was. *)
Theorem Unpair_rejections deviceId d :
  Unpair None deviceId d = (UserIdRequired, d)
  ∧ Unpair (Some 0) deviceId d = (UserIdRequired, d)
  ∧ (∀ userId,
       userId ≠ 0 →
       Z.abs userId < 2 ^ 53 →
       Column.text deviceId = true →
       ¬ seen_user userId d ∨ ¬ device_exists deviceId d →
       Unpair (Some userId) deviceId d = (NotFound, d))
  ∧ (∀ userId,
       userId ≠ 0 →
       Column.bigint userId = false ∨ Column.text deviceId = false →
       Unpair (Some userId) deviceId d = (InternalServerError, d)).
Proof.
  split; [by rewrite Unpair_unfold|]. split; [by rewrite Unpair_unfold|].
  split.
  2: { intros userId Hnz Hthrows. rewrite (Unpair_unfold_caller _ _ _ Hnz).
       destruct Hthrows as [-> | ->]; [done|]. by rewrite andb_false_r. }
  intros userId Hnz Hsafe%safe_integer_bigint Htext Hmiss.
  rewrite (Unpair_unfold_caller _ _ _ Hnz), Hsafe, Htext. cbn.
  assert (Hrows : Sql.select_user_id userId d = []
                  ∨ Sql.select_device_id deviceId d = []).
  { destruct Hmiss as [Hu | Hd].
    - left. apply select_user_id_nil. intros Hin. apply Hu, seen_user_rows.
      apply list_elem_of_fmap in Hin as (u & -> & Hin). by exists u.
    - right. by apply select_device_id_nil. }
  destruct Hrows as [-> | ->]; [done|].
  by destruct (Sql.select_user_id _ d).
Qed.

(** [U3] has no User row and [D9] no Device row; [2^63] is no BIGINT. *)
Lemma Unpair_rejections_witness :
  Unpair (Some Scenario.U3) "D1" Scenario.db_joined
    = (NotFound, Scenario.db_joined)
  ∧ Unpair (Some Scenario.U1) "D9" Scenario.db_joined
    = (NotFound, Scenario.db_joined)
  ∧ Unpair (Some (2 ^ 63)) "D1" Scenario.db_joined
    = (InternalServerError, Scenario.db_joined).
Proof.
  destruct (Unpair_rejections "D1" Scenario.db_joined) as (_ & _ & H1 & H500).
  destruct (Unpair_rejections "D9" Scenario.db_joined) as (_ & _ & H9 & _).
  split; [|split].
  - apply (H1 Scenario.U3); [done | done | reflexivity |]. left.
    apply (bool_decide_unpack _). vm_compute. reflexivity.
  - apply (H9 Scenario.U1); [done | done | reflexivity |]. right.
    apply (bool_decide_unpack _). vm_compute. reflexivity.
  - apply (H500 (2 ^ 63)); [done|]. left. reflexivity.
Defined.

(** X5: Unpair touches the caller's link to the named device and nothing
    else.  It never changes [users] or [device_history] (the samples of a
    device outlive its row); under the constraints of the schema every
    Device row of another device id stays, every edge of another user stays
    (also one to the same device), and every edge to another device
    stays. *)
Theorem Unpair_touches_one_link userId deviceId d :
  constraints d →
  users (Unpair (Some userId) deviceId d).2 = users d
  ∧ device_history (Unpair (Some userId) deviceId d).2 = device_history d
  ∧ (∀ dev,
       dev ∈ devices d → d_device_id dev ≠ deviceId →
       dev ∈ devices (Unpair (Some userId) deviceId d).2)
  ∧ (∀ e u,
       e ∈ user_devices d → u ∈ users d → u_id u = ud_user_id e →
       u_telegram_id u ≠ userId →
       e ∈ user_devices (Unpair (Some userId) deviceId d).2)
  ∧ (∀ e dev,
       e ∈ user_devices d → dev ∈ devices d → d_id dev = ud_device_id e →
       d_device_id dev ≠ deviceId →
       e ∈ user_devices (Unpair (Some userId) deviceId d).2).
Proof.
  intros Hc.
  destruct (Unpair_users_history (Some userId) deviceId d) as [Hus Hhs].
  split; [done|]. split; [done|].
  destruct (decide (ok (Unpair (Some userId) deviceId d).1)) as [Hok | Hfail];
    [|by rewrite (Unpair_not_ok _ _ _ Hfail)].
  use_constraints Hc.
  destruct (Unpair_ok _ _ _ Hok)
    as (uid & userDbId & deviceDbId & [= <-] & Hu & Hd & He & Hds).
  assert (Huin : userDbId ∈ Sql.select_user_id userId d)
    by (destruct (Sql.select_user_id userId d); [done|];
        injection Hu as ->; by left).
  assert (Hdin : deviceDbId ∈ Sql.select_device_id deviceId d)
    by (destruct (Sql.select_device_id deviceId d); [done|];
        injection Hd as ->; by left).
  apply select_user_id_elem in Huin as (caller & Hcin & Hcid & Hct).
  apply select_device_id_elem in Hdin as (named & Hnin & Hnid & Hnd).
  repeat split.
  - intros dev Hdev Hne. rewrite Hds. case_decide; [done|].
    apply list_elem_of_filter. split; [|done].
    intros Hid. apply Hne. rewrite <- Hnd. f_equal.
    apply (unique_key_inj d_id (devices d)); [done..|congruence].
  - intros e u Hein Huin Hid Hne. rewrite He.
    apply list_elem_of_filter. split; [|done].
    intros [Hsame _]. apply Hne. rewrite <- Hct. f_equal.
    apply (unique_key_inj u_id (users d)); [done..|congruence].
  - intros e dev Hein Hdev Hid Hne. rewrite He.
    apply list_elem_of_filter. split; [|done].
    intros [_ Hsame]. apply Hne. rewrite <- Hnd. f_equal.
    apply (unique_key_inj d_id (devices d)); [done..|congruence].
Qed.

Lemma filter_all_keep {A} (P : A → Prop) `{!∀ x, Decision (P x)} (l : list A) :
  Forall P l → filter P l = l.
Proof.
  induction 1 as [|x l Hx _ IH]; [done|].
  rewrite filter_cons_True by done. by rewrite IH.
Qed.

Lemma with_user_devices_same d :
  with_user_devices (user_devices d) (user_devices_id_seq d) d = d.
Proof. by destruct d. Qed.

(** X6: a known user who has no edge to an existing device may still call
    Unpair on it: the route answers success and the database is exactly as
    it was. *)
Theorem Unpair_without_link userId deviceId d :
  constraints d →
  every_device_owned d →
  userId ≠ 0 →
  seen_user userId d →
  device_exists deviceId d →
  ¬ linked userId deviceId d →
  Unpair (Some userId) deviceId d = (res_json Success, d).
Proof.
  intros Hc Hinv Hnz Hs Hex Hl.
  rewrite (Unpair_unfold_caller _ _ _ Hnz).
  rewrite (seen_user_bigint _ d Hc Hs).
  rewrite (varchar_text 255 _ (device_exists_varchar _ d Hc Hex)).
  cbn [andb negb]. use_constraints Hc.
  apply seen_user_rows in Hs as (u & Hu & <-).
  apply device_exists_rows in Hex as (dev & Hdev & <-).
  rewrite (select_user_id_unique u d) by done.
  rewrite (select_device_id_unique dev d) by done.
  assert (Hkeep : Sql.delete_user_device (u_id u) (d_id dev) d = d).
  { unfold Sql.delete_user_device. rewrite filter_all_keep.
    - apply with_user_devices_same.
    - apply Forall_forall. intros e He [Hid Hdid].
      apply Hl, linked_rows. by exists u, dev, e. }
  assert (Hcount : (Sql.count_user_devices (d_id dev) d =? 0) = false).
  { destruct (Sql.count_user_devices (d_id dev) d =? 0) eqn:E; [|done].
    apply count_user_devices_zero in E. exfalso. apply E.
    unfold every_device_owned in Hinv. rewrite Forall_forall in Hinv.
    by apply Hinv. }
  cbn zeta. by rewrite Hkeep, Hcount.
Qed.

Lemma Unpair_without_link_witness :
  Unpair (Some Scenario.U2) "D1" Scenario.db_claimed
  = (res_json Success, Scenario.db_claimed).
Proof.
  apply Unpair_without_link; try done.
  all: apply (bool_decide_unpack _); vm_compute; reflexivity.
Defined.

Lemma sole_link_edges telegram_id device_id d u dev e :
  constraints d → sole_link telegram_id device_id d →
  u ∈ users d → u_telegram_id u = telegram_id →
  dev ∈ devices d → d_device_id dev = device_id →
  e ∈ user_devices d → ud_device_id e = d_id dev →
  ud_user_id e = u_id u.
Proof.
  intros Hc Hsole Hu Ht Hdev Hd He Hdid. use_constraints Hc.
  unfold sole_link in Hsole. rewrite Forall_forall in Hsole.
  specialize (Hsole e He).
  assert (Hex : Exists (λ dev, d_id dev = ud_device_id e
                               ∧ d_device_id dev = device_id) (devices d))
    by (apply Exists_exists; by exists dev).
  apply Hsole, Exists_exists in Hex as (u' & Hu' & Hid' & Ht').
  rewrite <- Hid'. f_equal.
  apply (unique_key_inj u_telegram_id (users d)); [done..|congruence].
Qed.

(** The caller's edge is the only one to the device: Unpair removes the
    Device row with it. *)
Lemma Unpair_sole_link userId deviceId d :
  constraints d →
  userId ≠ 0 →
  linked userId deviceId d →
  sole_link userId deviceId d →
  ok (Unpair (Some userId) deviceId d).1
  ∧ ¬ device_exists deviceId (Unpair (Some userId) deviceId d).2.
Proof.
  intros Hc Hnz Hl Hsole.
  apply linked_rows in Hl
    as (u & dev & e & Hu & Hdev & He & Ht & Hd & Hid & Hdid).
  rewrite (Unpair_unfold_caller _ _ _ Hnz).
  rewrite (seen_user_bigint userId d Hc)
    by (apply seen_user_rows; by exists u).
  rewrite (varchar_text 255 deviceId)
    by (apply (device_exists_varchar _ d Hc), device_exists_rows; by exists dev).
  cbn [andb negb].
  pose proof Hc as Hc'. use_constraints Hc'.
  subst userId deviceId.
  rewrite (select_user_id_unique u d) by done.
  rewrite (select_device_id_unique dev d) by done.
  assert (Hcount : (Sql.count_user_devices (d_id dev)
                      (Sql.delete_user_device (u_id u) (d_id dev) d) =? 0) = true).
  { apply count_user_devices_zero. rewrite Exists_exists.
    intros (e' & He' & Hdid'). cbn in He'.
    apply list_elem_of_filter in He' as [Hnot He'].
    apply Hnot. split; [|done].
    by apply (sole_link_edges (u_telegram_id u) (d_device_id dev) d u dev e'). }
  cbn zeta. rewrite Hcount. split; [done|]. cbn.
  rewrite device_exists_rows. intros (dev' & Hin & Hd'). cbn in Hin.
  apply list_elem_of_filter in Hin as [Hne Hin]. apply Hne. f_equal.
  by apply (unique_key_inj d_device_id (devices d)).
Qed.

(** X7: when the caller holds the only edge to a device, Unpair removes the
    Device row with the edge, and the device id can be claimed afresh: a
    later Pair with the advertised code by any known user, under a name
    that fits its [VARCHAR(255)] column, succeeds, creates the Device row
    again and makes that user its owner.  The identities are safe
    integers. *)
Theorem Unpair_then_Pair_owns userId deviceId d :
  constraints d →
  userId ≠ 0 →
  Z.abs userId < 2 ^ 53 →
  linked userId deviceId d →
  sole_link userId deviceId d →
  ok (Unpair (Some userId) deviceId d).1
  ∧ ¬ device_exists deviceId (Unpair (Some userId) deviceId d).2
  ∧ ∀ codes now claimant candidateCode desiredName,
      matches codes deviceId candidateCode = true →
      Z.abs claimant < 2 ^ 53 →
      seen_user claimant (Unpair (Some userId) deviceId d).2 →
      (∀ n, desiredName = Some n → Column.varchar 255 n = true) →
      ok (Pair codes now claimant deviceId candidateCode desiredName
            (Unpair (Some userId) deviceId d).2).1
      ∧ ∃ dev e,
          devices (Pair codes now claimant deviceId candidateCode desiredName
                     (Unpair (Some userId) deviceId d).2).2
            = devices (Unpair (Some userId) deviceId d).2 ++ [dev]
          ∧ user_devices
              (Pair codes now claimant deviceId candidateCode desiredName
                 (Unpair (Some userId) deviceId d).2).2
            = user_devices (Unpair (Some userId) deviceId d).2 ++ [e]
          ∧ d_device_id dev = deviceId
          ∧ ud_device_id e = d_id dev
          ∧ ud_is_owner e = true.
Proof.
  intros Hc Hnz _ Hl Hsole.
  destruct (Unpair_sole_link userId deviceId d Hc Hnz Hl Hsole) as [Hok Hgone].
  split; [done|]. split; [done|].
  intros codes now claimant candidateCode desiredName Hm _ Hs Hname.
  assert (Hfits : Column.varchar 255 deviceId = true).
  { apply (device_exists_varchar _ d Hc).
    apply linked_rows in Hl as (u & dev & e & _ & Hdev & _ & _ & Hd & _).
    apply device_exists_rows. by exists dev. }
  assert (Hok' : ok (Pair codes now claimant deviceId candidateCode desiredName
                       (Unpair (Some userId) deviceId d).2).1).
  { apply Pair_not_linked; [by apply Unpair_constraints|done..|].
    intros (u & dev & e & _ & Hdev & _ & _ & Hd & _)%linked_rows.
    apply Hgone, device_exists_rows. by exists dev. }
  split; [done|]. by apply Pair_ok_new.
Qed.

Lemma Unpair_then_Pair_owns_witness :
  ok (Pair Scenario.codes 90 Scenario.U2 "D1" (JStr "482913") None
        (Unpair (Some Scenario.U1) "D1" Scenario.db_claimed).2).1
  ∧ ∃ dev e,
      devices (Pair Scenario.codes 90 Scenario.U2 "D1" (JStr "482913") None
                 (Unpair (Some Scenario.U1) "D1" Scenario.db_claimed).2).2
        = devices (Unpair (Some Scenario.U1) "D1" Scenario.db_claimed).2 ++ [dev]
      ∧ user_devices
          (Pair Scenario.codes 90 Scenario.U2 "D1" (JStr "482913") None
             (Unpair (Some Scenario.U1) "D1" Scenario.db_claimed).2).2
        = user_devices (Unpair (Some Scenario.U1) "D1" Scenario.db_claimed).2
          ++ [e]
      ∧ d_device_id dev = "D1"
      ∧ ud_device_id e = d_id dev
      ∧ ud_is_owner e = true.
Proof.
  destruct (Unpair_then_Pair_owns Scenario.U1 "D1" Scenario.db_claimed)
    as (_ & _ & HPair); try done.
  1-3: apply (bool_decide_unpack _); vm_compute; reflexivity.
  apply HPair; [reflexivity | done | | done].
  apply (bool_decide_unpack _). vm_compute. reflexivity.
Defined.

(** ** Sharing *)

Lemma holds_owner_edge_rows telegram_id device_id d :
  holds_owner_edge telegram_id device_id d ↔
  ∃ u dev e,
    u ∈ users d ∧ dev ∈ devices d ∧ e ∈ user_devices d
    ∧ u_telegram_id u = telegram_id ∧ d_device_id dev = device_id
    ∧ ud_user_id e = u_id u ∧ ud_device_id e = d_id dev
    ∧ ud_is_owner e = true.
Proof.
  unfold holds_owner_edge. rewrite Exists_exists. split.
  - intros (e & He & Ho & Hu & Hdev).
    apply Exists_exists in Hu as (u & Hu & Hid & Ht).
    apply Exists_exists in Hdev as (dev & Hdev & Hdid & Hd).
    by exists u, dev, e.
  - intros (u & dev & e & Hu & Hdev & He & Ht & Hd & Hid & Hdid & Ho).
    exists e. split; [done|]. split; [done|]. split; apply Exists_exists; eauto.
Qed.

(** Under the constraints the owner query has the owner's flag in its
    first row. *)
Lemma select_is_owner_head telegram_id device_id d :
  constraints d →
  holds_owner_edge telegram_id device_id d →
  ∃ rows, Sql.select_is_owner telegram_id device_id d = true :: rows.
Proof.
  intros Hc Ho. use_constraints Hc.
  apply holds_owner_edge_rows in Ho
    as (u & dev & e & Hu & Hdev & He & Ht & Hd & Hid & Hdid & Hown).
  destruct (Sql.select_is_owner telegram_id device_id d) as [|b rows] eqn:E.
  - assert (Hin : true ∈ Sql.select_is_owner telegram_id device_id d).
    { apply elem_of_select_is_owner. exists e. split; [done|]. split; [done|].
      split; [by exists u | by exists dev]. }
    rewrite E in Hin. by apply not_elem_of_nil in Hin.
  - exists rows. f_equal.
    assert (Hin : b ∈ Sql.select_is_owner telegram_id device_id d)
      by (rewrite E; by left).
    apply elem_of_select_is_owner in Hin
      as (e' & He' & <- & (u' & Hu' & Hid' & Ht') & (dev' & Hdev' & Hdid' & Hd')).
    assert (u' = u) as ->
      by (apply (unique_key_inj u_telegram_id (users d)); [done..|congruence]).
    assert (dev' = dev) as ->
      by (apply (unique_key_inj d_device_id (devices d)); [done..|congruence]).
    assert (e' = e) as ->; [|done].
    apply (unique_key_inj (λ e, (ud_user_id e, ud_device_id e)) (user_devices d));
      [done..|]. cbn. congruence.
Qed.

(** The sharing route binds all its parameters when the caller is the
    owner and the target's identity is a number the column takes. *)
Lemma Share_binds ownerId deviceId targetId d :
  constraints d →
  holds_owner_edge ownerId deviceId d →
  Column.bigint targetId = true →
  Share_throws ownerId deviceId targetId d = false.
Proof.
  intros Hc Ho Htarget.
  apply holds_owner_edge_rows in Ho as (u & dev & e & Hu & Hdev & _ & <- & <- & _).
  unfold Share_throws. rewrite Htarget.
  rewrite (seen_user_bigint (u_telegram_id u) d Hc)
    by (apply seen_user_rows; by exists u).
  rewrite (varchar_text 255 (d_device_id dev))
    by (apply (device_exists_varchar _ d Hc), device_exists_rows; by exists dev).
  cbn. by destruct (Sql.select_is_owner _ _ d) as [|[] ?].
Qed.

(** X8: the route's answer [Device not found] is never given: a caller who
    passes the owner check has an edge to a Device row of that device id,
    and the row is still there when the route looks for it. *)
Theorem Share_never_DeviceNotFound now ownerId deviceId targetId d :
  (Share now ownerId deviceId targetId d).1 ≠ DeviceNotFound.
Proof.
  rewrite Share_unfold.
  destruct (Share_throws _ _ _ _); [discriminate|].
  destruct (Sql.select_is_owner ownerId deviceId d) as [|[] rows] eqn:E;
    try discriminate.
  assert (Hin : true ∈ Sql.select_is_owner ownerId deviceId d)
    by (rewrite E; by left).
  apply elem_of_select_is_owner in Hin
    as (e & _ & _ & _ & (dev & Hdev & Hdid & Hd)).
  assert (Hfound : d_id dev ∈ Sql.select_device_id deviceId d)
    by (apply select_device_id_elem; by exists dev).
  destruct (Sql.select_user_id targetId d) as [|tid ?]; cbn zeta beta iota.
  - unfold Sql.select_device_id in *. cbn [devices with_users Sql.insert_user snd].
    destruct (d_id <$> filter _ (devices d)) as [|did ?];
      [by apply not_elem_of_nil in Hfound|].
    by destruct (0 <? _).
  - destruct (Sql.select_device_id deviceId d) as [|did ?];
      [by apply not_elem_of_nil in Hfound|].
    by destruct (0 <? _).
Qed.

(** The rows a successful Share leaves. *)
Lemma Share_ok_rows now ownerId deviceId targetId d :
  ok (Share now ownerId deviceId targetId d).1 →
  ∃ tid did e,
    head (Sql.select_device_id deviceId d) = Some did
    ∧ devices (Share now ownerId deviceId targetId d).2 = devices d
    ∧ device_history (Share now ownerId deviceId targetId d).2
      = device_history d
    ∧ user_devices (Share now ownerId deviceId targetId d).2
      = user_devices d ++ [e]
    ∧ ud_user_id e = tid ∧ ud_device_id e = did ∧ ud_is_owner e = false
    ∧ ud_added_at e = now
    ∧ ((Sql.select_user_id targetId d = []
        ∧ tid = users_id_seq d
        ∧ users (Share now ownerId deviceId targetId d).2
          = users d ++ [{| u_id := tid; u_telegram_id := targetId;
                           u_username := None; u_created_at := now |}])
       ∨ (head (Sql.select_user_id targetId d) = Some tid
          ∧ users (Share now ownerId deviceId targetId d).2 = users d)).
Proof.
  rewrite Share_unfold. intros Hok.
  destruct (Share_throws _ _ _ _); [not_ok|].
  destruct (Sql.select_is_owner ownerId deviceId d) as [|[] ?]; try not_ok.
  destruct (Sql.select_user_id targetId d) as [|tid ?]; cbn zeta beta iota in *.
  - unfold Sql.select_device_id in *.
    cbn [devices with_users Sql.insert_user snd] in *.
    destruct (d_id <$> filter _ (devices d)) as [|did ?]; [not_ok|].
    destruct (0 <? _); [not_ok|]. cbn.
    eexists (users_id_seq d), did, _.
    repeat (split; [reflexivity|]). by left.
  - destruct (Sql.select_device_id deviceId d) as [|did ?]; [not_ok|].
    destruct (0 <? _); [not_ok|]. cbn.
    eexists tid, did, _.
    repeat (split; [reflexivity|]). by right.
Qed.

Lemma Share_ok_linked now ownerId deviceId targetId d :
  ok (Share now ownerId deviceId targetId d).1 →
  linked targetId deviceId (Share now ownerId deviceId targetId d).2.
Proof.
  intros Hok.
  destruct (Share_ok_rows _ _ _ _ _ Hok)
    as (tid & did & e & Hd & Hds & _ & He & Heu & Hed & _ & _ & Hu).
  assert (Hdid : did ∈ Sql.select_device_id deviceId d).
  { destruct (Sql.select_device_id deviceId d); [done|].
    injection Hd as ->. by left. }
  apply select_device_id_elem in Hdid as (dev & Hdin & Hdid & Hdd).
  apply linked_rows.
  destruct Hu as [(_ & _ & Hus) | (Hu & Hus)].
  - eexists _, dev, e. rewrite Hus, Hds, He.
    split; [apply elem_of_app; right; by left|]. split; [done|].
    split; [apply elem_of_app; right; by left|]. cbn. by rewrite Heu, Hed.
  - assert (Huid : tid ∈ Sql.select_user_id targetId d).
    { destruct (Sql.select_user_id targetId d); [done|].
      injection Hu as ->. by left. }
    apply select_user_id_elem in Huid as (u & Hin & Hid & Ht).
    exists u, dev, e. rewrite Hus, Hds, He.
    split; [done|]. split; [done|].
    split; [apply elem_of_app; right; by left|]. by rewrite Heu, Hed.
Qed.

Lemma Share_target_linked now ownerId deviceId targetId d :
  constraints d →
  holds_owner_edge ownerId deviceId d →
  linked targetId deviceId d →
  Share now ownerId deviceId targetId d = (TargetAlreadyLinked, d).
Proof.
  intros Hc Ho Hl.
  destruct (select_is_owner_head ownerId deviceId d Hc Ho) as [rows E].
  assert (Hbinds : Share_throws ownerId deviceId targetId d = false).
  { apply Share_binds; [done..|]. apply (seen_user_bigint _ d Hc).
    apply linked_rows in Hl as (u & _ & _ & Hu & _ & _ & <- & _).
    apply seen_user_rows. by exists u. }
  use_constraints Hc.
  apply linked_rows in Hl
    as (u & dev & e & Hu & Hdev & He & <- & <- & Hid & Hdid).
  rewrite Share_unfold, Hbinds, E.
  rewrite (select_user_id_unique u d) by done.
  rewrite (select_device_id_unique dev d) by done.
  rewrite (some_rows _ e) by by apply select_user_device_elem.
  by rewrite rolled_back_same.
Qed.

Lemma Share_target_not_linked now ownerId deviceId targetId d :
  constraints d →
  holds_owner_edge ownerId deviceId d →
  Column.bigint targetId = true →
  ¬ linked targetId deviceId d →
  ok (Share now ownerId deviceId targetId d).1.
Proof.
  intros Hc Ho Htarget Hl.
  destruct (select_is_owner_head ownerId deviceId d Hc Ho) as [rows E].
  pose proof (Share_binds ownerId deviceId targetId d Hc Ho Htarget) as Hbinds.
  use_constraints Hc.
  apply holds_owner_edge_rows in Ho
    as (_ & dev & _ & _ & Hdev & _ & _ & <- & _).
  rewrite Share_unfold, Hbinds, E.
  destruct (Sql.select_user_id targetId d) as [|tid ?] eqn:Eu;
    cbn zeta beta iota.
  - assert (Hd1 : Sql.select_device_id (d_device_id dev)
                    (Sql.insert_user targetId None now d).2 = [d_id dev])
      by by apply (select_device_id_unique dev d).
    rewrite Hd1.
    assert (Hnone : Sql.select_user_device (users_id_seq d) (d_id dev)
                      (Sql.insert_user targetId None now d).2 = []).
    { apply filter_nil_not_any, Forall_forall. cbn. intros e He [Hid _].
      rewrite Forall_forall in Hfku. specialize (Hfku e He).
      by apply (fresh_key u_id (users_id_seq d) (users d)); [|rewrite <- Hid]. }
    by rewrite Hnone.
  - rewrite (select_device_id_unique dev d) by done.
    assert (Hnone : Sql.select_user_device tid (d_id dev) d = []).
    { apply filter_nil_not_any, Forall_forall. intros e He [Hid Hdid].
      apply head_elem in Eu.
      apply select_user_id_elem in Eu as (u & Hu & <- & Ht).
      apply Hl, linked_rows. by exists u, dev, e. }
    by rewrite Hnone.
Qed.

Lemma Share_ok_not_owner now ownerId deviceId targetId d :
  constraints d →
  ¬ linked targetId deviceId d →
  ok (Share now ownerId deviceId targetId d).1 →
  ¬ holds_owner_edge targetId deviceId (Share now ownerId deviceId targetId d).2.
Proof.
  intros Hc Hl Hok Hown. use_constraints Hc.
  destruct (Share_ok_rows _ _ _ _ _ Hok)
    as (tid & did & e & Hd & Hds & _ & He & Heu & Hed & Hflag & _ & Hu).
  apply holds_owner_edge_rows in Hown
    as (u' & dev' & e' & Hu' & Hdev' & He' & Ht' & Hd' & Hid' & Hdid' & Ho').
  rewrite Hds in Hdev'. rewrite He in He'.
  apply elem_of_app in He' as [He' | He'];
    [|apply list_elem_of_singleton in He'; congruence].
  destruct Hu as [(Hnone & Hfresh & Hus) | (_ & Hus)]; rewrite Hus in Hu'.
  - apply elem_of_app in Hu' as [Hu' | Hu'].
    + apply Hl, linked_rows. by exists u', dev', e'.
    + apply list_elem_of_singleton in Hu'. subst u'. cbn in Hid'.
      rewrite Forall_forall in Hfku. specialize (Hfku e' He').
      apply (fresh_key u_id (users_id_seq d) (users d)); [done|].
      by rewrite <- Hfresh, <- Hid'.
  - apply Hl, linked_rows. by exists u', dev', e'.
Qed.

(** The owner's call for a target whose identity is no BIGINT: the query
    for the target's User row throws. *)
Lemma Share_target_refused now ownerId deviceId targetId d :
  constraints d →
  holds_owner_edge ownerId deviceId d →
  Column.bigint targetId = false →
  Share now ownerId deviceId targetId d = (InternalServerError, d).
Proof.
  intros Hc Ho Htarget.
  destruct (select_is_owner_head ownerId deviceId d Hc Ho) as [rows E].
  rewrite Share_unfold. unfold Share_throws. rewrite E, Htarget.
  by rewrite orb_true_r.
Qed.

(** X9: in a database that satisfies the constraints, a Share call by the
    owner, whose identity is a safe integer, is decided by the target
    alone: a target of a safe integer who already has an edge to the device
    is answered [TargetAlreadyLinked] with the database as it was (so is
    the owner sharing with themselves); any other target of a safe integer
    is linked by the call, and not as an owner; for a target that is no
    [BIGINT] the query for the target throws, the answer is 500 and the
    database is as it was. *)
Theorem Share_decided_by_link now ownerId deviceId targetId d :
  constraints d →
  Z.abs ownerId < 2 ^ 53 →
  holds_owner_edge ownerId deviceId d →
  (Z.abs targetId < 2 ^ 53 →
   linked targetId deviceId d →
   Share now ownerId deviceId targetId d = (TargetAlreadyLinked, d))
  ∧ (Z.abs targetId < 2 ^ 53 →
     ¬ linked targetId deviceId d →
     ok (Share now ownerId deviceId targetId d).1
     ∧ linked targetId deviceId (Share now ownerId deviceId targetId d).2
     ∧ ¬ holds_owner_edge targetId deviceId
           (Share now ownerId deviceId targetId d).2)
  ∧ (Column.bigint targetId = false →
     Share now ownerId deviceId targetId d = (InternalServerError, d)).
Proof.
  intros Hc _ Ho. split; [|split].
  - intros _ Hl. by apply Share_target_linked.
  - intros Htarget%safe_integer_bigint Hl.
    pose proof (Share_target_not_linked now ownerId deviceId targetId d Hc Ho
                  Htarget Hl) as Hok.
    split; [done|]. split; [by apply Share_ok_linked|].
    by apply Share_ok_not_owner.
  - by apply Share_target_refused.
Qed.

Lemma Share_decided_by_link_witness :
  Share 50 Scenario.U1 "D1" Scenario.U2 Scenario.db_joined
    = (TargetAlreadyLinked, Scenario.db_joined)
  ∧ Share 50 Scenario.U1 "D1" Scenario.U1 Scenario.db_joined
    = (TargetAlreadyLinked, Scenario.db_joined)
  ∧ ok (Share 50 Scenario.U1 "D1" Scenario.U2 Scenario.db_claimed).1
  ∧ Share 50 Scenario.U1 "D1" (2 ^ 63) Scenario.db_claimed
    = (InternalServerError, Scenario.db_claimed).
Proof.
  assert (Hc : constraints Scenario.db_joined)
    by (apply (bool_decide_unpack _); vm_compute; reflexivity).
  assert (Ho : holds_owner_edge Scenario.U1 "D1" Scenario.db_joined)
    by (apply (bool_decide_unpack _); vm_compute; reflexivity).
  assert (Hc' : constraints Scenario.db_claimed)
    by (apply (bool_decide_unpack _); vm_compute; reflexivity).
  assert (Ho' : holds_owner_edge Scenario.U1 "D1" Scenario.db_claimed)
    by (apply (bool_decide_unpack _); vm_compute; reflexivity).
  assert (Hsafe : Z.abs Scenario.U1 < 2 ^ 53) by done.
  split; [|split; [|split]].
  - apply (Share_decided_by_link 50 Scenario.U1 "D1" Scenario.U2 _ Hc Hsafe Ho);
      [done|].
    apply (bool_decide_unpack _). vm_compute. reflexivity.
  - apply (Share_decided_by_link 50 Scenario.U1 "D1" Scenario.U1 _ Hc Hsafe Ho);
      [done|].
    apply (bool_decide_unpack _). vm_compute. reflexivity.
  - apply (Share_decided_by_link 50 Scenario.U1 "D1" Scenario.U2 _ Hc' Hsafe
             Ho'); [done|].
    apply (bool_decide_unpack _). vm_compute. reflexivity.
  - apply (Share_decided_by_link 50 Scenario.U1 "D1" (2 ^ 63) _ Hc' Hsafe Ho').
    reflexivity.
Defined.

(** X10: Share creates the User row of a target it has not seen: with the
    constraints in force and the caller the owner, a Share to an external
    identity without a User row succeeds and appends exactly one User row,
    with that identity, no username and the next key of the sequence.  The
    identities are safe integers. *)
Theorem Share_creates_target now ownerId deviceId targetId d :
  constraints d →
  Z.abs ownerId < 2 ^ 53 →
  holds_owner_edge ownerId deviceId d →
  Z.abs targetId < 2 ^ 53 →
  ¬ seen_user targetId d →
  ok (Share now ownerId deviceId targetId d).1
  ∧ users (Share now ownerId deviceId targetId d).2
    = users d ++ [{| u_id := users_id_seq d; u_telegram_id := targetId;
                     u_username := None; u_created_at := now |}].
Proof.
  intros Hc _ Ho Hsafe Hs.
  assert (Hl : ¬ linked targetId deviceId d).
  { intros (u & _ & _ & Hu & _ & _ & Ht & _)%linked_rows.
    apply Hs, seen_user_rows. by exists u. }
  pose proof (Share_target_not_linked now ownerId deviceId targetId d Hc Ho
                (safe_integer_bigint _ Hsafe) Hl) as Hok.
  split; [done|].
  destruct (Share_ok_rows _ _ _ _ _ Hok)
    as (tid & did & e & _ & _ & _ & _ & _ & _ & _ & _ & Hu).
  destruct Hu as [(_ & -> & Hus) | (Hu & _)]; [done|].
  exfalso. apply Hs, seen_user_rows.
  destruct (Sql.select_user_id targetId d) as [|x ?] eqn:E; [done|].
  apply head_elem in E. apply select_user_id_elem in E as (u & ? & _ & ?).
  by exists u.
Qed.

Lemma Share_creates_target_witness :
  ok (Share 50 Scenario.U1 "D1" 2024 Scenario.db_joined).1
  ∧ users (Share 50 Scenario.U1 "D1" 2024 Scenario.db_joined).2
    = users Scenario.db_joined
      ++ [{| u_id := 3; u_telegram_id := 2024; u_username := None;
             u_created_at := 50 |}].
Proof.
  apply Share_creates_target; [|done| |done|].
  all: apply (bool_decide_unpack _); vm_compute; reflexivity.
Defined.

(** [U1], linked to [D1], and [U2], not yet linked. *)
Lemma Pair_decided_by_link_witness :
  Pair Scenario.codes 60 Scenario.U1 "D1" (JStr "482913") None Scenario.db_claimed
    = (AlreadyLinked, Scenario.db_claimed)
  ∧ ok (Pair Scenario.codes 60 Scenario.U2 "D1" (JStr "482913") None
          Scenario.db_claimed).1.
Proof.
  assert (Hc : constraints Scenario.db_claimed)
    by (apply (bool_decide_unpack _); vm_compute; reflexivity).
  split.
  - apply (Pair_decided_by_link Scenario.codes 60 Scenario.U1 "D1"
             (JStr "482913") None _ Hc);
      [reflexivity | done | | reflexivity | done |].
    all: apply (bool_decide_unpack _); vm_compute; reflexivity.
  - apply (Pair_decided_by_link Scenario.codes 60 Scenario.U2 "D1"
             (JStr "482913") None _ Hc);
      [reflexivity | done | | reflexivity | done |].
    all: apply (bool_decide_unpack _); vm_compute; reflexivity.
Defined.


Lemma Unpair_touches_one_link_witness :
  users (Unpair (Some Scenario.U2) "D1" Scenario.db_joined).2
    = users Scenario.db_joined
  ∧ device_history (Unpair (Some Scenario.U2) "D1" Scenario.db_joined).2
    = device_history Scenario.db_joined.
Proof.
  assert (Hc : constraints Scenario.db_joined)
    by (apply (bool_decide_unpack _); vm_compute; reflexivity).
  destruct (Unpair_touches_one_link Scenario.U2 "D1" Scenario.db_joined Hc)
    as (Hu & Hh & _).
  by split.
Defined.

(** ** Creating users *)

Lemma select_user_snoc telegramId d row :
  Sql.select_user telegramId d = [] →
  u_telegram_id row = telegramId →
  filter (λ u, u_telegram_id u = telegramId) (users d ++ [row]) = [row].
Proof.
  unfold Sql.select_user. intros Hnone Ht.
  rewrite filter_app, Hnone. by rewrite filter_cons_True.
Qed.

Lemma post_users_new now telegramId username d :
  Column.bigint telegramId = true →
  from_option (Column.varchar 255) true username = true →
  Sql.select_user telegramId d = [] →
  post_users now telegramId username d
  = (Some {| u_id := users_id_seq d; u_telegram_id := telegramId;
             u_username := username; u_created_at := now |},
     (Sql.insert_user telegramId username now d).2).
Proof. unfold post_users. by intros -> -> ->. Qed.

Lemma post_users_old now telegramId username d u us :
  Column.bigint telegramId = true →
  Sql.select_user telegramId d = u :: us →
  post_users now telegramId username d = (Some u, d).
Proof. unfold post_users. by intros -> ->. Qed.

Lemma select_user_seen telegramId d :
  Sql.select_user telegramId d = [] ↔ ¬ seen_user telegramId d.
Proof.
  unfold Sql.select_user. rewrite filter_nil_not_any, Forall_forall.
  rewrite seen_user_rows. split.
  - intros H (u & Hu & Ht). by apply (H u).
  - intros H u Hu Ht. apply H. by exists u.
Qed.

(** X11: [POST /api/users] finds or creates, for an identity that is a safe
    integer.  For an identity already known it answers the User row of that
    identity, the database is unchanged and the username of the request is
    ignored.  For a new one, under a username that fits its [VARCHAR(255)]
    column, it answers a row with the identity and the username of the
    request and appends exactly that row.  After a row was answered, asking
    again, with whatever username, answers the same row and changes
    nothing.  For a number that is no BIGINT the first query throws: the
    answer is 500 and the database is unchanged. *)
Theorem post_users_finds_or_creates now telegramId username d :
  (Z.abs telegramId < 2 ^ 53 →
   (seen_user telegramId d →
    ∃ u,
      post_users now telegramId username d = (Some u, d)
      ∧ u_telegram_id u = telegramId
      ∧ u ∈ users d
      ∧ ∀ later username',
          post_users later telegramId username' d = (Some u, d))
   ∧ (¬ seen_user telegramId d →
      (∀ n, username = Some n → Column.varchar 255 n = true) →
      ∃ u,
        (post_users now telegramId username d).1 = Some u
        ∧ u_telegram_id u = telegramId
        ∧ u_username u = username
        ∧ users (post_users now telegramId username d).2 = users d ++ [u]
        ∧ ∀ later username',
            post_users later telegramId username'
              (post_users now telegramId username d).2
            = (Some u, (post_users now telegramId username d).2)))
  ∧ (Column.bigint telegramId = false →
     post_users now telegramId username d = (None, d)).
Proof.
  split; [|unfold post_users; by intros ->].
  intros Hid%safe_integer_bigint. split.
  - intros Hs. destruct (Sql.select_user telegramId d) as [|u us] eqn:E.
    { by apply select_user_seen in E. }
    assert (Hin : u ∈ Sql.select_user telegramId d) by (rewrite E; by left).
    apply list_elem_of_filter in Hin as [Ht Hin].
    exists u. split; [by apply (post_users_old _ _ _ _ _ us)|].
    split; [done|]. split; [done|].
    intros later username'. by apply (post_users_old _ _ _ _ _ us).
  - intros Hs%select_user_seen Hname.
    assert (Hfits : from_option (Column.varchar 255) true username = true).
    { destruct username as [n|]; [|done]. by apply Hname. }
    rewrite (post_users_new _ _ _ _ Hid Hfits Hs). cbn.
    eexists. split; [reflexivity|]. split; [done|]. split; [done|].
    split; [done|].
    intros later username'. eapply post_users_old; [done|].
    unfold Sql.select_user. cbn.
    by apply (select_user_snoc telegramId d).
Qed.

(** [U1], who has a row, asks again under another name; [U3] is new; and
    [2^63] is no BIGINT. *)
Lemma post_users_finds_or_creates_witness :
  (∃ u, post_users 99 Scenario.U1 (Some "other") Scenario.db_users
        = (Some u, Scenario.db_users)
        ∧ u_username u = Some "first")
  ∧ (∃ u, (post_users 99 Scenario.U3 (Some "third") Scenario.db_users).1
          = Some u
          ∧ users (post_users 99 Scenario.U3 (Some "third") Scenario.db_users).2
            = users Scenario.db_users ++ [u])
  ∧ post_users 99 (2 ^ 63) None Scenario.db_users = (None, Scenario.db_users).
Proof.
  split; [|split].
  - destruct (post_users_finds_or_creates 99 Scenario.U1 (Some "other")
                Scenario.db_users) as [Hsafe _].
    destruct Hsafe as ([u (Hrun & _)] & _); [done| |].
    + apply (bool_decide_unpack _). vm_compute. reflexivity.
    + exists u. split; [done|]. by injection Hrun as <-.
  - destruct (post_users_finds_or_creates 99 Scenario.U3 (Some "third")
                Scenario.db_users) as [Hsafe _].
    destruct Hsafe as (_ & [u (Hrun & _ & _ & Hrows & _)]); [done| | |].
    + apply (bool_decide_unpack _). vm_compute. reflexivity.
    + by intros n [= <-].
    + by exists u.
  - by apply (post_users_finds_or_creates 99 (2 ^ 63) None Scenario.db_users).
Defined.

(** ** Listing a user's devices *)

#[global] Instance added_not_before_trans : Transitive added_not_before.
Proof. intros x y z. unfold added_not_before. lia. Qed.
#[global] Instance added_not_before_total : Total added_not_before.
Proof. intros x y. unfold added_not_before. lia. Qed.
#[global] Instance sampled_not_before_trans : Transitive sampled_not_before.
Proof. intros x y z. unfold sampled_not_before. lia. Qed.
#[global] Instance sampled_not_before_total : Total sampled_not_before.
Proof. intros x y. unfold sampled_not_before. lia. Qed.

Lemma select_devices_of_user_elem x uid d :
  x ∈ SqlRead.select_devices_of_user uid d ↔
  ∃ dev e,
    dev ∈ devices d ∧ e ∈ user_devices d
    ∧ ud_device_id e = d_id dev ∧ ud_user_id e = uid
    ∧ x = (dev, ud_is_owner e, ud_added_at e).
Proof.
  unfold SqlRead.select_devices_of_user.
  rewrite merge_sort_Permutation, elem_of_remove_dups, list_elem_of_bind.
  split.
  - intros (dev & Hx & Hdev). apply list_elem_of_bind in Hx as (e & Hx & He).
    apply list_elem_of_singleton in Hx.
    apply list_elem_of_filter in He as [[? ?] ?]. by exists dev, e.
  - intros (dev & e & Hdev & He & Hdid & Hu & ->). exists dev. split; [|done].
    apply list_elem_of_bind. exists e.
    split; [by apply list_elem_of_singleton|]. by apply list_elem_of_filter.
Qed.

Lemma select_devices_of_user_NoDup uid d :
  NoDup (SqlRead.select_devices_of_user uid d).
Proof.
  unfold SqlRead.select_devices_of_user.
  rewrite merge_sort_Permutation. apply NoDup_remove_dups.
Qed.

Lemma select_devices_of_user_sorted uid d :
  StronglySorted added_not_before (SqlRead.select_devices_of_user uid d).
Proof. apply StronglySorted_merge_sort; apply _. Qed.

Lemma select_devices_of_user_tables uid d d' :
  devices d' = devices d → user_devices d' = user_devices d →
  SqlRead.select_devices_of_user uid d' = SqlRead.select_devices_of_user uid d.
Proof. unfold SqlRead.select_devices_of_user. by intros -> ->. Qed.

Lemma get_devices_elem row userId s :
  row ∈ get_devices userId s ↔
  ∃ uid,
    head (Sql.select_user_id userId (db s)) = Some uid
    ∧ listed row ∈ SqlRead.select_devices_of_user uid (db s)
    ∧ row.2 = status_of (deviceStatuses s) (d_device_id row.1.1.1).
Proof.
  unfold get_devices, listed.
  destruct (Sql.select_user_id userId (db s)) as [|uid ?]; cbn.
  - split; [by intros ?%not_elem_of_nil | by intros (? & ? & _)].
  - rewrite list_elem_of_fmap. split.
    + intros (x & -> & Hx). by exists uid.
    + intros (uid' & [= <-] & Hx & Hst). exists row.1. split; [|done].
      destruct row as [x st]. cbn in *. by rewrite Hst.
Qed.

(** X12: under the constraints of the schema the listing of a user shows
    exactly the devices the user is linked to, each once: a device id
    appears in it if and only if the user has an edge to the Device row of
    that id, and a row is flagged [is_owner] if and only if that edge is an
    owner edge. *)
Theorem get_devices_lists_links userId s :
  constraints (db s) →
  (∀ deviceId,
     (∃ row, row ∈ get_devices userId s
             ∧ d_device_id (listed row).1.1 = deviceId)
     ↔ linked userId deviceId (db s))
  ∧ (∀ row,
       row ∈ get_devices userId s →
       ((listed row).1.2 = true
        ↔ holds_owner_edge userId (d_device_id (listed row).1.1) (db s)))
  ∧ NoDup ((λ row, d_device_id (listed row).1.1) <$> get_devices userId s).
Proof.
  intros Hc. pose proof Hc as Hc'. use_constraints Hc'.
  assert (Hrow : ∀ row,
    row ∈ get_devices userId s →
    ∃ u dev e,
      u ∈ users (db s) ∧ dev ∈ devices (db s) ∧ e ∈ user_devices (db s)
      ∧ u_telegram_id u = userId
      ∧ ud_user_id e = u_id u ∧ ud_device_id e = d_id dev
      ∧ listed row = (dev, ud_is_owner e, ud_added_at e)).
  { intros row (uid & Hu & Hx & _)%get_devices_elem.
    apply select_devices_of_user_elem in Hx
      as (dev & e & Hdev & He & Hdid & Hid & Hx).
    assert (Huid : uid ∈ Sql.select_user_id userId (db s)).
    { destruct (Sql.select_user_id userId (db s)); [done|].
      injection Hu as ->. by left. }
    apply select_user_id_elem in Huid as (u & Hin & <- & Ht).
    by exists u, dev, e. }
  split; [|split].
  - intros deviceId. split.
    + intros (row & Hin & Hd).
      destruct (Hrow row Hin) as (u & dev & e & Hu & Hdev & He & Ht & Hid & Hdid & Hx).
      rewrite Hx in Hd. cbn in Hd. apply linked_rows. by exists u, dev, e.
    + intros (u & dev & e & Hu & Hdev & He & Ht & Hd & Hid & Hdid)%linked_rows.
      exists (dev, ud_is_owner e, ud_added_at e,
              status_of (deviceStatuses s) (d_device_id dev)).
      split; [|done]. apply get_devices_elem. exists (u_id u).
      split; [by rewrite <- Ht, (select_user_id_unique u (db s))|].
      split; [|done]. apply select_devices_of_user_elem. by exists dev, e.
  - intros row Hin.
    destruct (Hrow row Hin) as (u & dev & e & Hu & Hdev & He & Ht & Hid & Hdid & Hx).
    rewrite Hx. cbn. rewrite holds_owner_edge_rows. split.
    + intros Ho. by exists u, dev, e.
    + intros (u' & dev' & e' & Hu' & Hdev' & He' & Ht' & Hd' & Hid' & Hdid' & Ho').
      assert (u' = u) as ->
        by (apply (unique_key_inj u_telegram_id (users (db s)));
            [done..|congruence]).
      assert (dev' = dev) as ->
        by by apply (unique_key_inj d_device_id (devices (db s))).
      assert (e' = e) as ->; [|done].
      apply (unique_key_inj (λ e, (ud_user_id e, ud_device_id e))
               (user_devices (db s))); [done..|]. cbn. congruence.
  - apply NoDup_fmap_2_strong.
    + intros r1 r2 Hin1 Hin2 Heq.
      destruct (Hrow r1 Hin1)
        as (u1 & dev1 & e1 & Hu1 & Hdev1 & He1 & Ht1 & Hid1 & Hdid1 & Hx1).
      destruct (Hrow r2 Hin2)
        as (u2 & dev2 & e2 & Hu2 & Hdev2 & He2 & Ht2 & Hid2 & Hdid2 & Hx2).
      rewrite Hx1, Hx2 in Heq. cbn in Heq.
      assert (u2 = u1) as ->
        by (apply (unique_key_inj u_telegram_id (users (db s)));
            [done..|congruence]).
      assert (dev2 = dev1) as ->
        by by apply (unique_key_inj d_device_id (devices (db s))).
      assert (e2 = e1) as ->.
      { apply (unique_key_inj (λ e, (ud_user_id e, ud_device_id e))
                 (user_devices (db s))); [done..|]. cbn. congruence. }
      apply get_devices_elem in Hin1 as (_ & _ & _ & Hs1).
      apply get_devices_elem in Hin2 as (_ & _ & _ & Hs2).
      destruct r1 as [x1 st1], r2 as [x2 st2]. unfold listed in *. cbn in *.
      subst x1 x2. cbn in *. congruence.
    + unfold get_devices.
      destruct (Sql.select_user_id userId (db s)); [constructor|].
      apply NoDup_fmap_2; [|apply select_devices_of_user_NoDup].
      intros x y [= ->]. done.
Qed.

Lemma StronglySorted_fmap_2 {A B} (R : relation A) (R' : relation B)
    (f : B → A) (l : list B) :
  (∀ x y, R' x y → R (f x) (f y)) →
  StronglySorted R' l → StronglySorted R (f <$> l).
Proof.
  intros Hf. induction 1 as [|x l _ IH Hx]; cbn; constructor; [done|].
  apply Forall_fmap. eapply Forall_impl; [exact Hx|]. intros y. apply Hf.
Qed.

(** X13: the listing route answers 500 exactly when the database does not
    read the [userId] of the path as a BIGINT; otherwise it answers an
    array, which is empty for an identity without a User row; the rows of
    the array come newest access first; and every row carries the presence
    record of its device, or, for a device that never reported, the literal
    [{ online: false }], so such a device is shown offline. *)
Theorem get_devices_order_and_status userId s :
  (get_devices_or_500 userId s = None ↔ Column.bigint_numeral userId = false)
  ∧ (Column.bigint_numeral userId = true →
     ¬ seen_user userId (db s) →
     get_devices_or_500 userId s = Some [])
  ∧ ∀ rows,
      get_devices_or_500 userId s = Some rows →
      StronglySorted (λ r1 r2, (listed r2).2 ≤ (listed r1).2) rows
      ∧ ∀ row,
          row ∈ rows →
          row.2 = status_of (deviceStatuses s) (d_device_id (listed row).1.1)
          ∧ (deviceStatuses s !! d_device_id (listed row).1.1 = None →
             row.2 = NeverSeen ∧ reported_online row.2 = false).
Proof.
  unfold get_devices_or_500. split; [|split].
  - by destruct (Column.bigint_numeral userId).
  - intros -> Hs. f_equal. unfold get_devices.
    destruct (Sql.select_user_id userId (db s)) as [|uid ?] eqn:E; [done|].
    exfalso. apply Hs, seen_user_rows.
    apply head_elem in E. apply select_user_id_elem in E as (u & ? & _ & ?).
    by exists u.
  - intros rows Hrows.
    destruct (Column.bigint_numeral userId); [|done].
    injection Hrows as <-. split.
    + unfold get_devices.
      destruct (Sql.select_user_id userId (db s)) as [|uid ?]; [constructor|].
      eapply StronglySorted_fmap_2; [|apply select_devices_of_user_sorted].
      intros x y Hxy. exact Hxy.
    + intros row (uid & _ & _ & Hst)%get_devices_elem. split; [done|].
      intros Hnone. unfold listed in *. rewrite Hst. unfold status_of.
      by rewrite Hnone.
Qed.

(** [U3] has no User row; [2^63] is no BIGINT; and [U1] lists [D1], which
    is shown offline when the presence map is empty. *)
Lemma get_devices_order_and_status_witness :
  get_devices_or_500 Scenario.U3 Bus.paired = Some []
  ∧ get_devices_or_500 (2 ^ 63) Bus.paired = None
  ∧ ∃ row,
      get_devices_or_500 Scenario.U1 (with_deviceStatuses ∅ Bus.paired)
      = Some [row]
      ∧ reported_online row.2 = false.
Proof.
  destruct (get_devices_order_and_status Scenario.U3 Bus.paired) as (_ & He & _).
  destruct (get_devices_order_and_status (2 ^ 63) Bus.paired) as (Hno & _ & _).
  split; [|split].
  - apply He; [reflexivity|].
    apply (bool_decide_unpack _). vm_compute. reflexivity.
  - by apply Hno.
  - destruct (get_devices_order_and_status Scenario.U1
                (with_deviceStatuses ∅ Bus.paired)) as (_ & _ & Hst).
    eexists. split; [reflexivity|].
    destruct (Hst _ eq_refl) as [_ Hrow].
    destruct (Hrow _ ltac:(by left)) as [_ Hnever].
    apply Hnever. reflexivity.
Defined.

Lemma get_devices_lists_links_witness :
  (∃ row, row ∈ get_devices Scenario.U2 Bus.paired
          ∧ d_device_id (listed row).1.1 = "D1")
  ∧ ¬ (∃ row, row ∈ get_devices Scenario.U2 Bus.paired
              ∧ d_device_id (listed row).1.1 = "D2").
Proof.
  assert (Hc : constraints (db Bus.paired))
    by (apply (bool_decide_unpack _); vm_compute; reflexivity).
  destruct (get_devices_lists_links Scenario.U2 Bus.paired Hc) as (Hl & _ & _).
  split.
  - apply Hl. apply (bool_decide_unpack _). vm_compute. reflexivity.
  - rewrite Hl. apply (bool_decide_unpack _). vm_compute. reflexivity.
Defined.

(** ** Telemetry never reaches the ownership tables *)

Lemma handle_bus_tables JSON_parse JSON_stringify i s :
  from_bus i →
  users (db (handle JSON_parse JSON_stringify i s)) = users (db s)
  ∧ devices (db (handle JSON_parse JSON_stringify i s)) = devices (db s)
  ∧ user_devices (db (handle JSON_parse JSON_stringify i s))
    = user_devices (db s).
Proof.
  destruct i; try done. intros _. cbn [handle].
  by destruct (on_message_db JSON_parse now topic message s)
    as [-> | (deviceId & status & r & w & u & f & _ & _ & ->)].
Qed.

Lemma get_devices_tables userId s s' :
  users (db s') = users (db s) →
  devices (db s') = devices (db s) →
  user_devices (db s') = user_devices (db s) →
  listed <$> get_devices userId s' = listed <$> get_devices userId s.
Proof.
  intros Hu Hd He. unfold get_devices, Sql.select_user_id. rewrite Hu.
  destruct (u_id <$> filter _ (users (db s))) as [|uid ?]; [done|].
  rewrite <- !list_fmap_compose.
  rewrite (select_devices_of_user_tables uid (db s) (db s')) by done.
  done.
Qed.

(** X14: telemetry never reaches the ownership tables.  However many bus
    messages and presence sweeps the process handles, [users], [devices] and
    [user_devices] stay as they were, so every user's listing shows the same
    devices, flags and times as before; only the status read from the
    presence map may differ.  A device that is not listed does not come to
    be listed by publishing. *)
Theorem telemetry_keeps_listing JSON_parse JSON_stringify inputs : ∀ s,
  Forall from_bus inputs →
  users (db (run JSON_parse JSON_stringify inputs s)) = users (db s)
  ∧ devices (db (run JSON_parse JSON_stringify inputs s)) = devices (db s)
  ∧ user_devices (db (run JSON_parse JSON_stringify inputs s))
    = user_devices (db s)
  ∧ ∀ userId,
      listed <$> get_devices userId (run JSON_parse JSON_stringify inputs s)
      = listed <$> get_devices userId s.
Proof.
  induction inputs as [|i inputs IH]; intros s Hbus; [done|].
  apply Forall_cons in Hbus as [Hi Hbus]. cbn [run foldl].
  destruct (IH (handle JSON_parse JSON_stringify i s) Hbus)
    as (Hu & Hd & He & Hlist).
  destruct (handle_bus_tables JSON_parse JSON_stringify i s Hi)
    as (Hu' & Hd' & He').
  unfold run in *. rewrite Hu, Hd, He. repeat split; try done.
  intros userId. rewrite Hlist. by apply get_devices_tables.
Qed.

Lemma telemetry_keeps_listing_witness :
  listed <$> get_devices Scenario.U1
    (run Bus.JSON_parse (λ _, "")
       [Message 100 "solar/D7/status" Bus.heartbeat;
        SweepTimer 40000;
        Message 50000 "solar/D1/status" Bus.heartbeat;
        Message 50001 "solar/D7/online" "true"]
       Bus.paired)
  = listed <$> get_devices Scenario.U1 Bus.paired.
Proof.
  apply telemetry_keeps_listing.
  apply (bool_decide_unpack _). vm_compute. reflexivity.
Defined.

(** ** The history route and the clean-up timer *)

Lemma interval_of_cases period :
  interval_of period = Interval.hour
  ∨ interval_of period = 24 * Interval.hour
  ∨ interval_of period = 7 * Interval.day
  ∨ interval_of period = 30 * Interval.day.
Proof.
  unfold interval_of.
  destruct (String.eqb _ "1h"); [by left|].
  destruct (String.eqb _ "24h"); [right; by left|].
  destruct (String.eqb _ "7d"); [right; right; by left|].
  destruct (String.eqb _ "30d"); [right; right; by right | right; by left].
Qed.

Lemma interval_of_bound period :
  0 < interval_of period ≤ 30 * Interval.day.
Proof.
  unfold Interval.day, Interval.hour.
  destruct (interval_of_cases period) as [-> | [-> | [-> | ->]]];
    unfold Interval.day, Interval.hour; lia.
Qed.

Lemma interval_of_fallback period :
  period ≠ Some "1h" → period ≠ Some "7d" → period ≠ Some "30d" →
  interval_of period = 24 * Interval.hour.
Proof.
  intros H1 H7 H30. unfold interval_of.
  destruct period as [p|]; cbn; [|done].
  rewrite (proj2 (String.eqb_neq p "1h")) by congruence.
  destruct (String.eqb p "24h"); [done|].
  rewrite (proj2 (String.eqb_neq p "7d")) by congruence.
  by rewrite (proj2 (String.eqb_neq p "30d")) by congruence.
Qed.

(** The rows the history query matches, before ordering and [LIMIT]. *)
Lemma select_history_elem h device_id now interval d :
  h ∈ SqlRead.select_history device_id now interval d →
  h ∈ device_history d ∧ h_device_id h = device_id
  ∧ now - interval < h_timestamp h.
Proof.
  unfold SqlRead.select_history. intros Hin.
  apply subseteq_take in Hin. rewrite merge_sort_Permutation in Hin.
  apply list_elem_of_filter in Hin. tauto.
Qed.

Lemma select_history_cut h h' device_id now interval d :
  h' ∈ device_history d → h_device_id h' = device_id →
  now - interval < h_timestamp h' →
  h' ∉ SqlRead.select_history device_id now interval d →
  h ∈ SqlRead.select_history device_id now interval d →
  h_timestamp h' ≤ h_timestamp h.
Proof.
  unfold SqlRead.select_history.
  set (sorted := merge_sort sampled_not_before _).
  intros Hin Hid Hts Hcut Hh.
  assert (Hsorted : StronglySorted sampled_not_before
                      (take 100 sorted ++ drop 100 sorted)).
  { rewrite take_drop. apply StronglySorted_merge_sort; apply _. }
  assert (Hall : h' ∈ take 100 sorted ++ drop 100 sorted).
  { rewrite take_drop. unfold sorted. rewrite merge_sort_Permutation.
    by apply list_elem_of_filter. }
  apply elem_of_app in Hall as [? | Hdrop]; [done|].
  exact (StronglySorted_app_1_elem_of _ _ _ h h' Hsorted Hh Hdrop).
Qed.

(** X15: the history route answers 500 exactly for a device id that is no
    text for the database (one with NUL), and otherwise the newest hundred
    of the samples of the device inside the window of the period: its rows
    are samples of the device asked for, newer than the window, newest
    first; with the rows cut off they are a rearrangement of all such
    samples, nothing is cut off from fewer than a hundred, and a row cut
    off is no newer than any row answered.  The window is one hour, 24
    hours, 7 days or 30 days; a request without a period, or with any other
    period, gets 24 hours. *)
Theorem get_history_window now deviceId period s :
  (get_history now deviceId period s = None ↔ Column.text deviceId = false)
  ∧ (∀ rows,
       get_history now deviceId period s = Some rows →
       (length rows ≤ 100)%nat
       ∧ (∀ h,
            h ∈ rows →
            h ∈ device_history (db s) ∧ h_device_id h = deviceId
            ∧ now - interval_of period < h_timestamp h)
       ∧ StronglySorted sampled_not_before rows
       ∧ (∃ cut,
            rows ++ cut
            ≡ₚ filter (λ h, h_device_id h = deviceId
                            ∧ now - interval_of period < h_timestamp h)
                      (device_history (db s))
            ∧ ((length rows < 100)%nat → cut = [])
            ∧ ∀ h h', h ∈ rows → h' ∈ cut → h_timestamp h' ≤ h_timestamp h))
  ∧ (interval_of period = Interval.hour
     ∨ interval_of period = 24 * Interval.hour
     ∨ interval_of period = 7 * Interval.day
     ∨ interval_of period = 30 * Interval.day)
  ∧ (period ≠ Some "1h" → period ≠ Some "7d" → period ≠ Some "30d" →
     get_history now deviceId period s
     = get_history now deviceId (Some "24h") s).
Proof.
  unfold get_history. split; [|split; [|split]].
  - by destruct (Column.text deviceId).
  - intros rows Hrows. destruct (Column.text deviceId); [|done].
    injection Hrows as <-. unfold SqlRead.select_history.
    set (sorted := merge_sort sampled_not_before _).
    assert (Hsorted : StronglySorted sampled_not_before
                        (take 100 sorted ++ drop 100 sorted)).
    { rewrite take_drop. apply StronglySorted_merge_sort; apply _. }
    split; [rewrite length_take; lia|].
    split; [intros h; apply select_history_elem|].
    split; [by apply StronglySorted_app_1_l in Hsorted|].
    exists (drop 100 sorted). split; [|split].
    + rewrite take_drop. apply merge_sort_Permutation.
    + rewrite length_take. intros Hshort. apply drop_ge. lia.
    + intros h h' Hh Hcut.
      exact (StronglySorted_app_1_elem_of _ _ _ h h' Hsorted Hh Hcut).
  - apply interval_of_cases.
  - intros H1 H7 H30. by rewrite (interval_of_fallback period).
Qed.

(** [D1] with its three samples: asked at the time 3700000 for the last
    hour, the route answers the two samples newer than 100000, the newer
    one first; asked under an unknown period it answers as for 24 hours,
    all three. *)
Lemma get_history_window_witness :
  h_timestamp <$> default [] (get_history 3700000 "D1" (Some "1h") Bus.sampled)
  = [180000; 120000]
  ∧ get_history 3700000 "D1" (Some "yesterday") Bus.sampled
    = get_history 3700000 "D1" (Some "24h") Bus.sampled
  ∧ h_timestamp
    <$> default [] (get_history 3700000 "D1" (Some "yesterday") Bus.sampled)
    = [180000; 120000; 60000].
Proof.
  destruct (get_history_window 3700000 "D1" (Some "yesterday") Bus.sampled)
    as (_ & _ & _ & Hfallback).
  split; [reflexivity|]. split; [by apply Hfallback | reflexivity].
Defined.




Lemma delete_old_history_twice now d :
  SqlRead.delete_old_history now (SqlRead.delete_old_history now d)
  = SqlRead.delete_old_history now d.
Proof.
  unfold SqlRead.delete_old_history, with_device_history. cbn. f_equal.
  by apply list_filter_filter_l.
Qed.

(** X17: the clean-up timer removes exactly the samples older than 30 days
    and is idempotent; since no window of the history route reaches back
    further than 30 days, the route answers the same at the time of the
    clean-up and at any later time, whether or not the clean-up has run. *)
Theorem cleanup_keeps_windows now s :
  (∀ h, h ∈ device_history (db (cleanup now s))
        ↔ h ∈ device_history (db s) ∧ now - 30 * Interval.day ≤ h_timestamp h)
  ∧ cleanup now (cleanup now s) = cleanup now s
  ∧ ∀ later deviceId period,
      now ≤ later →
      get_history later deviceId period (cleanup now s)
      = get_history later deviceId period s.
Proof.
  split; [|split].
  - intros h. cbn. rewrite list_elem_of_filter. split.
    + intros [Hnew Hin]. split; [done | lia].
    + intros [Hin Hnew]. split; [lia | done].
  - unfold cleanup. cbn. by rewrite delete_old_history_twice.
  - intros later deviceId period Hlater.
    unfold get_history, SqlRead.select_history. cbn.
    destruct (Column.text deviceId); [|done]. f_equal. f_equal. f_equal.
    apply list_filter_filter_l. intros h [_ Hts].
    pose proof (interval_of_bound period). lia.
Qed.

(** Thirty days after the time 100000 the clean-up removes the sample of
    the time 60000 and keeps the two later ones, which are also what the
    history route answers for the last 30 days, with or without the
    clean-up. *)
Lemma cleanup_keeps_windows_witness :
  h_timestamp <$> device_history (db (cleanup 2592100000 Bus.sampled))
  = [120000; 180000]
  ∧ get_history 2592100000 "D1" (Some "30d") (cleanup 2592100000 Bus.sampled)
    = get_history 2592100000 "D1" (Some "30d") Bus.sampled
  ∧ h_timestamp
    <$> default [] (get_history 2592100000 "D1" (Some "30d") Bus.sampled)
    = [180000; 120000].
Proof.
  destruct (cleanup_keeps_windows 2592100000 Bus.sampled) as (_ & _ & Hsame).
  split; [reflexivity|]. split; [|reflexivity].
  apply Hsame. lia.
Defined.

(** ** The confirmation registry and pairing *)

Lemma matches_stored codes deviceId code candidateCode :
  codes !! deviceId = Some code → truthy code = true →
  matches codes deviceId candidateCode = strict_eq code candidateCode.
Proof. unfold matches, stored_code. intros -> Ht. cbn. by rewrite Ht. Qed.

(** X18: the registry keeps the last code a device advertised.  A processed
    status message with a truthy [confirmationCode] replaces the code on
    record for its device and for no other; one without a code, or with a
    falsy one, leaves the registry alone.  After the replacement a Pair
    call with any other candidate, such as the code shown before, is
    answered [InvalidCode] and changes nothing. *)
Theorem registry_last_write_wins JSON_parse now topic ns deviceId rest message
    status code s :
  split "/" topic = ns :: deviceId :: "status" :: rest →
  JSON_parse message = Some status →
  get_prop status "confirmationCode" = Some code →
  (truthy code = false →
   deviceConfirmationCodes (on_message JSON_parse now topic message s)
   = deviceConfirmationCodes s)
  ∧ (truthy code = true →
     deviceConfirmationCodes (on_message JSON_parse now topic message s)
     = <[deviceId := code]> (deviceConfirmationCodes s)
     ∧ (∀ other, other ≠ deviceId →
          stored_code
            (deviceConfirmationCodes (on_message JSON_parse now topic message s))
            other
          = stored_code (deviceConfirmationCodes s) other)
     ∧ ∀ later userId candidateCode name,
         candidateCode ≠ code →
         devices_route later userId deviceId candidateCode name
           (on_message JSON_parse now topic message s)
         = (InvalidCode, on_message JSON_parse now topic message s)).
Proof.
  intros Htopic Hparse Hcode.
  assert (Hv : nullish status = false) by by destruct status.
  pose proof (on_message_status JSON_parse now topic ns deviceId rest message
                status s Htopic Hparse Hv) as Hrun.
  destruct (on_status_codes _ _ _ _ _ Hrun) as (code' & Hcode' & Hcodes).
  rewrite Hcode in Hcode'. injection Hcode' as <-.
  split; intros Ht; rewrite Ht in Hcodes; [done|].
  split; [done|]. split.
  - intros other Hne. unfold stored_code. rewrite Hcodes.
    by rewrite lookup_insert_ne.
  - intros later userId candidateCode name Hne. unfold devices_route.
    rewrite Pair_no_match.
    + by destruct (on_message JSON_parse now topic message s).
    + rewrite (matches_stored _ _ code) by (by rewrite ?Hcodes, ?lookup_insert_eq).
      by apply strict_eq_ne.
Qed.

Lemma registry_last_write_wins_witness :
  deviceConfirmationCodes
    (on_message Bus.JSON_parse 5 "solar/D1/status" Bus.heartbeat Bus.boot)
  = <["D1" := JStr "482913"]> ∅
  ∧ devices_route 6 Scenario.U1 "D1" (JStr "111111") None Bus.heard
    = (InvalidCode, Bus.heard).
Proof.
  destruct (registry_last_write_wins Bus.JSON_parse 5 "solar/D1/status" "solar"
              "D1" [] Bus.heartbeat Bus.heartbeat_value (JStr "482913") Bus.boot)
    as [_ Hset]; try reflexivity.
  destruct (Hset eq_refl) as (Hcodes & _ & Hpair).
  split; [exact Hcodes|]. by apply Hpair.
Defined.

(** X19: the handler acts on the third level of the topic only: a message
    whose topic has fewer than three levels, or whose third level is
    neither [status] nor [online], leaves the process exactly as it was,
    whatever its payload. *)
Theorem on_message_other_topics JSON_parse now topic message s :
  (∀ ns deviceId kind rest,
     split "/" topic = ns :: deviceId :: kind :: rest →
     kind ≠ "status" → kind ≠ "online" →
     on_message JSON_parse now topic message s = s)
  ∧ ((length (split "/" topic) < 3)%nat →
     on_message JSON_parse now topic message s = s).
Proof.
  unfold on_message. split.
  - intros ns deviceId kind rest -> Hs Ho.
    rewrite (proj2 (String.eqb_neq kind "status")) by done.
    by rewrite (proj2 (String.eqb_neq kind "online")) by done.
  - intros Hshort.
    destruct (split "/" topic) as [|? [|? [|? ?]]]; try done.
    cbn in Hshort. lia.
Qed.

Lemma on_message_other_topics_witness :
  on_message Bus.JSON_parse 7 "solar/D1/command" Bus.heartbeat Bus.heard
    = Bus.heard
  ∧ on_message Bus.JSON_parse 7 "solar/status" Bus.heartbeat Bus.heard
    = Bus.heard.
Proof.
  destruct (on_message_other_topics Bus.JSON_parse 7 "solar/D1/command"
              Bus.heartbeat Bus.heard) as [Hkind _].
  destruct (on_message_other_topics Bus.JSON_parse 7 "solar/status"
              Bus.heartbeat Bus.heard) as [_ Hshort].
  split.
  - by apply (Hkind "solar" "D1" "command" []).
  - apply Hshort. cbn. lia.
Defined.

(** ** More on the presence sweep *)

Lemma swept_later t1 t2 p :
  t1 ≤ t2 → swept t2 (swept t1 p) = swept t2 p.
Proof.
  intros Hle. unfold swept.
  destruct (30000 <? t1 - lastSeen p) eqn:E1; [|done]. cbn.
  apply Z.ltb_lt in E1.
  by rewrite (proj2 (Z.ltb_lt 30000 (t2 - lastSeen p))) by lia.
Qed.

(** X20: sweeps compose: a sweep followed by a sweep at the same or a later
    time leaves the presence map as the later sweep alone would.  A sweep
    never adds, removes or revives a record: the map keeps its device ids,
    every record keeps its [lastSeen] and telemetry, and a record is online
    afterwards only if it was online before and was seen within the last
    30000 ms. *)
Theorem sweep_composes t1 t2 s :
  (t1 ≤ t2 → sweep t2 (sweep t1 s) = sweep t2 s)
  ∧ dom (deviceStatuses (sweep t1 s)) = dom (deviceStatuses s)
  ∧ ∀ deviceId p',
      deviceStatuses (sweep t1 s) !! deviceId = Some p' →
      ∃ p,
        deviceStatuses s !! deviceId = Some p
        ∧ lastSeen p' = lastSeen p
        ∧ telemetry p' = telemetry p
        ∧ (online p' = true → online p = true ∧ t1 - lastSeen p ≤ 30000).
Proof.
  split; [|split].
  - intros Hle. unfold sweep. cbn. unfold with_deviceStatuses. cbn. f_equal.
    apply map_eq. intros i. rewrite !lookup_fmap.
    destruct (deviceStatuses s !! i) as [p|]; cbn; [|done].
    f_equal. by apply swept_later.
  - cbn. apply dom_fmap_L.
  - intros deviceId p'. rewrite sweep_lookup.
    destruct (deviceStatuses s !! deviceId) as [p|]; cbn; [|done].
    intros [= <-]. exists p. split; [done|]. unfold swept.
    destruct (30000 <? t1 - lastSeen p) eqn:E; cbn.
    + repeat split; done.
    + apply Z.ltb_ge in E. repeat split; done.
Qed.

Lemma sweep_composes_witness :
  sweep 90000 (sweep 40000 Bus.heard) = sweep 90000 Bus.heard.
Proof.
  destruct (sweep_composes 40000 90000 Bus.heard) as [Hcompose _].
  apply Hcompose. lia.
Defined.



(** * More properties of the firmware *)

Module AgentProperties.
Import Firmware Agent.

Lemma sendStatus_events r st e :
  e ∈ sendStatus r st →
  connected r = true
  ∧ e = Publish ("solar/" +:+ deviceId st +:+ "/status")
          (JObj [("deviceId", JStr (deviceId st));
                 ("relayState", JBool (relayState st));
                 ("wifiRSSI", JNum (wifiRSSI r));
                 ("uptime", JNum (millis (t_status r) / 1000));
                 ("freeHeap", JNum (freeHeap r))])
          false.
Proof.
  unfold sendStatus. destruct (connected r); cbn.
  - intros Hin. by apply list_elem_of_singleton in Hin.
  - by intros ?%not_elem_of_nil.
Qed.

(** X22: the heartbeat of the firmware carries the device id, the relay
    state, the signal strength, the uptime and the free heap, and no
    [confirmationCode].  A server that decodes it to the document the
    firmware built therefore stores the presence record but leaves the
    registry alone, and while the registry has no code for the device every
    Pair call for it is answered [InvalidCode]. *)
Theorem heartbeat_carries_no_code r st e :
  e ∈ sendStatus r st →
  ∃ payload,
    e = Publish ("solar/" +:+ deviceId st +:+ "/status") payload false
    ∧ payload = status_doc r st
    ∧ get_prop payload "confirmationCode" = Some JUndefined
    ∧ get_prop payload "relayState" = Some (JBool (relayState st))
    ∧ ∀ now s,
        ∃ s',
          on_status now (deviceId st) payload s = Some s'
          ∧ deviceConfirmationCodes s' = deviceConfirmationCodes s
          ∧ (deviceConfirmationCodes s !! deviceId st = None →
             ∀ later userId candidateCode name,
               devices_route later userId (deviceId st) candidateCode name s'
               = (InvalidCode, s')).
Proof.
  intros [_ ->]%sendStatus_events. eexists. split; [reflexivity|].
  split; [reflexivity|]. split; [reflexivity|]. split; [reflexivity|].
  intros now s.
  match goal with |- context [on_status _ _ ?p _] => set (payload := p) end.
  destruct (on_status_db now (deviceId st) payload s eq_refl) as (s' & Hrun & _).
  exists s'. split; [done|].
  destruct (on_status_codes _ _ _ _ _ Hrun) as (code & Hcode & Hcodes).
  injection Hcode as <-. cbn in Hcodes. split; [done|].
  intros Hnone later userId candidateCode name. unfold devices_route.
  rewrite Pair_no_match.
  - by destruct s'.
  - apply matches_false_absent. by rewrite Hcodes.
Qed.

Lemma heartbeat_carries_no_code_witness :
  ∃ s',
    on_status 9 "D1"
      (JObj [("deviceId", JStr "D1"); ("relayState", JBool false);
             ("wifiRSSI", JNum (-61)); ("uptime", JNum 7);
             ("freeHeap", JNum 214000)])
      Bus.boot = Some s'
    ∧ deviceConfirmationCodes s' = ∅.
Proof.
  destruct (heartbeat_carries_no_code
              {| t_check := 7000; t_stamp := 7000; connect_ok := true;
                 connected := true; t_status := 7000; wifiRSSI := -61;
                 freeHeap := 214000 |}
              booted
              (Publish "solar/D1/status"
                 (JObj [("deviceId", JStr "D1"); ("relayState", JBool false);
                        ("wifiRSSI", JNum (-61)); ("uptime", JNum 7);
                        ("freeHeap", JNum 214000)]) false))
    as (payload & Hp & _ & _ & _ & Hrun).
  - cbn. by left.
  - injection Hp as <-.
    destruct (Hrun 9 Bus.boot) as (s' & Hs' & Hcodes & _).
    by exists s'.
Defined.

Section Commands.

Variable deserializeJson : string → option jsval.
Variable as_String : jsval → string.
Variable as_bool : jsval → bool.

(** X23: what a bus message does on the device.  A message on any topic
    but the device's own command topic, or one that does not deserialize,
    does nothing.  No command changes anything of the state but the relay
    state.  The [relay] command writes the commanded level to the relay
    pin, records it, and the status it then publishes reports it; the
    [restart] command reboots; a command that is none of [relay],
    [getStatus] and [restart] does nothing. *)
Theorem mqttCallback_commands r topic message st :
  (topic ≠ "solar/" +:+ deviceId st +:+ "/command" ∨ deserializeJson message = None →
   mqttCallback deserializeJson as_String as_bool r topic message st = (st, []))
  ∧ (∃ b, (mqttCallback deserializeJson as_String as_bool r topic message st).1
          = with_relayState b st)
  ∧ (∀ doc,
       topic = "solar/" +:+ deviceId st +:+ "/command" →
       deserializeJson message = Some doc →
       (as_String (member doc "command") = "relay" →
        mqttCallback deserializeJson as_String as_bool r topic message st
        = (with_relayState (as_bool (member doc "state")) st,
           DigitalWrite RELAY_PIN (as_bool (member doc "state"))
           :: (OnBus <$> sendStatus r
                 (with_relayState (as_bool (member doc "state")) st)))
        ∧ ∀ t payload retained,
            OnBus (Publish t payload retained)
              ∈ (mqttCallback deserializeJson as_String as_bool r topic
                   message st).2 →
            get_prop payload "relayState"
            = Some (JBool (as_bool (member doc "state"))))
       ∧ (as_String (member doc "command") = "restart" →
          mqttCallback deserializeJson as_String as_bool r topic message st
          = (st, [Restart]))
       ∧ (as_String (member doc "command") ≠ "relay" →
          as_String (member doc "command") ≠ "getStatus" →
          as_String (member doc "command") ≠ "restart" →
          mqttCallback deserializeJson as_String as_bool r topic message st
          = (st, []))).
Proof.
  assert (Hsame : with_relayState (relayState st) st = st) by by destruct st.
  split; [|split].
  - unfold mqttCallback. intros [Htopic | Herror].
    + by rewrite (proj2 (String.eqb_neq _ _)).
    + rewrite Herror. by destruct (String.eqb _ _).
  - unfold mqttCallback.
    destruct (String.eqb topic _); [|by exists (relayState st)].
    destruct (deserializeJson message) as [doc|]; [|by exists (relayState st)].
    destruct (String.eqb _ "relay"); [by eexists|].
    destruct (String.eqb _ "getStatus"); [by exists (relayState st)|].
    destruct (String.eqb _ "restart"); by exists (relayState st).
  - intros doc -> Hdoc. unfold mqttCallback.
    rewrite String.eqb_refl, Hdoc. split; [|split].
    + intros ->. cbn. split; [done|].
      intros t payload retained Hin.
      apply elem_of_cons in Hin as [? | Hin]; [done|].
      apply list_elem_of_fmap in Hin as (e & [= <-] & Hin).
      apply sendStatus_events in Hin as [_ Heq].
      by injection Heq as -> -> ->.
    + by intros ->.
    + intros Hrelay Hget Hrestart.
      rewrite (proj2 (String.eqb_neq _ "relay")) by done.
      rewrite (proj2 (String.eqb_neq _ "getStatus")) by done.
      by rewrite (proj2 (String.eqb_neq _ "restart")) by done.
Qed.

End Commands.

Lemma mqttCallback_commands_witness :
  mqttCallback Wire.deserializeJson Wire.as_String Wire.as_bool Wire.reading
    "solar/D2/command" "relay on" Wire.device = (Wire.device, [])
  ∧ (mqttCallback Wire.deserializeJson Wire.as_String Wire.as_bool Wire.reading
       "solar/D1/command" "relay on" Wire.device).1
    = with_relayState true Wire.device.
Proof.
  destruct (mqttCallback_commands Wire.deserializeJson Wire.as_String
              Wire.as_bool Wire.reading "solar/D2/command" "relay on"
              Wire.device) as (Hother & _ & _).
  destruct (mqttCallback_commands Wire.deserializeJson Wire.as_String
              Wire.as_bool Wire.reading "solar/D1/command" "relay on"
              Wire.device) as (_ & _ & Hcmd).
  split.
  - apply Hother. by left.
  - destruct (Hcmd Wire.relay_on eq_refl eq_refl) as (Hrelay & _ & _).
    destruct (Hrelay eq_refl) as [Heq _]. by rewrite Heq.
Defined.

Lemma sendStatus_connected r st :
  connected r = true →
  sendStatus r st
  = [Publish ("solar/" +:+ deviceId st +:+ "/status") (status_doc r st) false].
Proof. unfold sendStatus. by intros ->. Qed.

(** X24: server and firmware agree on the command and status interfaces.
    Provided the codecs of the two sides invert each other on the two
    documents involved, a relay command sent through the control route for
    a device id reaches the device of that id: the device writes the
    commanded level to the relay pin, records it and, while connected,
    answers with a status that the server's handler turns into a presence
    record for that device, online and with the commanded relay state. *)
Theorem relay_command_round_trip JSON_stringify JSON_parse deserializeJson
    serializeJson as_String as_bool b r st s now :
  deserializeJson
    (JSON_stringify (JObj [("command", JStr "relay"); ("state", JBool b)]))
  = Some (JObj [("command", JStr "relay"); ("state", JBool b)]) →
  as_String (JStr "relay") = "relay" →
  as_bool (JBool b) = b →
  JSON_parse (serializeJson (status_doc r (with_relayState b st)))
  = Some (status_doc r (with_relayState b st)) →
  no_slash (deviceId st) = true →
  connected r = true →
  ∃ topic payload,
    published (post_control JSON_stringify (deviceId st) (JStr "relay")
                 (JBool b) s).2
    = published s ++ [(topic, payload)]
    ∧ mqttCallback deserializeJson as_String as_bool r topic payload st
      = (with_relayState b st,
         [DigitalWrite RELAY_PIN b;
          OnBus (Publish ("solar/" +:+ deviceId st +:+ "/status")
                   (status_doc r (with_relayState b st)) false)])
    ∧ ∀ s',
        ∃ p,
          deviceStatuses
            (on_message JSON_parse now ("solar/" +:+ deviceId st +:+ "/status")
               (serializeJson (status_doc r (with_relayState b st))) s')
            !! deviceId st = Some p
          ∧ online p = true
          ∧ lastSeen p = now
          ∧ assoc "relayState" (telemetry p) = JBool b.
Proof.
  intros Hcommand Hstring Hbool Hstatus Hlevel Hconnected.
  eexists _, _. split; [reflexivity|]. split.
  - unfold mqttCallback. rewrite String.eqb_refl, Hcommand. cbn.
    rewrite Hstring, Hbool. cbn.
    by rewrite sendStatus_connected.
  - intros s'.
    assert (Htopic : split "/" ("solar/" +:+ deviceId st +:+ "/status")
                     = ["solar"; deviceId st; "status"])
      by by apply split_device_topic.
    pose proof (on_message_status JSON_parse now _ "solar" (deviceId st) []
                  _ _ s' Htopic Hstatus eq_refl) as Hrun.
    apply on_status_presence in Hrun. cbn in Hrun.
    eexists. split; [exact Hrun|]. done.
Qed.

Lemma relay_command_round_trip_witness :
  ∃ p,
    deviceStatuses
      (on_message Wire.JSON_parse 70001 "solar/D1/status" "relay is on"
         Bus.paired) !! "D1" = Some p
    ∧ online p = true
    ∧ assoc "relayState" (telemetry p) = JBool true.
Proof.
  destruct (relay_command_round_trip Wire.JSON_stringify Wire.JSON_parse
              Wire.deserializeJson Wire.serializeJson Wire.as_String
              Wire.as_bool true Wire.reading Wire.device Bus.paired 70001)
    as (topic & payload & _ & _ & Hback); try reflexivity.
  destruct (Hback Bus.paired) as (p & Hp & Hon & _ & Hrelay).
  by exists p.
Defined.

(** ** The confirmation code and the WiFi wait *)

Lemma pretty_digit (z : Z) :
  0 ≤ z < 10 → ∃ c, pretty z = String c EmptyString ∧ digit c = true.
Proof.
  intros Hz.
  assert (Hcases : z = 0 ∨ z = 1 ∨ z = 2 ∨ z = 3 ∨ z = 4 ∨ z = 5 ∨ z = 6
                   ∨ z = 7 ∨ z = 8 ∨ z = 9) by lia.
  destruct Hcases as [-> | [-> | [-> | [-> | [-> | [-> | [-> | [-> | [-> | ->]]]]]]]]];
    eexists; split; reflexivity.
Qed.

(** X25: the confirmation code the firmware generates at boot has exactly
    six characters, all decimal digits, whenever [random(0, 10)] keeps to
    its range; as a non-empty string it is a value the server's handler
    would store if it were advertised. *)
Theorem generateConfirmationCode_six_digits random :
  (∀ i, (i < CONFIRMATION_CODE_LENGTH)%nat → 0 ≤ random i < 10) →
  String.length (generateConfirmationCode random) = CONFIRMATION_CODE_LENGTH
  ∧ digits (generateConfirmationCode random) = true
  ∧ truthy (JStr (generateConfirmationCode random)) = true.
Proof.
  intros Hrange. unfold generateConfirmationCode, CONFIRMATION_CODE_LENGTH in *.
  destruct (pretty_digit (random 0%nat)) as (c0 & E0 & D0); [apply Hrange; lia|].
  destruct (pretty_digit (random 1%nat)) as (c1 & E1 & D1); [apply Hrange; lia|].
  destruct (pretty_digit (random 2%nat)) as (c2 & E2 & D2); [apply Hrange; lia|].
  destruct (pretty_digit (random 3%nat)) as (c3 & E3 & D3); [apply Hrange; lia|].
  destruct (pretty_digit (random 4%nat)) as (c4 & E4 & D4); [apply Hrange; lia|].
  destruct (pretty_digit (random 5%nat)) as (c5 & E5 & D5); [apply Hrange; lia|].
  cbn [seq foldl]. rewrite E0, E1, E2, E3, E4, E5.
  change (String.length
            (String c0 (String c1 (String c2 (String c3 (String c4
               (String c5 EmptyString)))))) = 6%nat
          ∧ digits (String c0 (String c1 (String c2 (String c3 (String c4
               (String c5 EmptyString)))))) = true
          ∧ truthy (JStr (String c0 (String c1 (String c2 (String c3
               (String c4 (String c5 EmptyString))))))) = true).
  split; [done|]. split; [|done].
  cbn [digits]. by rewrite D0, D1, D2, D3, D4, D5.
Qed.

Lemma generateConfirmationCode_six_digits_witness :
  generateConfirmationCode (λ i, Z.of_nat ((4 + 7 * i) mod 10)) = "418529"
  ∧ String.length
      (generateConfirmationCode (λ i, Z.of_nat ((4 + 7 * i) mod 10))) = 6%nat.
Proof.
  split; [reflexivity|].
  apply generateConfirmationCode_six_digits.
  intros i Hi. split; [lia|].
  pose proof (Nat.mod_upper_bound (4 + 7 * i) 10). lia.
Defined.

Lemma wait_for_wifi_spec connected_at : ∀ budget attempts,
  (attempts ≤ wait_for_wifi connected_at attempts budget ≤ attempts + budget)%nat
  ∧ (∀ k, (attempts ≤ k < wait_for_wifi connected_at attempts budget)%nat →
          connected_at k = false)
  ∧ ((wait_for_wifi connected_at attempts budget < attempts + budget)%nat →
     connected_at (wait_for_wifi connected_at attempts budget) = true).
Proof.
  induction budget as [|budget IH]; intros attempts; cbn.
  - split; [lia|]. split; intros; lia.
  - destruct (connected_at attempts) eqn:E.
    + split; [lia|]. split; [intros; lia | done].
    + destruct (IH (S attempts)) as (Hbound & Hbefore & Hfound).
      split; [lia|]. split.
      * intros k Hk. destruct (decide (k = attempts)) as [-> | Hne]; [done|].
        apply Hbefore. lia.
      * intros Hlt. apply Hfound. lia.
Qed.

(** X26: [connectToWiFi] gives up after 20 waits of 500 ms.  It waits only
    while the station is not connected, stops early at the first connected
    reading, and sets [wifiConnected] from the reading taken after the
    loop, leaving the rest of the state alone; a station that connects at
    some reading within the budget and stays connected is reported
    connected after as many waits as readings came before, one that never
    connects is reported not connected after exactly 20 waits. *)
Theorem connectToWiFi_bounded connected_at st :
  ((connectToWiFi connected_at st).2 ≤ 20)%nat
  ∧ (∀ k, (k < (connectToWiFi connected_at st).2)%nat → connected_at k = false)
  ∧ (((connectToWiFi connected_at st).2 < 20)%nat →
     connected_at (connectToWiFi connected_at st).2 = true)
  ∧ (connectToWiFi connected_at st).1
    = with_wifiConnected
        (connected_at (S (connectToWiFi connected_at st).2)) st
  ∧ (∀ first,
       (first ≤ 20)%nat →
       (∀ k, (k < first)%nat → connected_at k = false) →
       (∀ k, (first ≤ k)%nat → connected_at k = true) →
       wifiConnected (connectToWiFi connected_at st).1 = true
       ∧ (connectToWiFi connected_at st).2 = first)
  ∧ ((∀ k, (k ≤ 21)%nat → connected_at k = false) →
     wifiConnected (connectToWiFi connected_at st).1 = false
     ∧ (connectToWiFi connected_at st).2 = 20%nat).
Proof.
  unfold connectToWiFi. cbn [fst snd].
  destruct (wait_for_wifi_spec connected_at 20 0) as (Hbound & Hbefore & Hfound).
  split; [lia|]. split; [intros k Hk; apply Hbefore; lia|].
  split; [intros Hlt; apply Hfound; lia|]. split; [done|]. split.
  - intros first Hfirst Hoff Hon.
    assert (Hle : (wait_for_wifi connected_at 0 20 ≤ first)%nat).
    { destruct (decide (wait_for_wifi connected_at 0 20 ≤ first)%nat); [done|].
      assert (connected_at first = false) by (apply Hbefore; lia).
      assert (connected_at first = true) by by apply Hon. congruence. }
    assert (Heq : wait_for_wifi connected_at 0 20 = first).
    { destruct (decide (wait_for_wifi connected_at 0 20 = first)); [done|].
      assert (Hlt : (wait_for_wifi connected_at 0 20 < 0 + 20)%nat) by lia.
      apply Hfound in Hlt. rewrite Hoff in Hlt by lia. done. }
    split; [|done]. cbn [wifiConnected with_wifiConnected]. apply Hon. lia.
  - intros Hoff. split; [cbn [wifiConnected with_wifiConnected]; apply Hoff; lia|].
    destruct (decide (wait_for_wifi connected_at 0 20 = 20%nat)); [done|].
    assert (Hlt : (wait_for_wifi connected_at 0 20 < 0 + 20)%nat) by lia.
    apply Hfound in Hlt. rewrite Hoff in Hlt by lia. done.
Qed.

Lemma connectToWiFi_bounded_witness :
  wifiConnected
    (connectToWiFi (λ k, bool_decide (3 ≤ k)%nat) Wire.device).1 = true
  ∧ (connectToWiFi (λ k, bool_decide (3 ≤ k)%nat) Wire.device).2 = 3%nat.
Proof.
  destruct (connectToWiFi_bounded (λ k, bool_decide (3 ≤ k)%nat) Wire.device)
    as (_ & _ & _ & _ & Hon & _).
  apply (Hon 3%nat); [lia | |].
  - intros k Hk. apply bool_decide_eq_false. lia.
  - intros k Hk. by apply bool_decide_eq_true.
Defined.

(** A reading that flickers: connected when the loop looks, gone when
    [connectToWiFi] looks again. *)
Example connectToWiFi_flicker :
  connectToWiFi (λ k, bool_decide (k = 2)%nat) Wire.device
  = (with_wifiConnected false Wire.device, 2%nat).
Proof. reflexivity. Qed.

End AgentProperties.

(** * Properties of the earlier server *)

Module LegacyProperties.
Import Legacy.

Lemma saveDeviceStatus_cases now deviceId status d :
  saveDeviceStatus now deviceId status d = d
  ∨ ∃ h,
      h_device_id h = deviceId
      ∧ deviceId ∈ d_device_id <$> devices d
      ∧ users (saveDeviceStatus now deviceId status d) = users d
      ∧ devices (saveDeviceStatus now deviceId status d) = devices d
      ∧ device_history (saveDeviceStatus now deviceId status d)
        = device_history d ++ [h].
Proof.
  unfold saveDeviceStatus.
  destruct (negb (Column.text deviceId)); [by left|].
  destruct (filter _ (devices d)) as [|dev ?] eqn:E; [by left|].
  assert (Hin : dev ∈ filter (λ dev, d_device_id dev = deviceId) (devices d))
    by (rewrite E; by left).
  apply list_elem_of_filter in Hin as [Hid Hin].
  destruct (history_parameters deviceId status) as [[[[? ?] ?] ?]|];
    [|by left].
  right. cbn. eexists. split; [|split; [|done]]; [done|].
  apply list_elem_of_fmap. by exists dev.
Qed.

Lemma saveDeviceStatus_references now deviceId status d :
  references d → references (saveDeviceStatus now deviceId status d).
Proof.
  intros [Hfk Hnd].
  destruct (saveDeviceStatus_cases now deviceId status d)
    as [-> | (h & Hid & Hdev & _ & Hds & Hhs)]; [done|].
  split; rewrite Hds; [|done]. rewrite Hhs.
  apply Forall_app. split; [done|]. constructor; [|constructor].
  by rewrite Hid.
Qed.

(** X27: the earlier server never breaks the reference from a sample to its
    device, nor the uniqueness of device ids: whatever the bus delivers,
    and whoever adds or deletes devices, every History row is of a device
    id that has a Device row and no device id has two rows.  The handler
    stores a sample only for a device that has a row, and deleting a device
    deletes its samples. *)
Theorem legacy_keeps_references JSON_parse d :
  references d →
  (∀ now topic message statuses,
     references (db (on_message JSON_parse now topic message
                       {| db := d; deviceStatuses := statuses |})))
  ∧ (∀ now userId deviceId confirmationCode name,
       references (post_devices now userId deviceId confirmationCode name d).2)
  ∧ (∀ deviceId, references (delete_devices deviceId d).2).
Proof.
  intros Href. split; [|split].
  - intros now topic message statuses. unfold on_message.
    destruct (split "/" topic) as [|? [|deviceId [|messageType ?]]]; try done.
    destruct (String.eqb messageType "status").
    + destruct (JSON_parse message); [|done]. cbn.
      by apply saveDeviceStatus_references.
    + by destruct (String.eqb messageType "online").
  - intros now userId deviceId confirmationCode name. unfold post_devices.
    destruct (negb (Column.text deviceId)); [done|].
    destruct (filter _ (devices d)) as [|dev ?] eqn:E; [|done].
    destruct (negb (Column.bigint userId)); [done|].
    destruct (u_id <$> filter _ (users d)) as [|uid ?]; [done|].
    destruct (negb (_ && _)); [done|].
    destruct Href as [Hfk Hnd]. split; cbn.
    + eapply Forall_impl; [exact Hfk|]. intros h Hh. cbn in *.
      rewrite fmap_app. apply elem_of_app. by left.
    + apply NoDup_fmap_snoc; [done|]. cbn.
      intros (dev & Hid & Hin)%list_elem_of_fmap.
      assert (Hf : dev ∈ filter (λ dev, d_device_id dev = deviceId) (devices d))
        by by apply list_elem_of_filter.
      rewrite E in Hf. by apply not_elem_of_nil in Hf.
  - intros deviceId. unfold delete_devices.
    destruct (negb (Column.text deviceId)); [done|].
    destruct Href as [Hfk Hnd]. split; cbn.
    + case_decide as Hex.
      * apply Forall_forall. intros h [Hne Hin]%list_elem_of_filter.
        rewrite Forall_forall in Hfk. specialize (Hfk h Hin).
        apply list_elem_of_fmap in Hfk as (dev & Hid & Hdev).
        apply list_elem_of_fmap. exists dev. split; [done|].
        apply list_elem_of_filter. split; [congruence | done].
      * rewrite filter_all_keep; [done|].
        apply Forall_forall. intros dev Hdev Hid. apply Hex.
        apply Exists_exists. by exists dev.
    + by apply NoDup_fmap_filter.
Qed.

Lemma legacy_keeps_references_witness :
  references (delete_devices "D1" sample).2
  ∧ references (post_devices 40 1001 "D2" (JStr "anything") None sample).2.
Proof.
  assert (Href : references sample)
    by (apply (bool_decide_unpack _); vm_compute; reflexivity).
  destruct (legacy_keeps_references (λ _, None) sample Href) as (_ & Hpost & Hdel).
  split; [apply Hdel | apply Hpost].
Defined.

Lemma no_device_row deviceId (d : Db) :
  ¬ Exists (λ dev, d_device_id dev = deviceId) (devices d) →
  filter (λ dev, d_device_id dev = deviceId) (devices d) = [].
Proof.
  intros Hno. apply filter_nil_not_any, Forall_forall.
  intros dev Hdev Hid. apply Hno, Exists_exists. by exists dev.
Qed.

(** X28: in the earlier server a device id is claimed by whoever adds it
    first.  A device id with NUL is no text for the database, and the
    answer is 500.  Otherwise a device id that has a row is refused with
    [Device already exists], whoever asks and before the user is looked up;
    otherwise an identity outside BIGINT gets 500, and an identity that is
    a safe integer and has no User row is refused with [User not found];
    otherwise, when the device id and the given name fit VARCHAR(255), the
    device is created for a user of that identity, under the given name,
    or without one under [Solar Controller] and the last four characters
    of an ASCII device id.  Every refusal and every 500 changes nothing. *)
Theorem legacy_first_claim_wins now userId deviceId confirmationCode name d :
  (Column.text deviceId = false →
   post_devices now userId deviceId confirmationCode name d
   = (InternalServerError, d))
  ∧ (Column.text deviceId = true →
     Exists (λ dev, d_device_id dev = deviceId) (devices d) →
     post_devices now userId deviceId confirmationCode name d
     = (Failed 400 "Device already exists", d))
  ∧ (Column.text deviceId = true →
     ¬ Exists (λ dev, d_device_id dev = deviceId) (devices d) →
     Column.bigint userId = false →
     post_devices now userId deviceId confirmationCode name d
     = (InternalServerError, d))
  ∧ (Column.text deviceId = true →
     ¬ Exists (λ dev, d_device_id dev = deviceId) (devices d) →
     Z.abs userId < 2 ^ 53 →
     Forall (λ u, u_telegram_id u ≠ userId) (users d) →
     post_devices now userId deviceId confirmationCode name d
     = (Failed 404 "User not found", d))
  ∧ (Column.varchar 255 deviceId = true →
     ¬ Exists (λ dev, d_device_id dev = deviceId) (devices d) →
     Z.abs userId < 2 ^ 53 →
     (∀ n, name = Some n → Column.varchar 255 n = true) →
     ∀ u,
       u ∈ users d → u_telegram_id u = userId →
       ∃ row,
         post_devices now userId deviceId confirmationCode name d
         = (Created row,
            {| users := users d; devices := devices d ++ [row];
               device_history := device_history d;
               users_id_seq := users_id_seq d;
               devices_id_seq := devices_id_seq d + 1;
               device_history_id_seq := device_history_id_seq d |})
         ∧ d_id row = devices_id_seq d
         ∧ d_device_id row = deviceId
         ∧ (∀ n, name = Some n → n ≠ "" → d_name row = n)
         ∧ (name = None ∨ name = Some "" →
            ascii_text deviceId = true →
            d_name row = "Solar Controller " +:+ slice_last 4 deviceId)
         ∧ d_user_id row ∈ u_id <$> filter (λ u, u_telegram_id u = userId)
                                           (users d)).
Proof.
  unfold post_devices. split; [|split; [|split; [|split]]].
  - by intros ->.
  - intros -> (dev & Hin & Hid)%Exists_exists. cbn.
    assert (Hf : dev ∈ filter (λ dev, d_device_id dev = deviceId) (devices d))
      by by apply list_elem_of_filter.
    by destruct (filter _ (devices d)); [apply not_elem_of_nil in Hf|].
  - intros -> Hno ->. cbn. by rewrite no_device_row.
  - intros -> Hno Hsafe%safe_integer_bigint Hunseen. cbn.
    rewrite no_device_row, Hsafe by done. cbn.
    by rewrite (proj2 (filter_nil_not_any _ (users d))).
  - intros Hfits Hno Hsafe%safe_integer_bigint Hname u Hu Ht.
    rewrite (varchar_text _ _ Hfits), no_device_row, Hsafe by done. cbn.
    assert (Hf : u ∈ filter (λ u, u_telegram_id u = userId) (users d))
      by by apply list_elem_of_filter.
    destruct (filter _ (users d)) as [|u0 us] eqn:E;
      [by apply not_elem_of_nil in Hf|].
    rewrite Hfits, (device_name_fits name deviceId)
      by eauto using varchar_text.
    cbn. eexists. split; [reflexivity|]. cbn.
    split; [done|]. split; [done|]. split; [|split; [|by left]].
    + intros n -> Hn. cbn. by apply String.eqb_neq in Hn as ->.
    + by intros [-> | ->] _.
Qed.

(** [U1] asks for [D1], which has a row, and for the new [D2], which it
    gets under the default name; the identity [2 ^ 63] gets 500. *)
Lemma legacy_first_claim_wins_witness :
  post_devices 40 1001 "D1" (JStr "anything") None sample
  = (Failed 400 "Device already exists", sample)
  ∧ post_devices 40 (2 ^ 63) "D2" (JStr "anything") None sample
    = (InternalServerError, sample)
  ∧ ∃ row,
      (post_devices 40 1001 "D2" (JStr "anything") None sample).1 = Created row
      ∧ d_name row = "Solar Controller D2".
Proof.
  destruct (legacy_first_claim_wins 40 1001 "D1" (JStr "anything") None sample)
    as (_ & Hexists & _).
  destruct (legacy_first_claim_wins 40 (2 ^ 63) "D2" (JStr "anything") None
              sample) as (_ & _ & Hrange & _).
  destruct (legacy_first_claim_wins 40 1001 "D2" (JStr "anything") None sample)
    as (_ & _ & _ & _ & Hnew).
  split; [|split].
  - apply Hexists; [reflexivity|].
    apply (bool_decide_unpack _). vm_compute. reflexivity.
  - apply Hrange; [reflexivity | | reflexivity].
    apply (bool_decide_unpack _). vm_compute. reflexivity.
  - destruct (Hnew eq_refl) with
      (u := {| u_id := 1; u_telegram_id := 1001; u_username := None;
               u_created_at := 10 |})
      as (row & Hrun & _ & _ & _ & Hname & _).
    + apply (bool_decide_unpack _). vm_compute. reflexivity.
    + lia.
    + intros n Hn. discriminate Hn.
    + by left.
    + reflexivity.
    + exists row. rewrite Hrun. split; [reflexivity|].
      apply Hname; [by left | reflexivity].
Defined.

(** A device id with NUL is refused by the database, and the route answers
    500. *)
Example legacy_delete_refused :
  delete_devices (String "000" "") sample = (InternalServerError, sample).
Proof. reflexivity. Qed.

(** X29: in the earlier server anybody may delete a device: the route takes
    no caller and answers success for every device id that is a text for
    the database, and 500 for one with NUL, leaving every row; after the
    success neither a Device row nor a History row of that device id is
    left, while the rows of every other device id and all users stay; a
    database that satisfied the references loses exactly the samples of
    that device. *)
Theorem legacy_delete_takes_samples deviceId d :
  references d →
  (delete_devices deviceId d).1
  = (if Column.text deviceId then Succeeded else InternalServerError)
  ∧ users (delete_devices deviceId d).2 = users d
  ∧ (∀ dev, dev ∈ devices (delete_devices deviceId d).2
            ↔ dev ∈ devices d
              ∧ (Column.text deviceId = true → d_device_id dev ≠ deviceId))
  ∧ (∀ h, h ∈ device_history (delete_devices deviceId d).2
          ↔ h ∈ device_history d
            ∧ (Column.text deviceId = true → h_device_id h ≠ deviceId)).
Proof.
  intros [Hfk _]. unfold delete_devices.
  destruct (Column.text deviceId); cbn [negb fst snd].
  2: { split; [done|]. split; [done|].
       split; intros x;
         (split; [intros Hin; split; [done | discriminate] | by intros [? _]]). }
  split; [done|]. split; [done|]. split.
  - intros dev. cbn. rewrite list_elem_of_filter. tauto.
  - intros h. cbn. case_decide as Hex.
    + rewrite list_elem_of_filter. tauto.
    + split; [|tauto]. intros Hin. split; [done|]. intros _ Hid.
      rewrite Forall_forall in Hfk. specialize (Hfk h Hin).
      apply list_elem_of_fmap in Hfk as (dev & Hd & Hdev).
      apply Hex, Exists_exists. exists dev. split; [done | congruence].
Qed.

Lemma legacy_delete_takes_samples_witness :
  Forall (λ h, h_device_id h ≠ "D1")
         (device_history (delete_devices "D1" sample).2)
  ∧ (delete_devices "D1" sample).1 = Succeeded
  ∧ device_history (delete_devices "D1" sample).2 = [].
Proof.
  assert (Href : references sample)
    by (apply (bool_decide_unpack _); vm_compute; reflexivity).
  destruct (legacy_delete_takes_samples "D1" sample Href)
    as (Hok & _ & _ & Hh).
  split; [|split; [exact Hok | reflexivity]].
  apply Forall_forall. intros h Hin. apply Hh in Hin as [_ Hne].
  by apply Hne.
Defined.

End LegacyProperties.
